(** * SIA: signal-fusion engine, indicator library and advisory cache

    A shallow embedding of the Python services of the repository
    ([app/services/strategy_engine.py], [app/services/data_service.py],
    [app/services/llm_service.py], [app/models/database.py]) and the
    properties their specification states about them, followed by the
    routes that call them ([app/api/strategy.py], [app/api/data.py],
    [app/api/etf.py]) and further properties of both.

    Numbers.  Python's [float] and numpy's [float64] are embedded as
    [pyfloat]: a rational, or one of the three IEEE special values.  In the
    services as they are defined first, finite arithmetic is exact (no
    rounding, no overflow) and its results are kept in lowest terms; the
    special values follow the IEEE rules numpy applies (x/0 is an infinity
    or NaN, every comparison with NaN is false).  Zero carries no sign.
    The module [Rounded] takes the position sizer, the moving average and
    the Bollinger bands once more with the rounding and the overflow of
    binary64, for the properties that depend on them; the module
    [Binary64] runs the voting and the sizing on the floats of the kernel.

    Strings.  The action names and the fixed texts are the byte strings of
    the source: "买入" is Buy, "卖出" is Sell, "持有" is Hold, "数据不足" is
    "insufficient data".

    Effects.  The table of the advisory cache, the clock and numpy's global
    random generator are passed to the functions that use them and returned
    by those that change them.

    The definitions come first, in the order of the source files; the
    properties follow, one section for each part of the specification. *)

From Stdlib Require Import String DecimalString List Bool Arith ZArith QArith Qround
  Qpower.
From Stdlib Require Import PrimFloat FloatOps SpecFloat.
From Stdlib Require Import Lia Lqa Morphisms Setoid.
Import ListNotations.

Open Scope string_scope.
Open Scope Q_scope.

(* ================================================================= *)
(** ** Floating-point values *)

Inductive pyfloat : Type :=
| Fin (q : Q)
| PInf
| NInf
| NaN.

Definition Qlt_bool (a b : Q) : bool := negb (Qle_bool b a).

Definition fneg (x : pyfloat) : pyfloat :=
  match x with
  | Fin q => Fin (Qred (- q))
  | PInf => NInf
  | NInf => PInf
  | NaN => NaN
  end.

Definition fadd (x y : pyfloat) : pyfloat :=
  match x, y with
  | NaN, _ | _, NaN => NaN
  | PInf, NInf | NInf, PInf => NaN
  | PInf, _ | _, PInf => PInf
  | NInf, _ | _, NInf => NInf
  | Fin a, Fin b => Fin (Qred (a + b))
  end.

Definition fsub (x y : pyfloat) : pyfloat := fadd x (fneg y).

(** An infinity times a finite number: NaN at zero, else the sign rule. *)
Definition inf_times (pos : bool) (b : Q) : pyfloat :=
  if Qeq_bool b 0 then NaN
  else if Bool.eqb pos (Qlt_bool 0 b) then PInf else NInf.

Definition fmul (x y : pyfloat) : pyfloat :=
  match x, y with
  | NaN, _ | _, NaN => NaN
  | Fin a, Fin b => Fin (Qred (a * b))
  | PInf, Fin b | Fin b, PInf => inf_times true b
  | NInf, Fin b | Fin b, NInf => inf_times false b
  | PInf, PInf | NInf, NInf => PInf
  | PInf, NInf | NInf, PInf => NInf
  end.

(** numpy's division: a zero divisor gives an infinity of the sign of the
    dividend, or NaN for 0/0; nothing is raised. *)
Definition fdiv (x y : pyfloat) : pyfloat :=
  match x, y with
  | NaN, _ | _, NaN => NaN
  | Fin a, Fin b =>
      if Qeq_bool b 0 then
        (if Qeq_bool a 0 then NaN else if Qlt_bool 0 a then PInf else NInf)
      else Fin (Qred (a / b))
  | Fin _, PInf | Fin _, NInf => Fin 0
  | PInf, Fin b => if Qle_bool 0 b then PInf else NInf
  | NInf, Fin b => if Qle_bool 0 b then NInf else PInf
  | _, _ => NaN
  end.

Definition fltb (x y : pyfloat) : bool :=
  match x, y with
  | NaN, _ | _, NaN => false
  | Fin a, Fin b => Qlt_bool a b
  | NInf, Fin _ | NInf, PInf | Fin _, PInf => true
  | _, _ => false
  end.

Definition feqb (x y : pyfloat) : bool :=
  match x, y with
  | Fin a, Fin b => Qeq_bool a b
  | PInf, PInf | NInf, NInf => true
  | _, _ => false
  end.

Definition fleb (x y : pyfloat) : bool := fltb x y || feqb x y.
Definition fgtb (x y : pyfloat) : bool := fltb y x.
Definition fgeb (x y : pyfloat) : bool := fleb y x.
Definition fneb (x y : pyfloat) : bool := negb (feqb x y).

Definition isnan (x : pyfloat) : bool :=
  match x with NaN => true | _ => false end.

Definition of_nat (n : nat) : pyfloat := Fin (inject_Z (Z.of_nat n)).

(** Equality of values, up to the representation of the fraction. *)
Definition feq (x y : pyfloat) : Prop :=
  match x, y with
  | Fin a, Fin b => a == b
  | PInf, PInf | NInf, NInf | NaN, NaN => True
  | _, _ => False
  end.

(** [round(x, ndigits)] of Python on a float: round half to even at the
    given decimal digit; the special values are returned as they are. *)
Definition round_half_even (q : Q) : Z :=
  let f := Qfloor q in
  let r := q - inject_Z f in
  if Qlt_bool r (1 # 2) then f
  else if Qlt_bool (1 # 2) r then (f + 1)%Z
  else if Z.even f then f else (f + 1)%Z.

Definition py_round (x : pyfloat) (ndigits : nat) : pyfloat :=
  match x with
  | Fin q =>
      let scale := inject_Z (10 ^ Z.of_nat ndigits) in
      Fin (Qred (inject_Z (round_half_even (q * scale)) / scale))
  | _ => x
  end.

(** The builtins [min(a, b)] and [max(a, b)]: the first argument unless the
    second is strictly smaller (greater). *)
Definition py_min (a b : pyfloat) : pyfloat := if fltb b a then b else a.
Definition py_max (a b : pyfloat) : pyfloat := if fgtb b a then b else a.

(* ================================================================= *)
(** ** Library functions the services call

    [np.sqrt] (inside pandas' rolling standard deviation), the format
    specifications [:.1f] and [:.0%], [hashlib.md5(..).hexdigest()] and the
    builtin [hash] are not defined by the repository; they are taken as an
    interface, and every result below holds for any implementation.  The
    builtin [hash] of a string is salted when the interpreter starts: it
    is a function for the life of one interpreter process, which is what
    [py_hash] stands for, and another function in another process, which
    is another [PyLib]. *)

Class PyLib : Type := {
  sqrtQ : Q -> Q;
  format_1f : pyfloat -> string;
  format_pct : pyfloat -> string;
  md5_hexdigest : string -> string;
  py_hash : string -> Z
}.

(* ================================================================= *)
(** ** Dictionaries in insertion order *)

Definition dict (V : Type) : Type := list (string * V).

Fixpoint dict_get {V : Type} (d : dict V) (k : string) : option V :=
  match d with
  | [] => None
  | (k', v) :: rest => if String.eqb k' k then Some v else dict_get rest k
  end.

(** [d[k] = f(d[k])]; [None] is Python's [KeyError]. *)
Fixpoint dict_update {V : Type} (f : V -> V) (d : dict V) (k : string)
  : option (dict V) :=
  match d with
  | [] => None
  | (k', v) :: rest =>
      if String.eqb k' k then Some ((k', f v) :: rest)
      else option_map (cons (k', v)) (dict_update f rest k)
  end.

Definition dict_keys {V : Type} (d : dict V) : list string := map fst d.

(** [d[k]] for a key known to be present ([dflt] is never returned then). *)
Definition dict_at {V : Type} (dflt : V) (d : dict V) (k : string) : V :=
  match dict_get d k with Some v => v | None => dflt end.

(* ================================================================= *)
(** ** pandas Series operations used by the services

    A Series of floats is a list; [iloc_neg s k] is [s.iloc[-k]], read
    where the guards of the callers keep the index inside the series. *)

Definition Series : Type := list pyfloat.

Definition iloc_neg (s : Series) (k : nat) : pyfloat :=
  nth (length s - k) s NaN.

Fixpoint diff_from (prev : pyfloat) (xs : Series) : Series :=
  match xs with
  | [] => []
  | x :: rest => fsub x prev :: diff_from x rest
  end.

(** [s.diff()]: NaN first, then the step differences. *)
Definition diff (s : Series) : Series :=
  match s with
  | [] => []
  | x :: rest => NaN :: diff_from x rest
  end.

(** [s.where(cond, other)]: keep where the condition holds. *)
Definition where_ (cond : pyfloat -> bool) (other : pyfloat) (s : Series)
  : Series :=
  map (fun v => if cond v then v else other) s.

Definition fillna (v : pyfloat) (s : Series) : Series :=
  map (fun x => if isnan x then v else x) s.

Definition fsum (l : Series) : pyfloat := fold_left fadd l (Fin 0).

Definition mean (win : Series) : pyfloat :=
  fdiv (fsum win) (of_nat (length win)).

(** The [w] observations ending at index [i]. *)
Definition window_at {A : Type} (w i : nat) (s : list A) : list A :=
  firstn w (skipn (S i - w) s).

(** A value a rolling window counts as missing: NaN, and the infinities,
    which pandas turns into NaN before it aggregates. *)
Definition missing (x : pyfloat) : bool :=
  match x with Fin _ => false | _ => true end.

(** [s.rolling(window=w).agg()] with the default [min_periods = w]: NaN
    until [w] observations are there, and wherever one of them is
    missing. *)
Definition rolling (agg : Series -> pyfloat) (w : nat) (s : Series) : Series :=
  map (fun i =>
         if (S i <? w)%nat then NaN
         else let win := window_at w i s in
              if existsb missing win then NaN else agg win)
      (seq 0 (length s)).

Definition rolling_mean (w : nat) (s : Series) : Series := rolling mean w s.

Fixpoint zip_with {A B C : Type} (f : A -> B -> C) (l : list A) (l' : list B)
  : list C :=
  match l, l' with
  | a :: t, b :: t' => f a b :: zip_with f t t'
  | _, _ => []
  end.

Section StrategyEngine.
Context {lib : PyLib}.

Definition fsqrt (x : pyfloat) : pyfloat :=
  match x with
  | Fin q => if Qlt_bool q 0 then NaN else Fin (Qred (sqrtQ q))
  | PInf => PInf
  | _ => NaN
  end.

(** The sample standard deviation ([ddof = 1]) of a window. *)
Definition std (win : Series) : pyfloat :=
  let m := mean win in
  fsqrt (fdiv (fsum (map (fun x => fmul (fsub x m) (fsub x m)) win))
              (of_nat (length win - 1))).

Definition rolling_std (w : nat) (s : Series) : Series := rolling std w s.

(* ================================================================= *)
(** ** strategy_engine.py *)

Record Signal : Type := mkSignal {
  name : string;
  signal : string;
  confidence : pyfloat;
  details : string
}.

Record MovingAverageStrategy : Type := {
  short_window : nat;
  long_window : nat
}.

Definition MovingAverageStrategy_analyze (self : MovingAverageStrategy)
    (prices : Series) : Signal :=
  if (length prices <? long_window self + 5)%nat then
    mkSignal "双均线" "持有" (Fin 0.5) "数据不足"
  else
    let ma_short := rolling_mean (short_window self) prices in
    let ma_long := rolling_mean (long_window self) prices in
    let current_price := iloc_neg prices 1 in
    let current_ma_short := iloc_neg ma_short 1 in
    let current_ma_long := iloc_neg ma_long 1 in
    let prev_ma_short := iloc_neg ma_short 2 in
    let prev_ma_long := iloc_neg ma_long 2 in
    let short_trend :=
      if (5 <=? length prices)%nat
      then fsub (fdiv (iloc_neg ma_short 1) (iloc_neg ma_short 5)) (Fin 1)
      else Fin 0 in
    let long_trend :=
      if (10 <=? length prices)%nat
      then fsub (fdiv (iloc_neg ma_long 1) (iloc_neg ma_long 10)) (Fin 1)
      else Fin 0 in
    let golden_cross :=
      fleb prev_ma_short prev_ma_long && fgtb current_ma_short current_ma_long in
    let death_cross :=
      fgeb prev_ma_short prev_ma_long && fltb current_ma_short current_ma_long in
    let price_above_ma := fgtb current_price current_ma_short in
    if golden_cross && price_above_ma then
      mkSignal "双均线" "买入" (Fin 0.85) "金叉形成，价格站上均线"
    else if death_cross then
      mkSignal "双均线" "卖出" (Fin 0.8) "死叉形成，注意风险"
    else if fgtb current_ma_short current_ma_long && fgtb short_trend (Fin 0) then
      mkSignal "双均线" "买入" (Fin 0.7) "短期均线在上且上升趋势"
    else if fltb current_ma_short current_ma_long
            && fltb long_trend (Fin (-0.02)) then
      mkSignal "双均线" "卖出" (Fin 0.7) "中长期趋势向下"
    else if price_above_ma then
      mkSignal "双均线" "持有" (Fin 0.6) "价格暂稳，均线整理中"
    else
      mkSignal "双均线" "持有" (Fin 0.55) "观望为主".

Record RSIStrategy : Type := {
  period : nat;
  overbought : pyfloat;
  oversold : pyfloat
}.

(** [100 - (100 / (1 + rs))], element by element. *)
Definition rsi_of_rs (rs : Series) : Series :=
  map (fun r => fsub (Fin 100) (fdiv (Fin 100) (fadd (Fin 1) r))) rs.

(** [delta.where(delta > 0, 0)] and [delta.where(delta < 0, 0)]. *)
Definition up_moves (delta : Series) : Series :=
  where_ (fun d => fgtb d (Fin 0)) (Fin 0) delta.
Definition down_moves (delta : Series) : Series :=
  where_ (fun d => fltb d (Fin 0)) (Fin 0) delta.

(** The RSI series of [RSIStrategy.analyze]; the sign of the losses is
    changed after the rolling mean, and no value is filled in. *)
Definition strategy_rsi (n : nat) (prices : Series) : Series :=
  let delta := diff prices in
  let gain := rolling_mean n (up_moves delta) in
  let loss := map fneg (rolling_mean n (down_moves delta)) in
  let rs := zip_with fdiv gain loss in
  rsi_of_rs rs.

(** The decision table of [RSIStrategy.analyze]. *)
Definition rsi_table (self : RSIStrategy) (current_rsi rsi_trend : pyfloat)
  : Signal :=
  if fgeb current_rsi (overbought self) then
    mkSignal "RSI" "卖出" (Fin 0.85)
             ("RSI=" ++ format_1f current_rsi ++ "，超买区域")
  else if fleb current_rsi (oversold self) then
    mkSignal "RSI" "买入" (Fin 0.8)
             ("RSI=" ++ format_1f current_rsi ++ "，超卖区域")
  else if fgtb current_rsi (Fin 60) && fltb rsi_trend (Fin (-5)) then
    mkSignal "RSI" "卖出" (Fin 0.65) "RSI拐头向下，可能调整"
  else if fltb current_rsi (Fin 40) && fgtb rsi_trend (Fin 5) then
    mkSignal "RSI" "买入" (Fin 0.65) "RSI拐头向上，可能反弹"
  else if fgtb current_rsi (Fin 50) then
    mkSignal "RSI" "持有" (Fin 0.55)
             ("RSI=" ++ format_1f current_rsi ++ "，偏强区域")
  else
    mkSignal "RSI" "持有" (Fin 0.55)
             ("RSI=" ++ format_1f current_rsi ++ "，偏弱区域").

(** The part of [RSIStrategy.analyze] that follows the computation of the
    RSI series. *)
Definition rsi_decide (self : RSIStrategy) (rsi : Series) : Signal :=
  let current_rsi := iloc_neg rsi 1 in
  let rsi_trend :=
    if (5 <=? length rsi)%nat
    then fsub (iloc_neg rsi 1) (iloc_neg rsi 5) else Fin 0 in
  rsi_table self current_rsi rsi_trend.

Definition RSIStrategy_analyze (self : RSIStrategy) (prices : Series)
  : Signal :=
  if (length prices <? period self + 5)%nat then
    mkSignal "RSI" "持有" (Fin 0.5) "数据不足"
  else rsi_decide self (strategy_rsi (period self) prices).

Record BollingerBandStrategy : Type := {
  window : nat;
  std_dev : nat
}.

(** [middle + std_dev * std] and [middle - std_dev * std], element by
    element. *)
Definition band_upper (k : nat) (middle sd : Series) : Series :=
  zip_with (fun m s => fadd m (fmul (of_nat k) s)) middle sd.
Definition band_lower (k : nat) (middle sd : Series) : Series :=
  zip_with (fun m s => fsub m (fmul (of_nat k) s)) middle sd.

Definition BollingerBandStrategy_analyze (self : BollingerBandStrategy)
    (prices : Series) : Signal :=
  if (length prices <? window self + 5)%nat then
    mkSignal "布林带" "持有" (Fin 0.5) "数据不足"
  else
    let middle := rolling_mean (window self) prices in
    let sd := rolling_std (window self) prices in
    let upper := band_upper (std_dev self) middle sd in
    let lower := band_lower (std_dev self) middle sd in
    let current_price := iloc_neg prices 1 in
    let current_upper := iloc_neg upper 1 in
    let current_lower := iloc_neg lower 1 in
    let current_middle := iloc_neg middle 1 in
    let position :=
      if fneb current_upper current_lower
      then fdiv (fsub current_price current_lower)
                (fsub current_upper current_lower)
      else Fin 0.5 in
    let bandwidth := fdiv (fsub current_upper current_lower) current_middle in
    let prev_bandwidth :=
      fdiv (fsub (iloc_neg upper 2) (iloc_neg lower 2)) (iloc_neg middle 2) in
    let volatility_change :=
      if fgtb prev_bandwidth (Fin 0) then fdiv bandwidth prev_bandwidth
      else Fin 1 in
    if fgeb current_price current_upper then
      mkSignal "布林带" "卖出" (Fin 0.85) "价格触及上轨，警惕回调"
    else if fleb current_price current_lower then
      mkSignal "布林带" "买入" (Fin 0.8) "价格触及下轨，可能反弹"
    else if fgtb position (Fin 0.8) && fgtb volatility_change (Fin 1.1) then
      mkSignal "布林带" "卖出" (Fin 0.7) "价格接近上轨且波动放大"
    else if fltb position (Fin 0.2) && fgtb volatility_change (Fin 1.1) then
      mkSignal "布林带" "买入" (Fin 0.7) "价格接近下轨且波动放大"
    else if fgtb position (Fin 0.5) then
      mkSignal "布林带" "持有" (Fin 0.55) "价格在中轨上方运行"
    else
      mkSignal "布林带" "持有" (Fin 0.55) "价格在中轨下方运行".

Record StrategyResult : Type := mkResult {
  signals : list Signal;
  final_action : string;
  avg_confidence : pyfloat;
  votes : dict nat
}.

(** The strategies of [StrategyEngine.__init__], in their order. *)
Definition strategies : list (Series -> Signal) :=
  [ MovingAverageStrategy_analyze {| short_window := 5; long_window := 20 |};
    RSIStrategy_analyze
      {| period := 14; overbought := Fin 70; oversold := Fin 30 |};
    BollingerBandStrategy_analyze {| window := 20; std_dev := 2 |} ].

Definition votes0 : dict nat := [("买入", 0%nat); ("卖出", 0%nat); ("持有", 0%nat)].
Definition total_confidence0 : dict pyfloat :=
  [("买入", Fin 0); ("卖出", Fin 0); ("持有", Fin 0)].

(** The tally loop: [votes[s] += 1; total_confidence[s] += confidence]. *)
Fixpoint tally (sigs : list Signal) (vs : dict nat) (tc : dict pyfloat)
  : option (dict nat * dict pyfloat) :=
  match sigs with
  | [] => Some (vs, tc)
  | s :: rest =>
      match dict_update S vs (signal s),
            dict_update (fun c => fadd c (confidence s)) tc (signal s) with
      | Some vs', Some tc' => tally rest vs' tc'
      | _, _ => None
      end
  end.

(** [a > b] on the key tuples [(votes[x], total_confidence[x])]: the first
    components that differ decide. *)
Definition key_gt (a b : nat * pyfloat) : bool :=
  if (fst a =? fst b)%nat then
    if feqb (snd a) (snd b) then false else fgtb (snd a) (snd b)
  else (fst b <? fst a)%nat.

(** The builtin [max(iterable, key=...)]: the first of the greatest. *)
Fixpoint max_from {A K : Type} (gt : K -> K -> bool) (key : A -> K)
    (best : A) (rest : list A) : A :=
  match rest with
  | [] => best
  | x :: rest' =>
      if gt (key x) (key best) then max_from gt key x rest'
      else max_from gt key best rest'
  end.

Definition max_by {A K : Type} (gt : K -> K -> bool) (key : A -> K)
    (l : list A) : option A :=
  match l with
  | [] => None
  | x :: rest => Some (max_from gt key x rest)
  end.

Definition vote_key (vs : dict nat) (tc : dict pyfloat) (x : string)
  : nat * pyfloat :=
  (dict_at 0%nat vs x, dict_at NaN tc x).

(** The voting part of [StrategyEngine.analyze]. *)
Definition aggregate (sigs : list Signal) : option StrategyResult :=
  match tally sigs votes0 total_confidence0 with
  | None => None
  | Some (vs, tc) =>
      match max_by key_gt (vote_key vs tc) (dict_keys vs) with
      | None => None
      | Some action =>
          let avg :=
            if (0 <? dict_at 0%nat vs action)%nat
            then fdiv (dict_at NaN tc action) (of_nat (dict_at 0%nat vs action))
            else Fin 0.5 in
          Some (mkResult sigs action avg vs)
      end
  end.

Definition StrategyEngine_analyze (prices : Series) : option StrategyResult :=
  aggregate (map (fun strategy => strategy prices) strategies).

Definition calculate_position (total_capital confidence : pyfloat)
    (action : string) : pyfloat :=
  if negb (String.eqb action "买入") then Fin 0
  else
    let position_pct :=
      fadd (Fin 0.1) (fmul (fsub confidence (Fin 0.5)) (Fin 0.8)) in
    let position_pct := py_max (Fin 0.1) (py_min (Fin 0.5) position_pct) in
    py_round (fmul total_capital position_pct) 2.

End StrategyEngine.

(* ================================================================= *)
(** ** data_service.py: PriceDataProcessor *)

Section DataService.
Context {lib : PyLib}.

Definition calculate_ma (prices : Series) (window : nat) : Series :=
  if (length prices <? window)%nat then repeat (Fin 0) (length prices)
  else fillna (Fin 0) (rolling_mean window prices).

(** The trailing average gain and loss of [calculate_rsi]; the sign of the
    losses is changed before the rolling mean. *)
Definition avg_gain (prices : Series) (period : nat) : Series :=
  rolling_mean period (up_moves (diff prices)).
Definition avg_loss (prices : Series) (period : nat) : Series :=
  rolling_mean period (map fneg (down_moves (diff prices))).

Definition calculate_rsi (prices : Series) (period : nat) : Series :=
  if (length prices <? period + 1)%nat then repeat (Fin 0) (length prices)
  else
    let gain := avg_gain prices period in
    let loss := avg_loss prices period in
    let rs := zip_with fdiv gain loss in
    fillna (Fin 50) (rsi_of_rs rs).

Record Bands : Type := mkBands {
  upper : Series;
  middle : Series;
  lower : Series
}.

Definition calculate_bollinger_bands (prices : Series) (window std_dev : nat)
  : Bands :=
  if (length prices <? window)%nat then mkBands [] [] []
  else
    let mid := rolling_mean window prices in
    let sd := rolling_std window prices in
    mkBands (fillna (Fin 0) (band_upper std_dev mid sd))
            (fillna (Fin 0) mid)
            (fillna (Fin 0) (band_lower std_dev mid sd)).

(* ================================================================= *)
(** ** data_service.py: the synthetic history

    numpy's global generator is a state threaded through the calls:
    [np.random.seed] replaces it, each draw advances it.  The generator
    itself is an interface; a draw is a finite number.  A date is the
    ordinal of its day. *)

Class NumpyRandom : Type := {
  rng_state : Type;
  rng_seed : Z -> rng_state;
  rng_randn : rng_state -> Q * rng_state;
  rng_uniform : Q -> Q -> rng_state -> Q * rng_state
}.

Context {np_random : NumpyRandom}.

(** [int(x)] on a finite float: truncation towards zero. *)
Definition py_int (q : Q) : Z :=
  if Qlt_bool q 0 then Qceiling q else Qfloor q.

Record MockHistory : Type := mkHistory {
  code : string;
  dates : list Z;
  prices : Series;
  volumes : list Z
}.

(** The body of [for i in range(days, 0, -1)], over the remaining values
    of [i]; the accumulated lists are returned in append order. *)
Fixpoint mock_history_loop (today : Z) (idxs : list nat)
    (current_price : pyfloat) (g : rng_state)
  : list Z * Series * list Z * rng_state :=
  match idxs with
  | [] => ([], [], [], g)
  | i :: rest =>
      let date := (today - Z.of_nat i)%Z in
      let '(r, g1) := rng_randn g in
      let change := fmul (Fin r) (Fin 0.02) in
      let current_price := fmul current_price (fadd (Fin 1) change) in
      let '(u, g2) := rng_uniform 1000000 10000000 g1 in
      let '(ds, ps, vs, g3) := mock_history_loop today rest current_price g2 in
      (date :: ds, py_round current_price 3 :: ps, py_int u :: vs, g3)
  end.

(** [ETFDataService._generate_mock_history(code, days)], run with the
    global generator in state [g] and [datetime.now()] on day [today];
    the generator's final state is returned with the result. *)
Definition _generate_mock_history (code : string) (days : nat)
    (today : Z) (g : rng_state) : MockHistory * rng_state :=
  let g0 := rng_seed (py_hash code mod 2 ^ 32)%Z in
  let base_price :=
    fadd (Fin 3) (fdiv (Fin (inject_Z (py_hash code mod 100))) (Fin 50)) in
  let '(ds, ps, vs, g') :=
    mock_history_loop today (rev (seq 1 days)) base_price g0 in
  (mkHistory code ds ps vs, g').

End DataService.

(* ================================================================= *)
(** ** llm_service.py and the [llm_cache] table of database.py

    A [datetime] is a count of microseconds.  The table is the list of its
    rows in insertion order; [signal_key] is declared [unique=True].  The
    columns [id] and [created_at] are never read by the service and are
    left out. *)

Section LLMService.
Context {lib : PyLib}.

Record LLMCache : Type := mkCache {
  signal_key : string;
  prompt : string;
  response : string;
  expires_at : Z
}.

Definition nl : string := String (Ascii.ascii_of_nat 10) "".

(** Python's truth value of a string. *)
Definition truthy (s : string) : bool := negb (String.eqb s "").

(** [needle in hay]. *)
Fixpoint contains (needle hay : string) : bool :=
  match hay with
  | EmptyString => String.prefix needle hay
  | String _ rest => String.prefix needle hay || contains needle rest
  end.

(** The test [if x:] on an optional string: it passes on a string that is
    not empty, and gives that string. *)
Definition if_text (x : option string) : option string :=
  match x with
  | Some s => if truthy s then Some s else None
  | None => None
  end.

(** A provider's [generate]: [None] is Python's [None]. *)
Definition Provider : Type := string -> option string.

Definition MockLLMProvider_generate : Provider := fun prompt =>
  if contains "买入" prompt then
    Some ("技术指标综合显示短期上涨动能较强。"
          ++ "双均线形成金叉，RSI处于偏强区域，价格在布林带中轨上方运行。"
          ++ "建议可考虑逢低布局，建议仓位控制在30%-50%。")
  else if contains "卖出" prompt then
    Some ("技术指标显示短期存在调整风险。"
          ++ "RSI进入超买区域，需警惕回调风险。"
          ++ "建议适当减仓锁定利润，仓位建议控制在20%以下。")
  else
    Some ("市场方向暂不明确，各技术指标出现分歧。"
          ++ "建议保持现有仓位，谨慎追涨杀跌，等待更明确的信号。").

Definition _generate_cache_key (prompt : string) : string :=
  md5_hexdigest prompt.

(** [session.query(LLMCache).filter(signal_key == cache_key).first()]. *)
Definition query_first (table : list LLMCache) (cache_key : string)
  : option LLMCache :=
  find (fun row => String.eqb (signal_key row) cache_key) table.

Definition _get_cached_response (table : list LLMCache) (now : Z)
    (cache_key : string) : option string :=
  match query_first table cache_key with
  | Some cached =>
      if (expires_at cached >? now)%Z then Some (response cached) else None
  | None => None
  end.

(** [timedelta(hours=24)]. *)
Definition hours_24 : Z := 24 * 3600 * 1000000.

(** [session.add(cache); session.commit()]: a row whose key is already in
    the table violates the unique constraint; the exception is caught and
    printed, and the table is left as it was. *)
Definition _save_to_cache (table : list LLMCache) (now : Z)
    (cache_key prompt response : string) : list LLMCache :=
  if existsb (fun row => String.eqb (signal_key row) cache_key) table
  then table
  else (table ++ [mkCache cache_key prompt response (now + hours_24)])%list.

Definition signal_line (s : Signal) : string :=
  "- " ++ name s ++ ": " ++ signal s ++ " (置信度"
       ++ format_pct (confidence s) ++ ") - " ++ details s ++ nl.

Definition build_prompt (strategy_result : StrategyResult) : string :=
  let head :=
    nl ++ "请分析以下ETF策略信号并给出投资建议：" ++ nl ++ nl
       ++ "最终操作建议：" ++ final_action strategy_result ++ nl
       ++ "综合置信度：" ++ format_pct (avg_confidence strategy_result) ++ nl
       ++ nl ++ "各策略信号：" ++ nl in
  let body :=
    fold_left (fun acc s => acc ++ signal_line s)
              (signals strategy_result) head in
  body ++ nl ++ "请用简洁清晰的语句总结：" ++ nl
       ++ "1. 当前市场状态" ++ nl
       ++ "2. 操作理由" ++ nl
       ++ "3. 风险提示" ++ nl
       ++ "4. 建议仓位" ++ nl ++ nl
       ++ "回复控制在100字以内。" ++ nl.

Definition action_desc : dict string :=
  [ ("买入", "技术指标显示上涨信号，建议适度建仓");
    ("卖出", "技术指标显示调整风险，建议适当减仓");
    ("持有", "市场方向不明，建议观望等待") ].

Definition _rule_based_advice (strategy_result : StrategyResult) : string :=
  let action := final_action strategy_result in
  let conf := avg_confidence strategy_result in
  let advice :=
    match dict_get action_desc action with
    | Some d => d
    | None => "建议观望"
    end in
  let advice :=
    if fgtb conf (Fin 0.75) then advice ++ "，信号较强。"
    else if fltb conf (Fin 0.55) then advice ++ "，信号较弱，谨慎操作。"
    else advice ++ "。" in
  if String.eqb action "买入" then advice ++ "注意控制仓位，设置止损位。"
  else if String.eqb action "卖出" then advice ++ "可考虑分批减仓，回调后择机接回。"
  else advice.

(** What one call of [generate_advice] does: the text it returns, the
    table it leaves, and the prompts it sent to the provider. *)
Record AdviceRun : Type := mkRun {
  advice : string;
  table_after : list LLMCache;
  provider_calls : list string
}.

(** [LLMService.generate_advice], over a table [table], with
    [datetime.now()] reading [t_lookup] in the cache lookup and [t_save] in
    the cache write. *)
Definition generate_advice (provider : Provider) (table : list LLMCache)
    (t_lookup t_save : Z) (strategy_result : StrategyResult) : AdviceRun :=
  let prompt := build_prompt strategy_result in
  let cache_key := _generate_cache_key prompt in
  let cached := _get_cached_response table t_lookup cache_key in
  match if_text cached with
  | Some text => mkRun text table []
  | None =>
      let response := provider prompt in
      match if_text response with
      | Some text =>
          mkRun text (_save_to_cache table t_save cache_key prompt text) [prompt]
      | None => mkRun (_rule_based_advice strategy_result) table [prompt]
      end
  end.

End LLMService.

(* ================================================================= *)
(** ** api/strategy.py and api/data.py

    The routes await the data service on a worker thread, with a timeout.
    What the await gives is one of three outcomes; the time it takes is
    not modelled.  A price dictionary is the dictionary of the data
    service (the keys [code], [dates], [prices], [volumes]) together with
    its [error] key, if it has one.  An HTTP response is its body, or the
    status of the [HTTPException] raised. *)

Inductive Awaited (A : Type) : Type :=
| Returned (a : A)
| TimedOut
| Raised (message : string).
Arguments Returned {A} a.
Arguments TimedOut {A}.
Arguments Raised {A} message.

Inductive Http (A : Type) : Type :=
| Ok200 (body : A)
| HttpError (status : nat).
Arguments Ok200 {A} body.
Arguments HttpError {A} status.

Definition PriceData : Type := (MockHistory * option string)%type.

(** [get_price_with_timeout] of api/strategy.py, and, to the same effect,
    [get_data_with_timeout] of api/data.py. *)
Definition get_price_with_timeout (code : string)
    (awaited : Awaited MockHistory) : PriceData :=
  match awaited with
  | Returned result => (result, None)
  | TimedOut => (mkHistory code [] [] [], Some "timeout")
  | Raised message => (mkHistory code [] [] [], Some message)
  end.

Definition get_data_with_timeout := get_price_with_timeout.

Section Routes.
Context {lib : PyLib}.

Record StrategyData : Type := mkStrategyData {
  etf_code : string;
  date : Z;
  data_signals : list Signal;
  data_final_action : string;
  amount : pyfloat;
  data_confidence : option pyfloat;
  data_votes : option (dict nat);
  llm_advice : string
}.

Record StrategyResponse : Type := mkStrategyResponse {
  data : StrategyData;
  warning : option string
}.

(** The body returned while no prices are there. *)
Definition waiting_response (code : string) (today : Z)
    (price_data : PriceData) : StrategyResponse :=
  mkStrategyResponse
    (mkStrategyData code today
       [ mkSignal "双均线" "持有" (Fin 0.5) "数据加载中...";
         mkSignal "RSI" "持有" (Fin 0.5) "数据加载中...";
         mkSignal "布林带" "持有" (Fin 0.5) "数据加载中..." ]
       "等待" (Fin 0) None None
       "正在获取最新数据，请稍候刷新页面查看完整分析")
    (Some (match snd price_data with
           | Some message => message
           | None => "暂无数据"
           end)).

(** [get_strategy(code)], on the outcome of the awaited price fetch, the
    cache table and the clock; the table it leaves is returned with the
    response.  A [KeyError] of the engine would be caught and raised again
    as status 500. *)
Definition get_strategy (provider : Provider) (table : list LLMCache)
    (today t_lookup t_save : Z) (code : string)
    (awaited : Awaited MockHistory)
  : Http StrategyResponse * list LLMCache :=
  let price_data := get_price_with_timeout code awaited in
  match dates (fst price_data) with
  | [] => (Ok200 (waiting_response code today price_data), table)
  | _ :: _ =>
      match StrategyEngine_analyze (prices (fst price_data)) with
      | None => (HttpError 500, table)
      | Some result =>
          let suggested_amount :=
            calculate_position (Fin 10000) (avg_confidence result)
                               (final_action result) in
          let run := generate_advice provider table t_lookup t_save result in
          (Ok200 (mkStrategyResponse
                    (mkStrategyData code today (signals result)
                       (final_action result) suggested_amount
                       (Some (avg_confidence result)) (Some (votes result))
                       (advice run))
                    None),
           table_after run)
      end
  end.

Record Indicators : Type := mkIndicators {
  ma5 : Series;
  ma20 : Series;
  rsi : Series;
  bollinger_upper : Series;
  bollinger_middle : Series;
  bollinger_lower : Series
}.

(** [get_indicators(code, period)] on the awaited price dictionary:
    [None] is the body without data that carries the warning. *)
Definition get_indicators (code : string) (awaited : Awaited MockHistory)
  : option Indicators :=
  let price_data := get_data_with_timeout code awaited in
  match dates (fst price_data) with
  | [] => None
  | _ :: _ =>
      let ps := prices (fst price_data) in
      let bb := calculate_bollinger_bands ps 20 2 in
      Some (mkIndicators (calculate_ma ps 5) (calculate_ma ps 20)
                         (calculate_rsi ps 14)
                         (upper bb) (middle bb) (lower bb))
  end.

End Routes.

(* ================================================================= *)
(** ** data_service.py: the price history with retries, and the
    intraday data

    [ak.fund_etf_hist_em] is the outside world: what its call gives in the
    attempt of a given number is a parameter, a frame of rows (date, close,
    volume) or an exception.  A frame without one of the three columns
    raises at the access to the column, inside the same [try], which is the
    case of an exception.  The calls to the outside and the sleeps are
    recorded in a trace; what is printed is not.  The clock is read three
    times: for the end date, for the start date, and in the synthetic
    history.  The key [period] of the returned dictionary is left out. *)

Inductive Fetched : Type :=
| Frame (rows : list (Z * pyfloat * Z))
| Failed (message : string).

Inductive Event : Type :=
| Fetch (symbol akshare_period : string) (start_date end_date : Z)
| Sleep (seconds : nat).

Definition MAX_RETRIES : nat := 3.
Definition RETRY_DELAY : nat := 2.

Definition period_config : dict (string * nat) :=
  [ ("1w", ("weekly", 7%nat)); ("1m", ("monthly", 30%nat));
    ("3m", ("monthly", 90%nat)); ("6m", ("daily", 180%nat));
    ("1y", ("daily", 365%nat)) ].

(** [period_config.get(period, ('daily', 180))]. *)
Definition config_of (period_key : string) : string * nat :=
  match dict_get period_config period_key with
  | Some c => c
  | None => ("daily", 180%nat)
  end.

(** [df.tail(n)]: the last [n] rows. *)
Definition frame_tail {A : Type} (n : nat) (rows : list A) : list A :=
  skipn (length rows - n) rows.

Definition history_of (symbol : string) (rows : list (Z * pyfloat * Z))
  : MockHistory :=
  mkHistory symbol (map (fun r => fst (fst r)) rows)
            (map (fun r => snd (fst r)) rows) (map snd rows).

(** The loop [for attempt in range(MAX_RETRIES)], over the remaining
    attempts: the history it returns, if it returns one, and its trace. *)
Fixpoint fetch_attempts (fetch : nat -> Fetched) (call : Event)
    (symbol : string) (days : nat) (attempts : list nat)
  : option MockHistory * list Event :=
  match attempts with
  | [] => (None, [])
  | attempt :: rest =>
      match fetch attempt with
      | Frame [] =>
          let '(r, trace) := fetch_attempts fetch call symbol days rest in
          (r, call :: trace)
      | Frame rows => (Some (history_of symbol (frame_tail days rows)), [call])
      | Failed _ =>
          let pause :=
            if (attempt <? MAX_RETRIES - 1)%nat then [Sleep RETRY_DELAY]
            else [] in
          let '(r, trace) := fetch_attempts fetch call symbol days rest in
          (r, call :: pause ++ trace)%list
      end
  end.

Section PriceHistory.
Context {lib : PyLib} {np_random : NumpyRandom}.

(** [ETFDataService.get_price_history(code, period)], with the three
    readings of the clock and the state of the global generator, which the
    synthetic history replaces. *)
Definition get_price_history (fetch : nat -> Fetched)
    (symbol period_key : string) (t_end t_start t_mock : Z) (g : rng_state)
  : MockHistory * rng_state * list Event :=
  let '(akshare_period, days) := config_of period_key in
  let call :=
    Fetch symbol akshare_period (t_start - 2 * Z.of_nat days)%Z t_end in
  match fetch_attempts fetch call symbol days (seq 0 MAX_RETRIES) with
  | (Some h, trace) => (h, g, trace)
  | (None, trace) =>
      let '(h, g') := _generate_mock_history symbol days t_mock g in
      (h, g', trace)
  end.

Record MockIntraday : Type := mkIntraday {
  intraday_code : string;
  times : list string;
  intraday_prices : Series;
  intraday_volumes : list Z
}.

(** The format [:02d] on a number that is not negative. *)
Definition format_02d (n : nat) : string :=
  let s := DecimalString.NilZero.string_of_uint (Nat.to_uint n) in
  if (n <? 10)%nat then "0" ++ s else s.

(** The inner loop [for minute in range(0, 60, 5)] of one hour, over the
    remaining minutes: [continue] goes on with the next minute, [break]
    leaves the hour.  The price and the generator are carried along. *)
Fixpoint intraday_minutes (hour : nat) (minutes : list nat)
    (current_price : pyfloat) (g : rng_state)
  : list string * Series * list Z * pyfloat * rng_state :=
  match minutes with
  | [] => ([], [], [], current_price, g)
  | minute :: rest =>
      if (hour =? 9)%nat && (minute <? 30)%nat then
        intraday_minutes hour rest current_price g
      else if (hour =? 15)%nat && (0 <? minute)%nat then
        ([], [], [], current_price, g)
      else
        let '(r, g1) := rng_randn g in
        let change := fmul (Fin r) (Fin 0.005) in
        let current_price := fmul current_price (fadd (Fin 1) change) in
        let '(u, g2) := rng_uniform 10000 100000 g1 in
        let '(ts, ps, vs, p', g3) :=
          intraday_minutes hour rest current_price g2 in
        ((format_02d hour ++ ":" ++ format_02d minute) :: ts,
         py_round current_price 3 :: ps, py_int u :: vs, p', g3)
  end.

(** The outer loop [for hour in range(9, 15)]. *)
Fixpoint intraday_hours (hours : list nat) (current_price : pyfloat)
    (g : rng_state) : list string * Series * list Z * rng_state :=
  match hours with
  | [] => ([], [], [], g)
  | hour :: rest =>
      let '(ts, ps, vs, p', g1) :=
        intraday_minutes hour (map (fun k => 5 * k)%nat (seq 0 12))
                         current_price g in
      let '(ts', ps', vs', g2) := intraday_hours rest p' g1 in
      ((ts ++ ts')%list, (ps ++ ps')%list, (vs ++ vs')%list, g2)
  end.

Definition _generate_mock_intraday (symbol : string) (g : rng_state)
  : MockIntraday * rng_state :=
  let g0 := rng_seed (py_hash symbol mod 2 ^ 32)%Z in
  let base_price :=
    fadd (Fin 3) (fdiv (Fin (inject_Z (py_hash symbol mod 100))) (Fin 50)) in
  let '(ts, ps, vs, g') := intraday_hours (seq 9 6) base_price g0 in
  (mkIntraday symbol ts ps vs, g').

End PriceHistory.

(* ================================================================= *)
(** ** api/etf.py and the [etf_funds] table of database.py

    The table is the list of its rows in insertion order; [code] is its
    primary key.  The columns that no route reads are left out.
    [str.isdigit] and the text of an [HTTPException] are taken as an
    interface; [len] counts the characters of the UTF-8 text. *)

Class PyStr : Type := {
  isdigit : string -> bool;
  str_HTTPException : nat -> string -> string
}.

Definition is_continuation (c : Ascii.ascii) : bool :=
  (128 <=? Ascii.nat_of_ascii c)%nat && (Ascii.nat_of_ascii c <? 192)%nat.

Fixpoint len (s : string) : nat :=
  match s with
  | EmptyString => 0%nat
  | String c rest => if is_continuation c then len rest else S (len rest)
  end.

Record ETFFund : Type := mkFund {
  fund_code : string;
  fund_name : string;
  fund_exchange : string;
  fund_category : string
}.

Definition ETF_NAMES : dict string :=
  [ ("510300", "沪深300ETF"); ("510500", "500ETF"); ("512880", "证券ETF");
    ("159915", "创业板ETF"); ("159941", "科创50ETF"); ("159919", "沪深300ETF");
    ("511880", "银华ETF"); ("510880", "红利ETF"); ("159920", "创成长ETF");
    ("159937", "中证1000ETF") ].

(** [ETFDataService.ETF_NAMES.get(code, code)]. *)
Definition preset_name (symbol : string) : string :=
  match dict_get ETF_NAMES symbol with
  | Some n => n
  | None => symbol
  end.

(** [Database.add_etf]: the commit fails on a code that is in the table
    already, with the text of SQLite's error; the exception is raised
    again after the rollback. *)
Definition Database_add_etf (table : list ETFFund) (row : ETFFund)
  : string + list ETFFund :=
  if existsb (fun e => String.eqb (fund_code e) (fund_code row)) table
  then inl "(sqlite3.IntegrityError) UNIQUE constraint failed: etf_funds.code"
  else inr (table ++ [row])%list.

(** The route [get_etf_list]: the pairs of code and name. *)
Definition get_etf_list (table : list ETFFund) : list (string * string) :=
  match table with
  | [] => [("510300", "沪深300ETF"); ("512880", "证券ETF")]
  | _ :: _ => map (fun etf => (fund_code etf, fund_name etf)) table
  end.

(** [get_etf_info_async]: the name in the dictionary it returns, on the
    outcome of the awaited [get_etf_info]. *)
Definition get_etf_info_async (symbol : string) (awaited : Awaited string)
  : string :=
  match awaited with
  | Returned n => n
  | _ => preset_name symbol
  end.

Section EtfRoutes.
Context {pystr : PyStr}.

(** The handler [except Exception as e] of [add_etf], on the text of the
    exception. *)
Definition add_etf_handler (table : list ETFFund) (text : string)
  : Http string * list ETFFund :=
  if contains "UNIQUE constraint" text then (Ok200 "ETF已存在", table)
  else (HttpError 500, table).

(** The route [add_etf(code)]: the message of its body or the status of
    the [HTTPException] that leaves it, and the table. *)
Definition add_etf (table : list ETFFund) (symbol : string)
    (awaited : Awaited string) : Http string * list ETFFund :=
  if negb (isdigit symbol) || negb (len symbol =? 6)%nat then
    add_etf_handler table (str_HTTPException 400 "请输入6位数字代码")
  else if existsb (fun e => String.eqb (fund_code e) symbol) table then
    (Ok200 "ETF已存在", table)
  else
    let info_name := get_etf_info_async symbol awaited in
    let info_name :=
      if truthy info_name then info_name else preset_name symbol in
    match Database_add_etf table (mkFund symbol info_name "沪深" "ETF") with
    | inr table' => (Ok200 ("成功添加ETF: " ++ info_name), table')
    | inl text => add_etf_handler table text
    end.

End EtfRoutes.

(* ================================================================= *)
(** ** The [daily_strategies] table of database.py and its routes in
    api/strategy.py

    The rows in insertion order; the identifiers count from 1, no row
    being ever removed.  The column [raw_signals] and [created_at] are not
    read and are left out.  [None] in a column is SQL's NULL. *)

Record DailyStrategy : Type := mkDaily {
  daily_id : nat;
  daily_etf_code : string;
  daily_date : Z;
  daily_final_action : string;
  suggested_amount : pyfloat;
  daily_llm_advice : string;
  actual_action : option string;
  actual_amount : option pyfloat;
  remark : option string
}.

(** The dictionary [record_action] hands to [save_daily_strategy]. *)
Record StrategyDict : Type := mkStrategyDict {
  key_etf_code : string;
  key_date : Z;
  key_final_action : string;
  key_suggested_amount : pyfloat;
  key_actual_action : string;
  key_actual_amount : pyfloat;
  key_llm_advice : string;
  key_remark : option string
}.

(** [Database.save_daily_strategy]: the row is built from six keys of the
    dictionary; the new table and the identifier of the row. *)
Definition save_daily_strategy (table : list DailyStrategy)
    (strategy : StrategyDict) : list DailyStrategy * nat :=
  let daily :=
    mkDaily (S (length table)) (key_etf_code strategy) (key_date strategy)
            (key_final_action strategy) (key_suggested_amount strategy)
            (key_llm_advice strategy) None None None in
  ((table ++ [daily])%list, daily_id daily).

(** The route [record_action(code, action, amount, remark)]. *)
Definition record_action (table : list DailyStrategy) (today : Z)
    (symbol action : string) (action_amount : pyfloat)
    (action_remark : option string) : (nat * string) * list DailyStrategy :=
  let '(table', _) :=
    save_daily_strategy table
      (mkStrategyDict symbol today action action_amount action action_amount
                      "" action_remark) in
  ((0%nat, "记录成功"), table').

(** [ORDER BY date DESC]; rows of one date are kept in the order of their
    insertion, where SQL leaves the order open. *)
Fixpoint insert_by_date (r : DailyStrategy) (l : list DailyStrategy)
  : list DailyStrategy :=
  match l with
  | [] => [r]
  | x :: rest =>
      if (daily_date x <? daily_date r)%Z then r :: l
      else x :: insert_by_date r rest
  end.

Definition order_by_date_desc (l : list DailyStrategy) : list DailyStrategy :=
  fold_right insert_by_date [] l.

(** [Database.get_daily_strategies(etf_code, limit)], for a limit that is
    not negative. *)
Definition get_daily_strategies (table : list DailyStrategy)
    (symbol : string) (limit : nat) : list DailyStrategy :=
  firstn limit
    (order_by_date_desc
       (filter (fun s => String.eqb (daily_etf_code s) symbol) table)).

Record Performance : Type := mkPerformance {
  total : nat;
  followed : nat;
  not_followed : nat;
  accuracy : nat
}.

(** The truth value of a nullable string. *)
Definition truthy_opt (x : option string) : bool :=
  match x with
  | Some s => truthy s
  | None => false
  end.

(** The route [get_performance(code, days)]. *)
Definition get_performance (table : list DailyStrategy) (symbol : string)
    (days : nat) : Performance :=
  let strategies := get_daily_strategies table symbol days in
  let n := length strategies in
  if (n =? 0)%nat then mkPerformance 0 0 0 0
  else
    let k := length (filter (fun s => truthy_opt (actual_action s)) strategies) in
    mkPerformance n k (n - k) 0.

(* ================================================================= *)
(** ** llm_service.py: the choice of the provider

    [LLMService.__init__] reads three variables of the environment, after
    [load_dotenv]; [None] is a variable that is not set. *)

Inductive ProviderChoice : Type :=
| DeepSeekProvider (api_key : string)
| OpenAIProvider (api_key : string)
| MockLLMProvider.

(** [a or b] on two nullable strings. *)
Definition py_or (a b : option string) : option string :=
  if truthy_opt a then a else b.

Definition LLMService_init (DEEPSEEK_API_KEY OPENAI_API_KEY LLM_PROVIDER
                            : option string) : ProviderChoice :=
  let api_key := py_or DEEPSEEK_API_KEY OPENAI_API_KEY in
  let provider_type :=
    match LLM_PROVIDER with
    | Some t => t
    | None => "mock"
    end in
  match api_key with
  | Some key =>
      if String.eqb provider_type "deepseek" && truthy key
      then DeepSeekProvider key
      else if String.eqb provider_type "openai" && truthy key
           then OpenAIProvider key
           else MockLLMProvider
  | None => MockLLMProvider
  end.

(* ================================================================= *)
(** ** An implementation of the interfaces

    It serves to run the definitions on examples; no result depends on it.
    The square root is cut after twelve decimal digits, the digest is the
    text itself, the hash adds the character codes, and the generator is a
    linear congruential one. *)

Definition sqrt_digits (q : Q) : Q :=
  Z.sqrt (Qnum q * 10 ^ 24 / Zpos (Qden q)) # 1000000000000.

Definition digits (z : Z) : string :=
  DecimalString.NilZero.string_of_uint (N.to_uint (Z.to_N z)).

Definition format_fixed (scale : Q) (suffix : string) (x : pyfloat) : string :=
  match x with
  | Fin q =>
      let n := round_half_even (q * scale) in
      ((if (n <? 0)%Z then "-" else "") ++ digits (Z.abs n) ++ suffix)%string
  | PInf => "inf" ++ suffix
  | NInf => "-inf" ++ suffix
  | NaN => "nan" ++ suffix
  end.

Definition format_tenths (x : pyfloat) : string :=
  match x with
  | Fin q =>
      let n := round_half_even (q * 10) in
      (if (n <? 0)%Z then "-" else "") ++ digits (Z.abs n / 10) ++ "."
        ++ digits (Z.abs n mod 10)
  | _ => format_fixed 1 "" x
  end.

Fixpoint char_sum (s : string) : Z :=
  match s with
  | EmptyString => 0
  | String c rest => Z.of_nat (Ascii.nat_of_ascii c) + char_sum rest
  end.

Definition sample_lib : PyLib := {|
  sqrtQ := sqrt_digits;
  format_1f := format_tenths;
  format_pct := format_fixed 100 "%";
  md5_hexdigest := fun s => s;
  py_hash := char_sum
|}.

Definition lcg_next (s : Z) : Z := (1103515245 * s + 12345) mod 2 ^ 31.

Definition sample_random : NumpyRandom := {|
  rng_state := Z;
  rng_seed := fun s => s;
  rng_randn := fun s =>
    let s' := lcg_next s in (inject_Z (s' mod 4001 - 2000) / 1000, s');
  rng_uniform := fun lo hi s =>
    let s' := lcg_next s in
    (lo + (hi - lo) * (inject_Z (s' mod 1000000) / 1000000), s')
|}.

(* ================================================================= *)
(** ** Notions of the specification *)

(** The three actions, in the order of the vote dictionary. *)
Definition actions : list string := ["买入"; "卖出"; "持有"].

(** The confidence levels the decision tables assign. *)
Definition confidence_levels : list pyfloat :=
  [Fin 0.5; Fin 0.55; Fin 0.6; Fin 0.65; Fin 0.7; Fin 0.8; Fin 0.85].

(** [clamp lo hi x]: [x] brought into [[lo, hi]]. *)
Definition clamp (lo hi x : pyfloat) : pyfloat :=
  if fltb x lo then lo else if fgtb x hi then hi else x.

(** The signals that voted for an action, their number, and the sum of
    their confidences in the order of the votes. *)
Definition voters (a : string) (sigs : list Signal) : list Signal :=
  filter (fun s => String.eqb (signal s) a) sigs.

Definition vote_count (a : string) (sigs : list Signal) : nat :=
  length (voters a sigs).

Definition confidence_sum (a : string) (sigs : list Signal) : pyfloat :=
  fsum (map confidence (voters a sigs)).

(** The order on the pairs (vote count, summed confidence): the count
    first, then the sum. *)
Definition lex_le (a b : nat * pyfloat) : Prop :=
  (fst a < fst b)%nat \/ (fst a = fst b /\ fleb (snd a) (snd b) = true).

(** A signal a strategy can be asked to vote with: one of the three
    actions, with a finite confidence. *)
Definition well_formed (s : Signal) : Prop :=
  In (signal s) actions /\ exists q, confidence s = Fin q.


(** The mean and the sample standard deviation of the [w] prices that end
    at position [i], in closed form.  The square root is taken of the
    variance in lowest terms. *)
Definition Qsum (l : list Q) : Q := fold_right Qplus 0 l.

Definition Qmean (l : list Q) : Q := Qsum l / inject_Z (Z.of_nat (length l)).

Definition Qvariance (l : list Q) : Q :=
  Qsum (map (fun x => (x - Qmean l) * (x - Qmean l)) l)
  / inject_Z (Z.of_nat (length l - 1)).

Definition trailing_mean (w i : nat) (qs : list Q) : Q :=
  Qmean (window_at w i qs).

Definition trailing_std {lib : PyLib} (w i : nat) (qs : list Q) : Q :=
  sqrtQ (Qred (Qvariance (window_at w i qs))).

(* ================================================================= *)
(** ** The same functions with the rounding of binary64

    Where a property depends on how Python's floats round, the functions
    are taken once more with it.  The result of an operation is the
    binary64 number nearest to the exact result, the one with the even
    significand when two are as near, and an infinity past the largest; a
    decimal literal of the source is the binary64 number nearest to it.
    pandas' rolling mean and standard deviation, whose sums are updated
    from window to window, are an interface. *)

Module Rounded.

(** The integer part of the binary logarithm of a positive number. *)
Definition ilog2 (q : Q) : Z :=
  let l := (Z.log2 (Qnum q) - Z.log2 (Zpos (Qden q)))%Z in
  if Qle_bool (2 ^ l) q then l else (l - 1)%Z.

(** The exponent of the unit in the last place: 52 binary digits below the
    leading one, and never below that of the subnormal numbers. *)
Definition ulp_exponent (q : Q) : Z := Z.max (ilog2 q - 52) (-1074).

(** The multiple of the unit in the last place nearest to a positive
    number. *)
Definition nearest (q : Q) : Q :=
  let e := ulp_exponent q in
  inject_Z (round_half_even (q / 2 ^ e)) * 2 ^ e.

Definition round_pos (q : Q) : pyfloat :=
  let r := nearest q in
  if Qle_bool (2 ^ 1024) r then PInf else Fin (Qred r).

(** The binary64 number nearest to a rational. *)
Definition rnd64 (q : Q) : pyfloat :=
  match Qnum q with
  | Z0 => Fin 0
  | Zpos _ => round_pos q
  | Zneg _ => fneg (round_pos (- q))
  end.

Definition round64 (x : pyfloat) : pyfloat :=
  match x with
  | Fin q => rnd64 q
  | _ => x
  end.

(** A value a float holds: rounding leaves it as it is. *)
Definition binary64 (x : pyfloat) : Prop := round64 x = x.

(** A decimal literal of the source. *)
Definition lit (q : Q) : pyfloat := rnd64 q.

Definition radd (x y : pyfloat) : pyfloat := round64 (fadd x y).
Definition rsub (x y : pyfloat) : pyfloat := round64 (fsub x y).
Definition rmul (x y : pyfloat) : pyfloat := round64 (fmul x y).

(** [round(x, ndigits)]: the decimal number with [ndigits] digits nearest
    to the float (half to even), then the float nearest to that. *)
Definition py_round (x : pyfloat) (ndigits : nat) : pyfloat :=
  match x with
  | Fin q =>
      let scale := inject_Z (10 ^ Z.of_nat ndigits) in
      rnd64 (inject_Z (round_half_even (q * scale)) / scale)
  | _ => x
  end.

(** [position_pct] of [calculate_position] before the clamp. *)
Definition raw_fraction (confidence : pyfloat) : pyfloat :=
  radd (lit 0.1) (rmul (rsub confidence (lit 0.5)) (lit 0.8)).

Definition calculate_position (total_capital confidence : pyfloat)
    (action : string) : pyfloat :=
  if negb (String.eqb action "买入") then Fin 0
  else
    let position_pct := raw_fraction confidence in
    let position_pct := py_max (lit 0.1) (py_min (lit 0.5) position_pct) in
    py_round (rmul total_capital position_pct) 2.

(** [s.rolling(window=w).mean()] and [s.rolling(window=w).std()]. *)
Class Pandas : Type := {
  pd_rolling_mean : nat -> Series -> Series;
  pd_rolling_std : nat -> Series -> Series
}.


Section Indicators.
Context {pd : Pandas}.

Definition calculate_ma (prices : Series) (window : nat) : Series :=
  if (length prices <? window)%nat then repeat (Fin 0) (length prices)
  else fillna (Fin 0) (pd_rolling_mean window prices).

Definition band_upper (k : nat) (middle sd : Series) : Series :=
  zip_with (fun m s => radd m (rmul (of_nat k) s)) middle sd.
Definition band_lower (k : nat) (middle sd : Series) : Series :=
  zip_with (fun m s => rsub m (rmul (of_nat k) s)) middle sd.

Definition calculate_bollinger_bands (prices : Series) (window std_dev : nat)
  : Bands :=
  if (length prices <? window)%nat then mkBands [] [] []
  else
    let mid := pd_rolling_mean window prices in
    let sd := pd_rolling_std window prices in
    mkBands (fillna (Fin 0) (band_upper std_dev mid sd))
            (fillna (Fin 0) mid)
            (fillna (Fin 0) (band_lower std_dev mid sd)).

End Indicators.

End Rounded.

(* ================================================================= *)
(** ** The voting and the sizing in IEEE binary64

    The aggregator and the allocation fraction once more, on the kernel's
    binary64 floats, to run them with the rounding of the Python floats on
    the finitely many inputs the decision tables can produce.  A vote is an
    action with a confidence. *)

Module Binary64.
#[local] Set Warnings "-inexact-float".
Local Open Scope float_scope.

Fixpoint float_of_nat (n : nat) : float :=
  match n with
  | O => 0
  | S k => float_of_nat k + 1
  end.

Fixpoint tally (sigs : list (string * float)) (vs : dict nat)
    (tc : dict float) : option (dict nat * dict float) :=
  match sigs with
  | [] => Some (vs, tc)
  | (action, conf) :: rest =>
      match dict_update S vs action,
            dict_update (fun c => c + conf) tc action with
      | Some vs', Some tc' => tally rest vs' tc'
      | _, _ => None
      end
  end.

Definition key_gt (a b : nat * float) : bool :=
  if (fst a =? fst b)%nat then
    if snd a =? snd b then false else snd b <? snd a
  else (fst b <? fst a)%nat.

Definition aggregate (sigs : list (string * float)) : option (string * float) :=
  match tally sigs votes0 [("买入", 0); ("卖出", 0); ("持有", 0)] with
  | None => None
  | Some (vs, tc) =>
      match max_by key_gt (fun x => (dict_at 0%nat vs x, dict_at nan tc x))
                   (dict_keys vs) with
      | None => None
      | Some action =>
          Some (action,
                if (0 <? dict_at 0%nat vs action)%nat
                then dict_at nan tc action
                     / float_of_nat (dict_at 0%nat vs action)
                else 0.5)
      end
  end.

(** The signals each decision table can return. *)
Definition moving_average_entries : list (string * float) :=
  [("持有", 0.5); ("买入", 0.85); ("卖出", 0.80); ("买入", 0.70);
   ("卖出", 0.70); ("持有", 0.60); ("持有", 0.55)].
Definition rsi_entries : list (string * float) :=
  [("持有", 0.5); ("卖出", 0.85); ("买入", 0.80); ("卖出", 0.65);
   ("买入", 0.65); ("持有", 0.55)].
Definition bollinger_entries : list (string * float) :=
  [("持有", 0.5); ("卖出", 0.85); ("买入", 0.80); ("卖出", 0.70);
   ("买入", 0.70); ("持有", 0.55)].

Definition in_range (sigs : list (string * float)) : bool :=
  match aggregate sigs with
  | Some (_, avg) => (0.5 <=? avg) && (avg <=? 0.85)
  | None => false
  end.

Definition all_in_range : bool :=
  forallb (fun m =>
    forallb (fun r =>
      forallb (fun b => in_range [m; r; b]) bollinger_entries)
      rsi_entries)
    moving_average_entries.

(** [position_pct] of [calculate_position], after the clamp. *)
Definition position_pct (confidence : float) : float :=
  let pct := 0.1 + (confidence - 0.5) * 0.8 in
  let low := if pct <? 0.5 then pct else 0.5 in
  if 0.1 <? low then low else 0.1.

(** The two sizes of the specification, on a capital of 10000. *)
Definition position_checks : bool :=
  (10000 * position_pct 0.5 =? 1000) && (10000 * position_pct 1 =? 5000).

(** The number a float of the kernel stands for. *)
Definition value (f : float) : pyfloat :=
  match Prim2SF f with
  | S754_zero _ => Fin 0
  | S754_infinity false => PInf
  | S754_infinity true => NInf
  | S754_nan => NaN
  | S754_finite s m e =>
      Fin (Qred ((if s then -1 else 1) * inject_Z (Zpos m) * 2 ^ e)%Q)
  end.

(** Literals, sums and products of the sizer on the floats of the kernel,
    each next to its counterpart of [Rounded]. *)
Definition rounding_pairs : list (pyfloat * pyfloat) :=
  [ (value 0.1, Rounded.lit 0.1);
    (value 0.8, Rounded.lit 0.8);
    (value 0.03, Rounded.lit 0.03);
    (value (0.1 + 0.2), Rounded.radd (Rounded.lit 0.1) (Rounded.lit 0.2));
    (value (0.7 - 0.5), Rounded.rsub (Rounded.lit 0.7) (Rounded.lit 0.5));
    (value (position_pct 0.7),
     py_max (Rounded.lit 0.1)
       (py_min (Rounded.lit 0.5) (Rounded.raw_fraction (Rounded.lit 0.7))));
    (value (0.25 * position_pct 0.5),
     Rounded.rmul (Rounded.lit 0.25) (Rounded.lit 0.1));
    (value (12345.67 * position_pct 0.83),
     Rounded.rmul (Rounded.lit 12345.67)
       (py_max (Rounded.lit 0.1)
          (py_min (Rounded.lit 0.5)
             (Rounded.raw_fraction (Rounded.lit 0.83)))));
    (value (0x1p1023 + 0x1p1023), Rounded.radd (Fin (2 ^ 1023)%Q)
                                              (Fin (2 ^ 1023)%Q));
    (value (0x1p-1074 * 0.5), Rounded.rmul (Fin (2 ^ (-1074))%Q)
                                            (Fin (1 # 2)%Q)) ].

Definition rounding_agrees : bool :=
  forallb (fun p => match fst p, snd p with
                    | Fin a, Fin b => Qeq_bool a b
                    | PInf, PInf | NInf, NInf | NaN, NaN => true
                    | _, _ => false
                    end) rounding_pairs.

(** The two votes of the specification, with their outcomes. *)
Definition tie_votes : list (string * float) :=
  [("买入", 0.9); ("卖出", 0.95); ("持有", 0.5)].
Definition tie_outcome : option (string * float) := Some ("卖出", 0.95).

Definition majority_votes : list (string * float) :=
  [("买入", 0.9); ("买入", 0.6); ("卖出", 0.8)].
Definition majority_outcome : option (string * float) := Some ("买入", 0.75).

End Binary64.

(* ================================================================= *)
(** ** Auxiliary notions and example inputs *)

(** The answer of a strategy that has too few prices. *)
Definition hold_for_lack_of_data (strategy_name : string) : Signal :=
  mkSignal strategy_name "持有" (Fin 0.5) "数据不足".

(** The allocation fraction before clamping. *)
Definition raw_fraction (c : Q) : pyfloat :=
  fadd (Fin 0.1) (fmul (fsub (Fin c) (Fin 0.5)) (Fin 0.8)).

(** The two dictionaries of the aggregator, by the values of their keys. *)
Definition votes_of (n1 n2 n3 : nat) : dict nat :=
  [("买入", n1); ("卖出", n2); ("持有", n3)].

Definition totals_of (t1 t2 t3 : pyfloat) : dict pyfloat :=
  [("买入", t1); ("卖出", t2); ("持有", t3)].

(** The confidences voted for [a], added to [t] in the order of the
    votes. *)
Definition add_votes (a : string) (sigs : list Signal) (t : pyfloat)
  : pyfloat :=
  fold_left fadd (map confidence (voters a sigs)) t.

(** A key whose summed confidence is a finite number. *)
Definition finite_key (k : nat * pyfloat) : Prop := exists q, snd k = Fin q.

(** The result of the aggregator on well-formed signals. *)
Definition result_for (sigs : list Signal) (w : string) : StrategyResult :=
  mkResult sigs w
           (if (0 <? vote_count w sigs)%nat
            then fdiv (confidence_sum w sigs) (of_nat (vote_count w sigs))
            else Fin 0.5)
           (votes_of (vote_count "买入" sigs) (vote_count "卖出" sigs)
                     (vote_count "持有" sigs)).

(** The tie of the specification: Buy 0.9, Sell 0.95, Hold 0.5. *)
Definition tie_example : list Signal :=
  [ mkSignal "双均线" "买入" (Fin 0.9) "";
    mkSignal "RSI" "卖出" (Fin 0.95) "";
    mkSignal "布林带" "持有" (Fin 0.5) "" ].

(** A signal with one of the three actions and one of the confidence
    levels of the decision tables. *)
Definition table_signal (s : Signal) : Prop :=
  In (signal s) actions /\ In (confidence s) confidence_levels.

(** A finite confidence between two bounds. *)
Definition within (lo hi : Q) (x : pyfloat) : Prop :=
  exists q, x = Fin q /\ lo <= q <= hi.

(** The value of a rolling aggregate at a position of the series. *)
Definition rolling_at (agg : Series -> pyfloat) (w : nat) (s : Series)
    (i : nat) : pyfloat :=
  if (S i <? w)%nat then NaN
  else if existsb missing (window_at w i s) then NaN
       else agg (window_at w i s).

(** Finite values, finite values that are not negative, and either or
    NaN. *)
Definition finite (x : pyfloat) : Prop := exists q, x = Fin q.
Definition nonneg (x : pyfloat) : Prop := exists q, x = Fin q /\ 0 <= q.
Definition nan_or (P : pyfloat -> Prop) (x : pyfloat) : Prop := x = NaN \/ P x.

(** One value of the indicator, from the average gain and loss at its
    position. *)
Definition rsi_point (g l : pyfloat) : pyfloat :=
  fsub (Fin 100) (fdiv (Fin 100) (fadd (Fin 1) (fdiv g l))).

(** [fillna(50)] and [fillna(0)] on one value. *)
Definition fill50 (x : pyfloat) : pyfloat := if isnan x then Fin 50 else x.

(** Sixteen rising prices, and thirty equal ones. *)
Definition rising_prices : list Q :=
  [1; 2; 3; 4; 5; 6; 7; 8; 9; 10; 11; 12; 13; 14; 15; 16].
Definition flat_prices : list Q := repeat 3 30.

Definition fill0 (x : pyfloat) : pyfloat := if isnan x then Fin 0 else x.

(** One value of the upper and of the lower band, from the rolling mean
    and standard deviation at its position. *)
Definition upper_point (k : nat) (m s : pyfloat) : pyfloat :=
  fill0 (fadd m (fmul (of_nat k) s)).
Definition lower_point (k : nat) (m s : pyfloat) : pyfloat :=
  fill0 (fsub m (fmul (of_nat k) s)).

(** A Buy result, and a table with one entry for its prompt, expiring at
    time 100. *)
Definition buy_result : StrategyResult :=
  mkResult [] "买入" (Fin 0.8) (votes_of 0 0 0).

Definition stale_table : list LLMCache :=
  [ mkCache (_generate_cache_key (lib := sample_lib)
               (build_prompt (lib := sample_lib) buy_result))
            (build_prompt (lib := sample_lib) buy_result)
            "cached advice" 100 ].

(** The pairs (action, confidence) of the three decision tables. *)
Definition ma_entries : list (string * pyfloat) :=
  [("持有", Fin 0.5); ("买入", Fin 0.85); ("卖出", Fin 0.8); ("买入", Fin 0.7);
   ("卖出", Fin 0.7); ("持有", Fin 0.6); ("持有", Fin 0.55)].
Definition rsi_entries : list (string * pyfloat) :=
  [("持有", Fin 0.5); ("卖出", Fin 0.85); ("买入", Fin 0.8); ("卖出", Fin 0.65);
   ("买入", Fin 0.65); ("持有", Fin 0.55)].
Definition bb_entries : list (string * pyfloat) :=
  [("持有", Fin 0.5); ("卖出", Fin 0.85); ("买入", Fin 0.8); ("卖出", Fin 0.7);
   ("买入", Fin 0.7); ("持有", Fin 0.55)].

Definition entry_of (s : Signal) : string * pyfloat := (signal s, confidence s).

(** The signals of the engine on a list of prices. *)
Definition engine_signals {lib : PyLib} (ps : Series) : list Signal :=
  map (fun strategy => strategy ps) strategies.

(** What the aggregator returns for signals with the given actions and
    confidences. *)
Definition outcome_of (es : list (string * pyfloat))
  : option (string * pyfloat * dict nat) :=
  option_map (fun r => (final_action r, avg_confidence r, votes r))
             (aggregate (map (fun e => mkSignal "" (fst e) (snd e) "") es)).

(** The band of the final confidence: 0.5 to 0.6 for Hold, 0.65 to 0.85
    for Buy and for Sell. *)
Definition in_band (o : option (string * pyfloat * dict nat)) : bool :=
  match o with
  | Some (a, c, _) =>
      if String.eqb a "持有" then fleb (Fin 0.5) c && fleb c (Fin 0.6)
      else (String.eqb a "买入" || String.eqb a "卖出")
           && fleb (Fin 0.65) c && fleb c (Fin 0.85)
  | None => false
  end.

(** One entry of each decision table, in the order of the strategies. *)
Definition table_triples : list (list (string * pyfloat)) :=
  flat_map (fun m =>
    flat_map (fun r => map (fun b => [m; r; b]) bb_entries) rsi_entries)
    ma_entries.

(** Prices in which each one stands in a relation to the one before it:
    rising, falling and unchanged prices. *)
Fixpoint chain (R : Q -> Q -> Prop) (a : Q) (qs : list Q) : Prop :=
  match qs with
  | [] => True
  | b :: rest => R a b /\ chain R b rest
  end.

Definition stepwise (R : Q -> Q -> Prop) (qs : list Q) : Prop :=
  match qs with
  | [] => True
  | a :: rest => chain R a rest
  end.

Definition rising (qs : list Q) : Prop := stepwise (fun a b => a < b) qs.
Definition falling (qs : list Q) : Prop := stepwise (fun a b => b < a) qs.
Definition unchanged (qs : list Q) : Prop := stepwise (fun a b => a == b) qs.

(** The step differences of a list of prices, as [diff] computes them. *)
Fixpoint deltas (a : Q) (qs : list Q) : list Q :=
  match qs with
  | [] => []
  | b :: rest => Qred (b + Qred (- a)) :: deltas b rest
  end.

(** Twenty prices going up by one, and the same going down. *)
Definition climb : list Q :=
  map (fun n => inject_Z (Z.of_nat n)) (seq 1 20).

(** Successive calls of [generate_advice] for one result, each at its own
    time, on the table the call before has left. *)
Fixpoint advise_all {lib : PyLib} (provider : Provider)
    (table : list LLMCache) (times : list Z) (sr : StrategyResult)
  : list AdviceRun :=
  match times with
  | [] => []
  | t :: rest =>
      let run := generate_advice provider table t t sr in
      run :: advise_all provider (table_after run) rest sr
  end.

(** The answer of the mock provider to a prompt that mentions Buy. *)
Definition mock_buy_answer : string :=
  "技术指标综合显示短期上涨动能较强。"
  ++ "双均线形成金叉，RSI处于偏强区域，价格在布林带中轨上方运行。"
  ++ "建议可考虑逢低布局，建议仓位控制在30%-50%。".

(** A Sell result in which one strategy says Buy. *)
Definition sell_with_a_buy : StrategyResult :=
  mkResult [ mkSignal "双均线" "卖出" (Fin 0.8) "";
             mkSignal "RSI" "卖出" (Fin 0.85) "";
             mkSignal "布林带" "买入" (Fin 0.8) "" ]
           "卖出" (Fin (33 # 40)) (votes_of 1 2 0).

(** The number of calls to the outside in a trace, and the seconds slept. *)
Definition fetches (trace : list Event) : nat :=
  length (filter (fun e => match e with Fetch _ _ _ _ => true | _ => false end)
                 trace).

Fixpoint slept (trace : list Event) : nat :=
  match trace with
  | [] => 0%nat
  | Sleep s :: rest => (s + slept rest)%nat
  | _ :: rest => slept rest
  end.

(** The time labels of one hour of the intraday data. *)
Fixpoint slot_labels (hour : nat) (minutes : list nat) : list string :=
  match minutes with
  | [] => []
  | minute :: rest =>
      if (hour =? 9)%nat && (minute <? 30)%nat then slot_labels hour rest
      else if (hour =? 15)%nat && (0 <? minute)%nat then []
      else (format_02d hour ++ ":" ++ format_02d minute) :: slot_labels hour rest
  end.

(** An implementation of the string interface: ASCII digits, and the text
    "status: detail". *)
Fixpoint all_ascii_digits (s : string) : bool :=
  match s with
  | EmptyString => true
  | String c rest =>
      (48 <=? Ascii.nat_of_ascii c)%nat && (Ascii.nat_of_ascii c <=? 57)%nat
      && all_ascii_digits rest
  end.

Definition sample_str : PyStr := {|
  isdigit := fun s => negb (String.eqb s "") && all_ascii_digits s;
  str_HTTPException := fun status detail =>
    DecimalString.NilZero.string_of_uint (Nat.to_uint status) ++ ": " ++ detail
|}.

(** The calls of [record_action] one after the other: each has its day,
    code, action, amount and remark. *)
Definition Recorded : Type :=
  (Z * string * string * pyfloat * option string)%type.

Definition record_all (calls : list Recorded) (table : list DailyStrategy)
  : list DailyStrategy :=
  fold_left (fun t c =>
               let '(today, symbol, action, a, r) := c in
               snd (record_action t today symbol action a r))
            calls table.

Definition recorded_for (symbol : string) (calls : list Recorded) : nat :=
  length (filter (fun c : Recorded =>
                    let '(_, s, _, _, _) := c in String.eqb s symbol) calls).

(** Thirty prices going up by one, and the same going down. *)
Definition long_climb : list Q :=
  map (fun n => inject_Z (Z.of_nat n)) (seq 1 30).
Definition long_descent : list Q := rev long_climb.

(** The three strategies of the engine. *)
Definition engine_ma : MovingAverageStrategy :=
  {| short_window := 5; long_window := 20 |}.
Definition engine_rsi : RSIStrategy :=
  {| period := 14; overbought := Fin 70; oversold := Fin 30 |}.
Definition engine_bb : BollingerBandStrategy :=
  {| window := 20; std_dev := 2 |}.

(** pandas' rolling mean and standard deviation for the examples: the
    exact ones of each window, rounded once. *)
Definition sample_pandas : Rounded.Pandas := {|
  Rounded.pd_rolling_mean :=
    fun w s => map Rounded.round64 (rolling_mean w s);
  Rounded.pd_rolling_std :=
    fun w s => map Rounded.round64 (rolling_std (lib := sample_lib) w s)
|}.

(** The time of day [minutes] after midnight, as [HH:MM]. *)
Definition clock (minutes : nat) : string :=
  format_02d (minutes / 60) ++ ":" ++ format_02d (minutes mod 60).

(** A price as the data service gives it: positive, at most a million, with
    three decimals. *)
Definition quoted (q : Q) : bool :=
  Qlt_bool 0 q && Qle_bool q 1000000
  && (Zpos (Qden (Qred (q * 1000))) =? 1)%Z.


(** A value that is at most [q]: a finite one, or the negative
    infinity. *)
Definition at_most (x : pyfloat) (q : Q) : Prop :=
  x = NInf \/ exists r, x = Fin r /\ r <= q.

(* ================================================================= *)
(** * Properties *)

(** ** Comparisons and arithmetic on finite values *)

#[local] Arguments Qred : simpl never.
#[local] Arguments Qplus : simpl never.
#[local] Arguments Qmult : simpl never.
#[local] Arguments Qopp : simpl never.
#[local] Arguments Qdiv : simpl never.
#[local] Arguments Qinv : simpl never.
#[local] Arguments Qle_bool : simpl never.
#[local] Arguments Qeq_bool : simpl never.
#[local] Arguments Qlt_bool : simpl never.
#[local] Arguments Qfloor : simpl never.
#[local] Arguments inject_Z : simpl never.

Lemma Qlt_bool_iff (a b : Q) : Qlt_bool a b = true <-> a < b.
Proof.
  unfold Qlt_bool. rewrite negb_true_iff. split; intro H.
  - apply Qnot_le_lt. intro Hle. apply Qle_bool_iff in Hle. congruence.
  - destruct (Qle_bool b a) eqn:E; trivial.
    apply Qle_bool_iff in E. exfalso. apply (Qlt_not_le _ _ H E).
Qed.

Lemma Qlt_bool_false_iff (a b : Q) : Qlt_bool a b = false <-> b <= a.
Proof.
  unfold Qlt_bool. rewrite negb_false_iff. apply Qle_bool_iff.
Qed.

Lemma Qeq_bool_false_iff (a b : Q) : Qeq_bool a b = false <-> ~ a == b.
Proof.
  split; intro H.
  - intro E. apply Qeq_bool_iff in E. congruence.
  - destruct (Qeq_bool a b) eqn:E; trivial.
    apply Qeq_bool_iff in E. contradiction.
Qed.

Lemma fleb_Fin (a b : Q) : fleb (Fin a) (Fin b) = true <-> a <= b.
Proof.
  unfold fleb; simpl. rewrite orb_true_iff, Qlt_bool_iff, Qeq_bool_iff.
  split.
  - intros [H | H]; [apply Qlt_le_weak; exact H | rewrite H; apply Qle_refl].
  - intro H. destruct (Qlt_le_dec a b) as [L | L]; [left; exact L | right].
    apply Qle_antisym; assumption.
Qed.

(** Tactic: turn the boolean tests on rationals of the context and the goal
    into propositions. *)
Ltac qbool :=
  repeat match goal with
         | H : Qlt_bool _ _ = true |- _ => apply Qlt_bool_iff in H
         | H : Qlt_bool _ _ = false |- _ => apply Qlt_bool_false_iff in H
         | H : Qeq_bool _ _ = true |- _ => apply Qeq_bool_iff in H
         | H : Qeq_bool _ _ = false |- _ => apply Qeq_bool_false_iff in H
         | H : Qle_bool _ _ = true |- _ => apply Qle_bool_iff in H
         | H : Qle_bool _ _ = false |- _ =>
             apply not_true_iff_false in H; rewrite Qle_bool_iff in H;
             apply Qnot_le_lt in H
         end.

Lemma feq_Fin_eq (a b : Q) : a == b -> Fin (Qred a) = Fin (Qred b).
Proof. intro H. f_equal. apply Qred_complete. exact H. Qed.

#[global] Instance Qltb_comp : Proper (Qeq ==> Qeq ==> eq) Qlt_bool.
Proof. intros a a' Ha b b' Hb. unfold Qlt_bool. rewrite Ha, Hb. reflexivity. Qed.

(** Multiplication gives the same result on equal right factors. *)
Lemma fmul_feq_r (t x y : pyfloat) : feq x y -> fmul t x = fmul t y.
Proof.
  destruct x as [a| | |], y as [b| | |]; simpl; try tauto; intro H.
  destruct t as [k| | |]; simpl; trivial.
  - apply feq_Fin_eq. rewrite H. reflexivity.
  - unfold inf_times.
    replace (Qlt_bool 0 a) with (Qlt_bool 0 b) by (rewrite H; reflexivity).
    rewrite H. reflexivity.
  - unfold inf_times.
    replace (Qlt_bool 0 a) with (Qlt_bool 0 b) by (rewrite H; reflexivity).
    rewrite H. reflexivity.
Qed.

(* ================================================================= *)
(** ** The insufficient-data guard of the strategies *)

(** C3.  A strategy given fewer prices than its window plus five answers
    Hold with confidence 0.5 and the detail "数据不足" (insufficient data):
    for any parameters, and so below 25, 19 and 25 prices for the three
    strategies of the engine. *)
Theorem short_history_gives_hold :
  forall (lib : PyLib) (prices : Series),
    (forall ma : MovingAverageStrategy,
        (length prices < long_window ma + 5)%nat ->
        MovingAverageStrategy_analyze ma prices = hold_for_lack_of_data "双均线")
    /\ (forall rsi : RSIStrategy,
          (length prices < period rsi + 5)%nat ->
          RSIStrategy_analyze rsi prices = hold_for_lack_of_data "RSI")
    /\ (forall bb : BollingerBandStrategy,
          (length prices < window bb + 5)%nat ->
          BollingerBandStrategy_analyze bb prices = hold_for_lack_of_data "布林带")
    /\ ((length prices < 25)%nat ->
        nth_error (map (fun strategy => strategy prices) strategies) 0
        = Some (hold_for_lack_of_data "双均线"))
    /\ ((length prices < 19)%nat ->
        nth_error (map (fun strategy => strategy prices) strategies) 1
        = Some (hold_for_lack_of_data "RSI"))
    /\ ((length prices < 25)%nat ->
        nth_error (map (fun strategy => strategy prices) strategies) 2
        = Some (hold_for_lack_of_data "布林带")).
Proof.
  intros lib prices.
  assert (Hma : forall ma : MovingAverageStrategy,
             (length prices < long_window ma + 5)%nat ->
             MovingAverageStrategy_analyze ma prices
             = hold_for_lack_of_data "双均线").
  { intros ma H. unfold MovingAverageStrategy_analyze.
    apply Nat.ltb_lt in H. rewrite H. reflexivity. }
  assert (Hrsi : forall rsi : RSIStrategy,
             (length prices < period rsi + 5)%nat ->
             RSIStrategy_analyze rsi prices = hold_for_lack_of_data "RSI").
  { intros rsi H. unfold RSIStrategy_analyze.
    apply Nat.ltb_lt in H. rewrite H. reflexivity. }
  assert (Hbb : forall bb : BollingerBandStrategy,
             (length prices < window bb + 5)%nat ->
             BollingerBandStrategy_analyze bb prices
             = hold_for_lack_of_data "布林带").
  { intros bb H. unfold BollingerBandStrategy_analyze.
    apply Nat.ltb_lt in H. rewrite H. reflexivity. }
  repeat split; trivial; intro H; cbn [strategies map nth_error]; f_equal.
  - apply Hma. exact H.
  - apply Hrsi. exact H.
  - apply Hbb. exact H.
Qed.

Lemma short_history_gives_hold_witness :
  MovingAverageStrategy_analyze {| short_window := 5; long_window := 20 |}
    (repeat (Fin 3) 24)
  = hold_for_lack_of_data "双均线".
Proof.
  apply (proj1 (short_history_gives_hold sample_lib (repeat (Fin 3) 24))).
  simpl. lia.
Defined.

(* ================================================================= *)
(** ** Rounding half to even *)

Lemma round_half_even_cases (q : Q) :
  (round_half_even q = Qfloor q /\ q - inject_Z (Qfloor q) <= 1 # 2)
  \/ (round_half_even q = (Qfloor q + 1)%Z
      /\ 1 # 2 <= q - inject_Z (Qfloor q)).
Proof.
  unfold round_half_even. cbv zeta.
  destruct (Qlt_bool (q - inject_Z (Qfloor q)) (1 # 2)) eqn:E1; qbool.
  - left. split; [reflexivity | lra].
  - destruct (Qlt_bool (1 # 2) (q - inject_Z (Qfloor q))) eqn:E2; qbool.
    + right. split; [reflexivity | lra].
    + destruct (Z.even (Qfloor q)); [left | right]; split;
        trivial; lra.
Qed.

Lemma floor_bounds (q : Q) :
  inject_Z (Qfloor q) <= q /\ q < inject_Z (Qfloor q) + 1.
Proof.
  split; [apply Qfloor_le |].
  pose proof (Qlt_floor q) as H. rewrite inject_Z_plus in H. exact H.
Qed.

(** Rounding does not cross an integer. *)
Lemma round_half_even_ge (n : Z) (q : Q) :
  inject_Z n <= q -> (n <= round_half_even q)%Z.
Proof.
  intro H. apply Qfloor_resp_le in H. rewrite Qfloor_Z in H.
  destruct (round_half_even_cases q) as [[-> _] | [-> _]]; lia.
Qed.

Lemma round_half_even_le (n : Z) (q : Q) :
  q <= inject_Z n -> (round_half_even q <= n)%Z.
Proof.
  intro H. destruct (floor_bounds q) as [Hf _].
  destruct (round_half_even_cases q) as [[-> _] | [-> Hr]].
  - rewrite Zle_Qle. lra.
  - assert (Hlt : inject_Z (Qfloor q) < inject_Z n) by lra.
    rewrite <- Zlt_Qlt in Hlt. lia.
Qed.

Lemma round_half_even_mono (x y : Q) :
  x <= y -> (round_half_even x <= round_half_even y)%Z.
Proof.
  intro H. pose proof (Qfloor_resp_le x y H) as Hfl.
  destruct (Z.eq_dec (Qfloor x) (Qfloor y)) as [E | NE].
  - destruct (round_half_even_cases x) as [[Hx Hrx] | [Hx Hrx]];
      destruct (round_half_even_cases y) as [[Hy Hry] | [Hy Hry]];
      try (rewrite Hx, Hy; lia).
    assert (Hhalf : x - inject_Z (Qfloor x) == 1 # 2)
      by (rewrite E in *; lra).
    assert (Hhalf' : y - inject_Z (Qfloor y) == 1 # 2)
      by (rewrite E in *; lra).
    unfold round_half_even. cbv zeta.
    rewrite (proj2 (Qlt_bool_false_iff (x - inject_Z (Qfloor x)) (1 # 2)))
      by lra.
    rewrite (proj2 (Qlt_bool_false_iff (1 # 2) (x - inject_Z (Qfloor x))))
      by lra.
    rewrite (proj2 (Qlt_bool_false_iff (y - inject_Z (Qfloor y)) (1 # 2)))
      by lra.
    rewrite (proj2 (Qlt_bool_false_iff (1 # 2) (y - inject_Z (Qfloor y))))
      by lra.
    rewrite E. destruct (Z.even (Qfloor y)); lia.
  - assert (Hlt : (Qfloor x + 1 <= Qfloor y)%Z) by lia.
    destruct (round_half_even_cases x) as [[-> _] | [-> _]];
      destruct (round_half_even_cases y) as [[-> _] | [-> _]]; lia.
Qed.

(* ================================================================= *)
(** ** The rounding of binary64 *)

#[local] Arguments Qpower : simpl never.
#[local] Arguments Rounded.rnd64 : simpl never.
#[local] Arguments Rounded.nearest : simpl never.

Lemma pow2_pos (z : Z) : 0 < 2 ^ z.
Proof. apply Qpower_0_lt. reflexivity. Qed.

Lemma pow2_le (a b : Z) : (a <= b)%Z -> 2 ^ a <= 2 ^ b.
Proof.
  intro H. apply Qpower_le_compat_l; [exact H |].
  unfold Qle. simpl. lia.
Qed.

Lemma pow2_plus (a b : Z) : 2 ^ (a + b) == 2 ^ a * 2 ^ b.
Proof. apply Qpower_plus. intro H. discriminate H. Qed.

Lemma pow2_inject (n : Z) : (0 <= n)%Z -> 2 ^ n == inject_Z (2 ^ n).
Proof. intro H. rewrite Zpower_Qpower by exact H. reflexivity. Qed.

Lemma quotient_lt (a b c d : Q) :
  0 < a -> 0 < c -> a <= b -> c <= d -> (a < b \/ c < d) -> a / d < b / c.
Proof.
  intros Ha Hc Hab Hcd Hstrict.
  apply Qlt_shift_div_l; [exact Hc |].
  assert (E : a / d * c == a * c / d) by (field; lra).
  rewrite E. apply Qlt_shift_div_r; [lra |].
  destruct Hstrict; nra.
Qed.

(** [ilog2 q] is the exponent of the power of two at or below [q]. *)
Lemma ilog2_spec (q : Q) :
  0 < q -> 2 ^ Rounded.ilog2 q <= q /\ q < 2 ^ (Rounded.ilog2 q + 1).
Proof.
  intro Hq. destruct q as [n d].
  assert (Hn : (0 < n)%Z) by (unfold Qlt in Hq; simpl in Hq; lia).
  unfold Rounded.ilog2. cbn [Qnum Qden].
  pose proof (Z.log2_spec n Hn) as [Hn1 Hn2].
  pose proof (Z.log2_spec (Zpos d) (Pos2Z.is_pos d)) as [Hd1 Hd2].
  pose proof (Z.log2_nonneg n) as Hln.
  pose proof (Z.log2_nonneg (Zpos d)) as Hld.
  set (ln := Z.log2 n) in *. set (ld := Z.log2 (Zpos d)) in *.
  assert (Qn1 : 2 ^ ln <= inject_Z n)
    by (rewrite pow2_inject by exact Hln; rewrite <- Zle_Qle; exact Hn1).
  assert (Qn2 : inject_Z n < 2 ^ (ln + 1)).
  { rewrite pow2_inject by lia. rewrite <- Zlt_Qlt.
    replace (ln + 1)%Z with (Z.succ ln) by lia. exact Hn2. }
  assert (Qd1 : 2 ^ ld <= inject_Z (Zpos d))
    by (rewrite pow2_inject by exact Hld; rewrite <- Zle_Qle; exact Hd1).
  assert (Qd2 : inject_Z (Zpos d) < 2 ^ (ld + 1)).
  { rewrite pow2_inject by lia. rewrite <- Zlt_Qlt.
    replace (ld + 1)%Z with (Z.succ ld) by lia. exact Hd2. }
  pose proof (pow2_pos ln) as Pn. pose proof (pow2_pos ld) as Pd.
  assert (Hlow : 2 ^ (ln - ld - 1) < n # d).
  { replace (ln - ld - 1)%Z with (ln - (ld + 1))%Z by lia.
    rewrite Qpower_minus by (intro H; discriminate H).
    rewrite (Qmake_Qdiv n d).
    apply quotient_lt; try lra. }
  assert (Hhigh : n # d < 2 ^ (ln - ld + 1)).
  { replace (ln - ld + 1)%Z with (ln + 1 - ld)%Z by lia.
    rewrite Qpower_minus by (intro H; discriminate H).
    rewrite (Qmake_Qdiv n d).
    apply quotient_lt; try lra. }
  destruct (Qle_bool (2 ^ (ln - ld)) (n # d)) eqn:E.
  - apply Qle_bool_iff in E. split; assumption.
  - apply not_true_iff_false in E. rewrite Qle_bool_iff in E.
    apply Qnot_le_lt in E. split.
    + apply Qlt_le_weak. exact Hlow.
    + replace (ln - ld - 1 + 1)%Z with (ln - ld)%Z by lia. exact E.
Qed.

Lemma ilog2_mono (a b : Q) :
  0 < a -> a <= b -> (Rounded.ilog2 a <= Rounded.ilog2 b)%Z.
Proof.
  intros Ha Hab.
  destruct (ilog2_spec a Ha) as [A1 _].
  destruct (ilog2_spec b) as [_ B2]; [lra |].
  destruct (Z_le_gt_dec (Rounded.ilog2 a) (Rounded.ilog2 b)) as [H | H];
    [exact H |].
  exfalso.
  assert (Hp : 2 ^ (Rounded.ilog2 b + 1) <= 2 ^ Rounded.ilog2 a)
    by (apply pow2_le; lia).
  lra.
Qed.

Lemma ulp_exponent_mono (a b : Q) :
  0 < a -> a <= b -> (Rounded.ulp_exponent a <= Rounded.ulp_exponent b)%Z.
Proof.
  intros Ha Hab. pose proof (ilog2_mono a b Ha Hab).
  unfold Rounded.ulp_exponent. lia.
Qed.

(** Rounding to the grid of the last place keeps the order. *)
Lemma nearest_mono (a b : Q) :
  0 < a -> a <= b -> Rounded.nearest a <= Rounded.nearest b.
Proof.
  intros Ha Hab. assert (Hb : 0 < b) by lra.
  pose proof (ilog2_mono a b Ha Hab) as Hl.
  pose proof (ulp_exponent_mono a b Ha Hab) as He.
  unfold Rounded.nearest. cbv zeta.
  assert (Hia : (Rounded.ilog2 a - 52 <= Rounded.ulp_exponent a)%Z)
    by (unfold Rounded.ulp_exponent; lia).
  assert (Hmin : (-1074 <= Rounded.ulp_exponent a)%Z)
    by (unfold Rounded.ulp_exponent; lia).
  assert (Hib : (Rounded.ulp_exponent a < Rounded.ulp_exponent b ->
                 Rounded.ulp_exponent b = Rounded.ilog2 b - 52)%Z)
    by (unfold Rounded.ulp_exponent; lia).
  set (ea := Rounded.ulp_exponent a) in *.
  set (eb := Rounded.ulp_exponent b) in *.
  pose proof (pow2_pos ea) as Pa. pose proof (pow2_pos eb) as Pb.
  destruct (Z.eq_dec ea eb) as [E | NE].
  - rewrite E. apply Qmult_le_compat_r; [| lra].
    rewrite <- Zle_Qle. apply round_half_even_mono.
    apply Qmult_le_compat_r; [exact Hab |].
    apply Qlt_le_weak, Qinv_lt_0_compat. exact Pb.
  - assert (Heb : eb = (Rounded.ilog2 b - 52)%Z) by (apply Hib; lia).
    destruct (ilog2_spec a Ha) as [_ A2]. destruct (ilog2_spec b Hb) as [B1 _].
    assert (HaT : a <= 2 ^ (eb + 52)).
    { apply Qle_trans with (2 ^ (Rounded.ilog2 a + 1)); [lra |].
      apply pow2_le. lia. }
    assert (HTb : 2 ^ (eb + 52) <= b).
    { rewrite Heb. replace (Rounded.ilog2 b - 52 + 52)%Z
        with (Rounded.ilog2 b) by lia. exact B1. }
    apply Qle_trans with (2 ^ (eb + 52)).
    + assert (ET : 2 ^ (eb + 52) == inject_Z (2 ^ (eb + 52 - ea)) * 2 ^ ea).
      { rewrite <- pow2_inject by lia. rewrite <- pow2_plus.
        replace (eb + 52 - ea + ea)%Z with (eb + 52)%Z by lia. reflexivity. }
      rewrite ET. apply Qmult_le_compat_r; [| lra].
      rewrite <- Zle_Qle. apply round_half_even_le.
      apply Qle_shift_div_r; [exact Pa |]. rewrite <- ET. exact HaT.
    + assert (ET : 2 ^ (eb + 52) == inject_Z (2 ^ 52) * 2 ^ eb).
      { rewrite <- pow2_inject by lia. rewrite <- pow2_plus.
        replace (52 + eb)%Z with (eb + 52)%Z by lia. reflexivity. }
      rewrite ET. apply Qmult_le_compat_r; [| lra].
      rewrite <- Zle_Qle. apply round_half_even_ge.
      apply Qle_shift_div_l; [exact Pb |]. rewrite <- ET. exact HTb.
Qed.

Lemma nearest_nonneg (a : Q) : 0 < a -> 0 <= Rounded.nearest a.
Proof.
  intro Ha. unfold Rounded.nearest. cbv zeta.
  pose proof (pow2_pos (Rounded.ulp_exponent a)) as P.
  apply Qmult_le_0_compat; [| lra].
  change 0 with (inject_Z 0). rewrite <- Zle_Qle.
  apply round_half_even_ge. change (inject_Z 0) with 0.
  apply Qle_shift_div_l; [exact P |]. lra.
Qed.

(** A positive number rounds to a number that is not negative, or to the
    positive infinity. *)
Lemma round_pos_cases (a : Q) :
  0 < a ->
  Rounded.round_pos a = PInf
  \/ exists r, Rounded.round_pos a = Fin r /\ 0 <= r.
Proof.
  intro Ha. unfold Rounded.round_pos. cbv zeta.
  destruct (Qle_bool (2 ^ 1024) (Rounded.nearest a)); [left; reflexivity |].
  right. eexists. split; [reflexivity |].
  rewrite Qred_correct. apply nearest_nonneg. exact Ha.
Qed.

Lemma round_pos_mono (a b : Q) :
  0 < a -> a <= b ->
  fleb (Rounded.round_pos a) (Rounded.round_pos b) = true.
Proof.
  intros Ha Hab. pose proof (nearest_mono a b Ha Hab) as H.
  unfold Rounded.round_pos. cbv zeta.
  destruct (Qle_bool (2 ^ 1024) (Rounded.nearest a)) eqn:Ea;
    destruct (Qle_bool (2 ^ 1024) (Rounded.nearest b)) eqn:Eb;
    try reflexivity.
  - qbool. exfalso. lra.
  - apply fleb_Fin. rewrite !Qred_correct. exact H.
Qed.

Lemma fleb_fneg (x y : pyfloat) :
  fleb x y = true -> fleb (fneg y) (fneg x) = true.
Proof.
  destruct x as [a | | |], y as [b | | |]; try (intro H; exact H);
    try reflexivity.
  intro H. apply fleb_Fin in H. apply fleb_Fin.
  rewrite !Qred_correct. lra.
Qed.

Lemma Qnum_sign (q : Q) :
  match Qnum q with
  | Z0 => q == 0
  | Zpos _ => 0 < q
  | Zneg _ => q < 0
  end.
Proof. destruct q as [[| p | p] d]; unfold Qeq, Qlt; simpl; lia. Qed.

(** The rounding of a number at most 0, and of one at least 0. *)
Lemma rnd64_nonpos (q : Q) :
  q <= 0 ->
  Rounded.rnd64 q = NInf \/ exists r, Rounded.rnd64 q = Fin r /\ r <= 0.
Proof.
  intro Hq. pose proof (Qnum_sign q) as Hs. unfold Rounded.rnd64.
  destruct (Qnum q).
  - right. exists 0. split; [reflexivity | lra].
  - exfalso. lra.
  - destruct (round_pos_cases (- q)) as [-> | [r [-> Hr]]]; [lra | |].
    + left. reflexivity.
    + right. eexists. split; [reflexivity |]. rewrite Qred_correct. lra.
Qed.

Lemma rnd64_nonneg (q : Q) :
  0 <= q ->
  Rounded.rnd64 q = PInf \/ exists r, Rounded.rnd64 q = Fin r /\ 0 <= r.
Proof.
  intro Hq. pose proof (Qnum_sign q) as Hs. unfold Rounded.rnd64.
  destruct (Qnum q).
  - right. exists 0. split; [reflexivity | lra].
  - apply round_pos_cases. exact Hs.
  - exfalso. lra.
Qed.

(** The rounding keeps the order, the infinities included. *)
Lemma rnd64_mono (a b : Q) :
  a <= b -> fleb (Rounded.rnd64 a) (Rounded.rnd64 b) = true.
Proof.
  intro Hab.
  pose proof (Qnum_sign a) as Ha. pose proof (Qnum_sign b) as Hb.
  destruct (Qlt_le_dec 0 a) as [Pa | Na].
  - unfold Rounded.rnd64.
    destruct (Qnum a); try (exfalso; lra).
    destruct (Qnum b); try (exfalso; lra).
    apply round_pos_mono; assumption.
  - destruct (Qlt_le_dec b 0) as [Nb | Pb].
    + unfold Rounded.rnd64.
      destruct (Qnum a); try (exfalso; lra).
      destruct (Qnum b); try (exfalso; lra).
      apply fleb_fneg. apply round_pos_mono; lra.
    + destruct (rnd64_nonpos a Na) as [-> | [r [-> Hr]]];
        destruct (rnd64_nonneg b Pb) as [-> | [s [-> Hs]]];
        try reflexivity.
      apply fleb_Fin. lra.
Qed.

Lemma rnd64_not_nan (q : Q) : isnan (Rounded.rnd64 q) = false.
Proof.
  pose proof (rnd64_mono q q (Qle_refl q)) as H.
  destruct (Rounded.rnd64 q); try reflexivity. discriminate H.
Qed.

Lemma round64_not_nan (x : pyfloat) :
  isnan x = false -> isnan (Rounded.round64 x) = false.
Proof.
  destruct x; simpl; trivial. intros _. apply rnd64_not_nan.
Qed.

(* ================================================================= *)
(** ** The position sizer *)

Lemma raw_fraction_value (c : Q) :
  exists x, raw_fraction c = Fin x /\ x == 0.1 + (c - 0.5) * 0.8.
Proof.
  eexists. split; [reflexivity |].
  rewrite !Qred_correct. ring.
Qed.

(** The literals of [calculate_position] as binary64 numbers. *)
Lemma sizer_literals :
  exists q01 q08,
    Rounded.lit 0.1 = Fin q01 /\ Rounded.lit 0.8 = Fin q08
    /\ Rounded.lit 0.5 = Fin (1 # 2)
    /\ Rounded.rnd64 q01 = Fin q01
    /\ 0 < q01 /\ q01 < 1 # 2 /\ 0 < q08.
Proof. do 2 eexists. repeat split; vm_compute; reflexivity. Qed.

Lemma rsub_below (c : pyfloat) (h : Q) :
  fltb c (Fin h) = true -> at_most (Rounded.rsub c (Fin h)) 0.
Proof.
  destruct c as [a | | |]; try discriminate; intro H.
  - cbn [fltb] in H. qbool. unfold Rounded.rsub, fsub.
    cbn [fneg fadd Rounded.round64].
    apply rnd64_nonpos. rewrite !Qred_correct. lra.
  - left. reflexivity.
Qed.

Lemma rmul_below (d : pyfloat) (q : Q) :
  0 < q -> at_most d 0 -> at_most (Rounded.rmul d (Fin q)) 0.
Proof.
  intros Hq [-> | [r [-> Hr]]]; unfold Rounded.rmul.
  - left. cbn [fmul]. unfold inf_times.
    rewrite (proj2 (Qeq_bool_false_iff q 0)) by lra.
    rewrite (proj2 (Qlt_bool_iff 0 q) Hq). reflexivity.
  - cbn [fmul Rounded.round64]. apply rnd64_nonpos.
    rewrite Qred_correct. nra.
Qed.

Lemma radd_below (e : pyfloat) (q : Q) :
  Rounded.rnd64 q = Fin q -> at_most e 0 ->
  at_most (Rounded.radd (Fin q) e) q.
Proof.
  intros Hq [-> | [r [-> Hr]]]; unfold Rounded.radd.
  - left. reflexivity.
  - cbn [fadd Rounded.round64].
    assert (Hle : Qred (q + r) <= q) by (rewrite Qred_correct; lra).
    pose proof (rnd64_mono _ _ Hle) as Hm. rewrite Hq in Hm.
    destruct (Rounded.rnd64 (Qred (q + r))) as [s | | |];
      try discriminate Hm.
    + right. exists s. split; [reflexivity |]. apply fleb_Fin. exact Hm.
    + left. reflexivity.
Qed.

Lemma clamp_floor (x : pyfloat) (lo : Q) :
  lo < 1 # 2 -> at_most x lo ->
  py_max (Fin lo) (py_min (Fin (1 # 2)) x) = Fin lo.
Proof.
  intros Hlo [-> | [r [-> Hr]]]; unfold py_max, py_min, fgtb.
  - reflexivity.
  - cbn [fltb]. rewrite (proj2 (Qlt_bool_iff r (1 # 2))) by lra.
    cbn [fltb]. rewrite (proj2 (Qlt_bool_false_iff lo r)) by lra.
    reflexivity.
Qed.

(** [max(lo, min(0.5, x))] is the clamp of [x], for every [x] but NaN. *)
Lemma max_min_is_clamp (lo : Q) (x : pyfloat) :
  lo < 1 # 2 -> isnan x = false ->
  feq (py_max (Fin lo) (py_min (Fin (1 # 2)) x))
      (clamp (Fin lo) (Fin (1 # 2)) x).
Proof.
  intros Hlo Hx. destruct x as [a | | |]; try discriminate Hx;
    unfold py_max, py_min, clamp, fgtb; cbn [fltb].
  - destruct (Qlt_bool a (1 # 2)) eqn:E1; cbn [fltb];
      destruct (Qlt_bool a lo) eqn:E2;
      destruct (Qlt_bool (1 # 2) a) eqn:E3;
      try (destruct (Qlt_bool lo a) eqn:E4);
      try (destruct (Qlt_bool lo (1 # 2)) eqn:E5);
      qbool; cbn [feq]; try lra; try apply Qeq_refl.
  - rewrite (proj2 (Qlt_bool_iff lo (1 # 2)) Hlo). apply Qeq_refl.
  - apply Qeq_refl.
Qed.

Lemma raw_fraction_not_nan (c : pyfloat) :
  isnan c = false -> isnan (Rounded.raw_fraction c) = false.
Proof.
  intro Hc. unfold Rounded.raw_fraction.
  destruct sizer_literals as [q01 [q08 [-> [-> [-> [_ [_ [_ H8]]]]]]]].
  assert (Hd : isnan (Rounded.rsub c (Fin (1 # 2))) = false).
  { unfold Rounded.rsub. apply round64_not_nan.
    destruct c; try discriminate Hc; reflexivity. }
  assert (He : isnan (Rounded.rmul (Rounded.rsub c (Fin (1 # 2))) (Fin q08))
               = false).
  { unfold Rounded.rmul. apply round64_not_nan.
    destruct (Rounded.rsub c (Fin (1 # 2))); try discriminate Hd;
      cbn [fmul]; try reflexivity; unfold inf_times;
      rewrite (proj2 (Qeq_bool_false_iff q08 0)) by lra;
      rewrite (proj2 (Qlt_bool_iff 0 q08) H8); reflexivity. }
  unfold Rounded.radd. apply round64_not_nan.
  destruct (Rounded.rmul _ _); try discriminate He; reflexivity.
Qed.

(** C2.  With the rounding of binary64, on a capital and a confidence that
    are floats, [calculate_position] is 0 for every action other than Buy;
    for Buy and a confidence that is a number it is the capital times the
    fraction [0.1 + (confidence - 0.5) * 0.8] clamped to [[0.1, 0.5]],
    rounded to two decimals; a confidence below 0.5 gets the floor fraction
    0.1 and is not rejected; on a capital of 10000 it gives 1000 at
    confidence 0.5, 5000 at confidence 1 and 0 for Sell.  The product is
    rounded before [round] sees it: a capital of 0.25 gives 0.03 at
    confidence 0.5, the product of the two floats being above 0.025, and a
    capital of 1.25 gives 0.12, the product being the float 0.125. *)
Theorem calculate_position_rounded :
  forall (total_capital confidence : pyfloat) (action : string),
    Rounded.binary64 total_capital -> Rounded.binary64 confidence ->
    (action <> "买入" ->
     Rounded.calculate_position total_capital confidence action = Fin 0)
    /\ (isnan confidence = false ->
        Rounded.calculate_position total_capital confidence "买入"
        = Rounded.py_round
            (Rounded.rmul total_capital
               (clamp (Rounded.lit 0.1) (Rounded.lit 0.5)
                      (Rounded.raw_fraction confidence))) 2)
    /\ (fltb confidence (Rounded.lit 0.5) = true ->
        Rounded.calculate_position total_capital confidence "买入"
        = Rounded.py_round (Rounded.rmul total_capital (Rounded.lit 0.1)) 2)
    /\ Rounded.calculate_position (Fin 10000) (Rounded.lit 0.5) "买入"
       = Fin 1000
    /\ Rounded.calculate_position (Fin 10000) (Fin 1) "买入" = Fin 5000
    /\ Rounded.calculate_position (Fin 10000) (Rounded.lit 0.9) "卖出" = Fin 0
    /\ Rounded.calculate_position (Rounded.lit 0.25) (Rounded.lit 0.5) "买入"
       = Rounded.lit 0.03
    /\ Rounded.calculate_position (Rounded.lit 1.25) (Rounded.lit 0.5) "买入"
       = Rounded.lit 0.12.
Proof.
  intros total_capital confidence action _ _.
  assert (Hbuy : Rounded.calculate_position total_capital confidence "买入"
                 = Rounded.py_round
                     (Rounded.rmul total_capital
                        (py_max (Rounded.lit 0.1)
                           (py_min (Rounded.lit 0.5)
                              (Rounded.raw_fraction confidence)))) 2)
    by reflexivity.
  split; [| split; [| split; [| repeat split; vm_compute; reflexivity]]].
  - intro Hne. unfold Rounded.calculate_position.
    apply String.eqb_neq in Hne. rewrite Hne. reflexivity.
  - intro Hc. rewrite Hbuy. pose proof (raw_fraction_not_nan _ Hc) as Hx.
    destruct sizer_literals as [q01 [q08 [E1 [_ [E5 [_ [_ [H1 _]]]]]]]].
    rewrite E1, E5. f_equal. unfold Rounded.rmul. f_equal.
    apply fmul_feq_r. apply max_min_is_clamp; assumption.
  - intro Hc. rewrite Hbuy. unfold Rounded.raw_fraction.
    destruct sizer_literals as [q01 [q08 [E1 [E8 [E5 [Hfix [_ [H1 H8]]]]]]]].
    rewrite E1, E8, E5 in *. do 2 f_equal.
    apply clamp_floor; [exact H1 |].
    apply radd_below; [exact Hfix |].
    apply rmul_below; [exact H8 |].
    apply rsub_below. exact Hc.
Qed.

Lemma calculate_position_rounded_witness :
  Rounded.calculate_position (Fin 2500) (Rounded.lit 0.3) "买入" = Fin 250
  /\ Rounded.calculate_position (Fin 2500) (Rounded.lit 0.3) "持有" = Fin 0
  /\ Rounded.calculate_position (Fin 2500) (Rounded.lit 0.75) "买入" = Fin 750.
Proof.
  assert (Hk : Rounded.binary64 (Fin 2500)) by (vm_compute; reflexivity).
  assert (H3 : Rounded.binary64 (Rounded.lit 0.3))
    by (vm_compute; reflexivity).
  assert (H75 : Rounded.binary64 (Rounded.lit 0.75))
    by (vm_compute; reflexivity).
  split; [| split].
  - rewrite (proj1 (proj2 (proj2
              (calculate_position_rounded (Fin 2500) (Rounded.lit 0.3)
                 "买入" Hk H3)))).
    + vm_compute. reflexivity.
    + vm_compute. reflexivity.
  - apply (proj1 (calculate_position_rounded (Fin 2500) (Rounded.lit 0.3)
                    "持有" Hk H3)).
    intro H. discriminate H.
  - rewrite (proj1 (proj2
              (calculate_position_rounded (Fin 2500) (Rounded.lit 0.75)
                 "买入" Hk H75))).
    + vm_compute. reflexivity.
    + vm_compute. reflexivity.
Defined.

(* ================================================================= *)
(** ** The voting aggregator *)

Lemma action_cases (s : Signal) :
  In (signal s) actions ->
  signal s = "买入" \/ signal s = "卖出" \/ signal s = "持有".
Proof.
  unfold actions. simpl. intros [H | [H | [H | []]]]; auto.
Qed.

(** The tally loop counts the votes and adds the confidences action by
    action. *)
Lemma tally_three (sigs : list Signal) :
  Forall well_formed sigs ->
  forall n1 n2 n3 t1 t2 t3,
    tally sigs (votes_of n1 n2 n3) (totals_of t1 t2 t3)
    = Some (votes_of (n1 + vote_count "买入" sigs)
                     (n2 + vote_count "卖出" sigs)
                     (n3 + vote_count "持有" sigs),
            totals_of (add_votes "买入" sigs t1)
                      (add_votes "卖出" sigs t2)
                      (add_votes "持有" sigs t3)).
Proof.
  induction 1 as [| s rest [Hs _] _ IH]; intros.
  - simpl. unfold vote_count, add_votes. simpl.
    rewrite !Nat.add_0_r. reflexivity.
  - unfold vote_count, add_votes, voters in *.
    destruct (action_cases s Hs) as [E | [E | E]];
      simpl; rewrite E; simpl;
      (etransitivity; [apply IH |]); simpl;
      rewrite <- ?Nat.add_succ_comm; reflexivity.
Qed.

Lemma key_gt_false (a b : nat * pyfloat) :
  finite_key a -> finite_key b -> key_gt a b = false -> lex_le a b.
Proof.
  destruct a as [n x], b as [m y]. intros [p Hp] [q Hq]. simpl in *. subst.
  unfold key_gt, lex_le, fgtb; simpl.
  destruct (Nat.eqb_spec n m) as [-> | Hne].
  - intro H. right. split; trivial. apply fleb_Fin.
    destruct (Qeq_bool p q) eqn:E; qbool; [rewrite E; apply Qle_refl | exact H].
  - intro H. apply Nat.ltb_ge in H. left. lia.
Qed.

Lemma key_gt_true (a b : nat * pyfloat) :
  finite_key a -> finite_key b -> key_gt a b = true -> lex_le b a.
Proof.
  destruct a as [n x], b as [m y]. intros [p Hp] [q Hq]. simpl in *. subst.
  unfold key_gt, lex_le, fgtb; simpl.
  destruct (Nat.eqb_spec n m) as [-> | Hne].
  - intro H. right. split; trivial. apply fleb_Fin.
    destruct (Qeq_bool p q) eqn:E; [discriminate |].
    qbool. apply Qlt_le_weak. exact H.
  - intro H. apply Nat.ltb_lt in H. left. exact H.
Qed.

Lemma lex_le_refl (a : nat * pyfloat) : finite_key a -> lex_le a a.
Proof.
  destruct a as [n x]. intros [p Hp]. simpl in Hp. subst.
  right. split; trivial. apply fleb_Fin. apply Qle_refl.
Qed.

Lemma lex_le_trans (a b c : nat * pyfloat) :
  finite_key a -> finite_key b -> finite_key c ->
  lex_le a b -> lex_le b c -> lex_le a c.
Proof.
  destruct a as [n x], b as [m y], c as [k z].
  intros [p Hp] [q Hq] [r Hr]. simpl in *. subst.
  unfold lex_le; simpl. rewrite !fleb_Fin.
  intros [H1 | [H1 H1']] [H2 | [H2 H2']]; subst;
    try (left; lia).
  right. split; trivial. eapply Qle_trans; eassumption.
Qed.

(** [max] with the key tuples returns a member of the list that no member
    exceeds. *)
Lemma max_from_greatest {A : Type} (key : A -> nat * pyfloat) (rest : list A) :
  forall best,
    (forall x, In x (best :: rest) -> finite_key (key x)) ->
    In (max_from key_gt key best rest) (best :: rest)
    /\ forall x, In x (best :: rest) ->
                 lex_le (key x) (key (max_from key_gt key best rest)).
Proof.
  induction rest as [| y rest IH]; intros best Hfin.
  - simpl. split; [left; reflexivity |].
    intros x [<- | []]. apply lex_le_refl. apply Hfin. left. reflexivity.
  - cbn [max_from].
    assert (Hb : finite_key (key best)) by (apply Hfin; left; reflexivity).
    assert (Hy : finite_key (key y))
      by (apply Hfin; right; left; reflexivity).
    destruct (key_gt (key y) (key best)) eqn:E.
    + destruct (IH y) as [Hin Hmax].
      { intros x Hx. apply Hfin. right. exact Hx. }
      split; [right; exact Hin |].
      intros x [<- | Hx]; [| apply Hmax; exact Hx].
      apply lex_le_trans with (b := key y); trivial.
      * apply Hfin. right. exact Hin.
      * apply key_gt_true; assumption.
      * apply Hmax. left. reflexivity.
    + destruct (IH best) as [Hin Hmax].
      { intros x [<- | Hx]; [exact Hb |]. apply Hfin. right. right. exact Hx. }
      assert (Hm : In (max_from key_gt key best rest) (best :: y :: rest)).
      { destruct Hin as [<- | Hin]; [left; reflexivity | right; right; exact Hin]. }
      split; [exact Hm |].
      intros x [<- | [<- | Hx]].
      * apply Hmax. left. reflexivity.
      * apply lex_le_trans with (b := key best); trivial.
        -- apply Hfin. exact Hm.
        -- apply key_gt_false; assumption.
        -- apply Hmax. left. reflexivity.
      * apply Hmax. right. exact Hx.
Qed.

Lemma add_votes_finite (a : string) (sigs : list Signal) :
  Forall well_formed sigs ->
  forall t0, exists q, add_votes a sigs (Fin t0) = Fin q.
Proof.
  unfold add_votes, voters.
  induction 1 as [| s rest [_ [c Hc]] _ IH]; intro t0; simpl.
  - eexists. reflexivity.
  - destruct (String.eqb (signal s) a); simpl; [| apply IH].
    rewrite Hc. simpl. apply IH.
Qed.

Lemma vote_key_actions (sigs : list Signal) (a : string) :
  In a actions ->
  vote_key (votes_of (vote_count "买入" sigs) (vote_count "卖出" sigs)
                     (vote_count "持有" sigs))
           (totals_of (confidence_sum "买入" sigs) (confidence_sum "卖出" sigs)
                      (confidence_sum "持有" sigs)) a
  = (vote_count a sigs, confidence_sum a sigs).
Proof.
  unfold actions. simpl. intros [<- | [<- | [<- | []]]]; reflexivity.
Qed.

Lemma aggregate_spec (sigs : list Signal) :
  Forall well_formed sigs ->
  exists w,
    In w actions
    /\ aggregate sigs = Some (result_for sigs w)
    /\ forall a, In a actions ->
                 lex_le (vote_count a sigs, confidence_sum a sigs)
                        (vote_count w sigs, confidence_sum w sigs).
Proof.
  intro Hwf. unfold aggregate.
  change votes0 with (votes_of 0 0 0).
  change total_confidence0 with (totals_of (Fin 0) (Fin 0) (Fin 0)).
  rewrite (tally_three sigs Hwf). cbn [Nat.add].
  change (add_votes "买入" sigs (Fin 0)) with (confidence_sum "买入" sigs).
  change (add_votes "卖出" sigs (Fin 0)) with (confidence_sum "卖出" sigs).
  change (add_votes "持有" sigs (Fin 0)) with (confidence_sum "持有" sigs).
  set (vs := votes_of _ _ _). set (tc := totals_of _ _ _).
  change (dict_keys vs) with ("买入" :: ["卖出"; "持有"]).
  cbn [max_by].
  destruct (max_from_greatest (vote_key vs tc) ["卖出"; "持有"] "买入")
    as [Hin Hmax].
  { intros x Hx. unfold vs, tc. rewrite (vote_key_actions sigs x Hx).
    apply (add_votes_finite x sigs Hwf 0). }
  set (w := max_from key_gt (vote_key vs tc) "买入" ["卖出"; "持有"]) in *.
  exists w. split; [exact Hin |].
  assert (Hw : vote_key vs tc w = (vote_count w sigs, confidence_sum w sigs))
    by (apply vote_key_actions; exact Hin).
  split.
  - unfold result_for. unfold vote_key in Hw. injection Hw as Hv Ht.
    rewrite Hv, Ht. reflexivity.
  - intros a Ha. rewrite <- Hw.
    rewrite <- (vote_key_actions sigs a Ha). apply Hmax. exact Ha.
Qed.

Lemma single_voter (a : string) (sigs : list Signal) (s : Signal) :
  vote_count a sigs = 1%nat -> In s sigs -> signal s = a ->
  voters a sigs = [s].
Proof.
  unfold vote_count. intros Hlen Hin Hs.
  assert (Hv : In s (voters a sigs)).
  { apply filter_In. split; [exact Hin |]. apply String.eqb_eq. exact Hs. }
  destruct (voters a sigs) as [| x [| y l]]; simpl in Hlen; try discriminate.
  destruct Hv as [-> | []]. reflexivity.
Qed.

Lemma single_vote_sum (a : string) (sigs : list Signal) (s : Signal) (c : Q) :
  voters a sigs = [s] -> confidence s = Fin c ->
  confidence_sum a sigs = Fin (Qred (0 + c)).
Proof.
  intros Hv Hc. unfold confidence_sum. rewrite Hv. simpl. rewrite Hc.
  reflexivity.
Qed.

(** C1.  On well-formed signals the aggregator returns a result; its final
    action is one whose pair (vote count, summed confidence) no action
    exceeds in the order that compares the count first and the sum second;
    its confidence is the winner's summed confidence divided by its vote
    count, or 0.5 when the winner has no vote; and when each action has one
    vote, the winner is the action of a signal whose confidence no signal
    exceeds, and the final confidence is that signal's. *)
Theorem aggregate_picks_greatest_pair :
  forall sigs : list Signal,
    Forall well_formed sigs ->
    exists r,
      aggregate sigs = Some r
      /\ signals r = sigs
      /\ In (final_action r) actions
      /\ (forall a, In a actions ->
                    dict_get (votes r) a = Some (vote_count a sigs))
      /\ (forall a, In a actions ->
                    lex_le (vote_count a sigs, confidence_sum a sigs)
                           (vote_count (final_action r) sigs,
                            confidence_sum (final_action r) sigs))
      /\ avg_confidence r
         = (if (0 <? vote_count (final_action r) sigs)%nat
            then fdiv (confidence_sum (final_action r) sigs)
                      (of_nat (vote_count (final_action r) sigs))
            else Fin 0.5)
      /\ ((forall a, In a actions -> vote_count a sigs = 1%nat) ->
          exists s,
            In s sigs
            /\ signal s = final_action r
            /\ feq (avg_confidence r) (confidence s)
            /\ forall s', In s' sigs ->
                          fleb (confidence s') (confidence s) = true).
Proof.
  intros sigs Hwf.
  destruct (aggregate_spec sigs Hwf) as [w [Hw [Hagg Hmax]]].
  exists (result_for sigs w). cbn [result_for signals final_action votes avg_confidence].
  repeat (split; [solve [trivial] |]).
  split.
  { unfold actions. simpl. intros a [<- | [<- | [<- | []]]]; reflexivity. }
  split; [exact Hmax |]. split; [reflexivity |].
  intro Hone.
  assert (Hex : exists s, In s sigs /\ signal s = w).
  { pose proof (Hone w Hw) as H1. unfold vote_count in H1.
    destruct (voters w sigs) as [| s l] eqn:E; [discriminate |].
    assert (Hs : In s (voters w sigs)) by (rewrite E; left; reflexivity).
    apply filter_In in Hs. destruct Hs as [Hs1 Hs2].
    exists s. split; [exact Hs1 | apply String.eqb_eq; exact Hs2]. }
  destruct Hex as [s [Hin Hs]]. exists s.
  pose proof (proj1 (Forall_forall _ _) Hwf) as Hall.
  destruct (Hall s Hin) as [_ [c Hc]].
  pose proof (single_vote_sum w sigs s c
                (single_voter w sigs s (Hone w Hw) Hin Hs) Hc) as Hsum.
  split; [exact Hin |]. split; [exact Hs |]. split.
  - rewrite (Hone w Hw), Hsum, Hc. simpl.
    rewrite !Qred_correct. field.
  - intros s' Hin'. destruct (Hall s' Hin') as [Ha' [c' Hc']].
    pose proof (single_vote_sum (signal s') sigs s' c'
                  (single_voter _ sigs s' (Hone _ Ha') Hin' eq_refl) Hc')
      as Hsum'.
    destruct (Hmax _ Ha') as [Hlt | [_ Hle]]; simpl in *.
    + rewrite (Hone _ Ha'), (Hone w Hw) in Hlt. lia.
    + rewrite Hsum, Hsum' in Hle. rewrite Hc, Hc'.
      apply fleb_Fin. apply fleb_Fin in Hle.
      rewrite !Qred_correct in Hle. lra.
Qed.

Lemma tie_example_well_formed : Forall well_formed tie_example.
Proof.
  repeat constructor; simpl; auto; eexists; reflexivity.
Qed.

Lemma aggregate_picks_greatest_pair_witness :
  exists r, aggregate tie_example = Some r /\ In (final_action r) actions.
Proof.
  destruct (aggregate_picks_greatest_pair tie_example tie_example_well_formed)
    as [r [H1 [_ [H2 _]]]].
  exists r. split; assumption.
Defined.

Example aggregate_tie :
  option_map (fun r => (final_action r, avg_confidence r))
             (aggregate tie_example)
  = Some ("卖出", Fin (19 # 20)).
Proof. vm_compute. reflexivity. Qed.

Example aggregate_majority :
  option_map (fun r => (final_action r, avg_confidence r, votes r))
             (aggregate [ mkSignal "双均线" "买入" (Fin 0.9) "";
                          mkSignal "RSI" "买入" (Fin 0.6) "";
                          mkSignal "布林带" "卖出" (Fin 0.8) "" ])
  = Some ("买入", Fin (3 # 4), votes_of 2 1 0).
Proof. vm_compute. reflexivity. Qed.

(* ================================================================= *)
(** ** The range of the confidences *)

Ltac table_entry :=
  split; [unfold actions | unfold confidence_levels]; simpl; tauto.

Lemma MovingAverageStrategy_table (ma : MovingAverageStrategy) (ps : Series) :
  table_signal (MovingAverageStrategy_analyze ma ps).
Proof.
  unfold MovingAverageStrategy_analyze. cbv zeta.
  destruct (length ps <? long_window ma + 5)%nat; [table_entry |].
  destruct (_ && _); [table_entry |].
  destruct (_ && _); [table_entry |].
  destruct (_ && _); [table_entry |].
  destruct (_ && _); [table_entry |].
  destruct (fgtb _ _); table_entry.
Qed.

Lemma RSIStrategy_table {lib : PyLib} (rsi : RSIStrategy) (ps : Series) :
  table_signal (RSIStrategy_analyze rsi ps).
Proof.
  unfold RSIStrategy_analyze, rsi_decide, rsi_table. cbv zeta.
  destruct (length ps <? period rsi + 5)%nat; [table_entry |].
  destruct (fgeb _ _); [table_entry |].
  destruct (fleb _ _); [table_entry |].
  destruct (_ && _); [table_entry |].
  destruct (_ && _); [table_entry |].
  destruct (fgtb _ _); table_entry.
Qed.

Lemma BollingerBandStrategy_table {lib : PyLib} (bb : BollingerBandStrategy)
    (ps : Series) :
  table_signal (BollingerBandStrategy_analyze bb ps).
Proof.
  unfold BollingerBandStrategy_analyze. cbv zeta.
  destruct (length ps <? window bb + 5)%nat; [table_entry |].
  destruct (fgeb _ _); [table_entry |].
  destruct (fleb _ _); [table_entry |].
  destruct (_ && _); [table_entry |].
  destruct (_ && _); [table_entry |].
  destruct (fgtb _ _); table_entry.
Qed.

Lemma add_votes_bounds (lo hi : Q) (a : string) (sigs : list Signal) :
  Forall (fun s => within lo hi (confidence s)) sigs ->
  forall t0,
  exists q,
    add_votes a sigs (Fin t0) = Fin q
    /\ t0 + lo * inject_Z (Z.of_nat (vote_count a sigs)) <= q
    /\ q <= t0 + hi * inject_Z (Z.of_nat (vote_count a sigs)).
Proof.
  unfold add_votes, vote_count, voters.
  induction 1 as [| s rest [c [Hc Hb]] _ IH]; intro t0.
  - cbn [filter map fold_left length Z.of_nat]. change (inject_Z 0) with 0.
    exists t0. split; [reflexivity |]. split; lra.
  - cbn [filter]. destruct (String.eqb (signal s) a); [| apply IH].
    cbn [map fold_left length]. rewrite Hc. cbn [fadd].
    destruct (IH (Qred (t0 + c))) as [q [Hq [H1 H2]]].
    exists q. split; [exact Hq |].
    rewrite Qred_correct in H1, H2.
    rewrite Nat2Z.inj_succ, <- Z.add_1_r, inject_Z_plus.
    change (inject_Z 1) with 1. split; lra.
Qed.

Lemma table_signal_within (s : Signal) :
  table_signal s -> well_formed s /\ within 0.5 0.85 (confidence s).
Proof.
  intros [Ha Hc]. unfold confidence_levels in Hc. simpl in Hc.
  assert (H : within 0.5 0.85 (confidence s)).
  { unfold within.
    repeat (destruct Hc as [<- | Hc];
            [eexists; split; [reflexivity | split; lra] |]).
    destruct Hc. }
  split; [| exact H]. split; [exact Ha |].
  destruct H as [q [Hq _]]. exists q. exact Hq.
Qed.

(** On signals whose confidences lie between two bounds, and at least one
    signal, the final confidence lies between the same bounds. *)
Lemma aggregate_within (lo hi : Q) (sigs : list Signal) :
  sigs <> [] ->
  Forall well_formed sigs ->
  Forall (fun s => within lo hi (confidence s)) sigs ->
  exists r, aggregate sigs = Some r /\ within lo hi (avg_confidence r).
Proof.
  intros Hne Hwf Hb.
  destruct (aggregate_spec sigs Hwf) as [w [Hw [Hagg Hmax]]].
  exists (result_for sigs w). split; [exact Hagg |].
  assert (Hpos : (0 < vote_count w sigs)%nat).
  { destruct sigs as [| s0 rest]; [congruence |].
    inversion Hwf as [| ? ? [Ha0 _] _]; subst.
    assert (H0 : (0 < vote_count (signal s0) (s0 :: rest))%nat).
    { unfold vote_count, voters. cbn [filter].
      rewrite String.eqb_refl. simpl. lia. }
    destruct (Hmax _ Ha0) as [Hlt | [Heq _]]; simpl in *; lia. }
  cbn [result_for avg_confidence].
  rewrite (proj2 (Nat.ltb_lt _ _) Hpos).
  destruct (add_votes_bounds lo hi w sigs Hb 0) as [q [Hq [H1 H2]]].
  change (add_votes w sigs (Fin 0)) with (confidence_sum w sigs) in Hq.
  rewrite Hq. unfold of_nat, fdiv.
  set (n := inject_Z (Z.of_nat (vote_count w sigs))) in *.
  assert (Hn : 0 < n).
  { unfold n. change 0 with (inject_Z 0). rewrite <- Zlt_Qlt. lia. }
  rewrite (proj2 (Qeq_bool_false_iff n 0)) by lra.
  eexists. split; [reflexivity |]. rewrite Qred_correct.
  split.
  - apply Qle_shift_div_l; [exact Hn | lra].
  - apply Qle_shift_div_r; [exact Hn | lra].
Qed.

(** C10.  Whatever the prices, each of the three strategies (with any
    parameters) gives one of the three actions with a confidence among
    0.5, 0.55, 0.6, 0.65, 0.7, 0.8 and 0.85; and the engine returns a
    result whose confidence is a finite number between 0.5 and 0.85. *)
Theorem engine_confidence_range :
  forall (lib : PyLib) (prices : Series),
    (forall ma, table_signal (MovingAverageStrategy_analyze ma prices))
    /\ (forall rsi, table_signal (RSIStrategy_analyze rsi prices))
    /\ (forall bb, table_signal (BollingerBandStrategy_analyze bb prices))
    /\ exists r q,
        StrategyEngine_analyze prices = Some r
        /\ Forall table_signal (signals r)
        /\ In (final_action r) actions
        /\ avg_confidence r = Fin q
        /\ 0.5 <= q <= 0.85.
Proof.
  intros lib prices.
  split; [intro; apply MovingAverageStrategy_table |].
  split; [intro; apply RSIStrategy_table |].
  split; [intro; apply BollingerBandStrategy_table |].
  unfold StrategyEngine_analyze.
  set (sigs := map (fun strategy => strategy prices) strategies).
  assert (Htab : Forall table_signal sigs).
  { unfold sigs, strategies. cbn [map].
    apply Forall_cons; [apply MovingAverageStrategy_table |].
    apply Forall_cons; [apply RSIStrategy_table |].
    apply Forall_cons; [apply BollingerBandStrategy_table | apply Forall_nil]. }
  assert (Hwf : Forall well_formed sigs).
  { eapply Forall_impl; [| exact Htab].
    intros s Hs. apply (table_signal_within s Hs). }
  assert (Hb : Forall (fun s => within 0.5 0.85 (confidence s)) sigs).
  { eapply Forall_impl; [| exact Htab].
    intros s Hs. apply (table_signal_within s Hs). }
  destruct (aggregate_within 0.5 0.85 sigs) as [r [Hr [q [Hq Hrange]]]];
    trivial.
  { unfold sigs, strategies. cbn [map]. discriminate. }
  exists r, q. split; [exact Hr |].
  destruct (aggregate_spec sigs Hwf) as [w [Hw [Hagg _]]].
  rewrite Hagg in Hr. injection Hr as <-.
  cbn [result_for signals final_action]. repeat split; trivial; apply Hrange.
Qed.

(* ================================================================= *)
(** ** Series: lengths and positions *)

Lemma length_diff_from (prev : pyfloat) (s : Series) :
  length (diff_from prev s) = length s.
Proof.
  revert prev. induction s as [| x s IH]; intro prev; simpl; [| rewrite IH];
    reflexivity.
Qed.

Lemma length_diff (s : Series) : length (diff s) = length s.
Proof.
  destruct s as [| x s]; simpl; [| rewrite length_diff_from]; reflexivity.
Qed.

Lemma length_rolling (agg : Series -> pyfloat) (w : nat) (s : Series) :
  length (rolling agg w s) = length s.
Proof. unfold rolling. rewrite length_map, length_seq. reflexivity. Qed.

Lemma length_zip_with {A B C : Type} (f : A -> B -> C) (l : list A)
    (l' : list B) :
  length l = length l' -> length (zip_with f l l') = length l.
Proof.
  revert l'. induction l as [| a l IH]; intros [| b l'] H; simpl in *;
    try discriminate; trivial.
  rewrite IH; [reflexivity | lia].
Qed.

Lemma nth_error_zip_with {A B C : Type} (f : A -> B -> C) (l : list A)
    (l' : list B) (i : nat) (a : A) (b : B) :
  nth_error l i = Some a -> nth_error l' i = Some b ->
  nth_error (zip_with f l l') i = Some (f a b).
Proof.
  revert l' i. induction l as [| x l IH]; intros [| y l'] [| i] Ha Hb;
    simpl in *; try discriminate.
  - congruence.
  - apply IH; assumption.
Qed.

Lemma map_zip_with {A B C D : Type} (g : C -> D) (f : A -> B -> C)
    (l : list A) (l' : list B) :
  map g (zip_with f l l') = zip_with (fun a b => g (f a b)) l l'.
Proof.
  revert l'. induction l as [| x l IH]; intros [| y l']; simpl; trivial.
  rewrite IH. reflexivity.
Qed.

Lemma Forall_zip_with {A B C : Type} (P : A -> Prop) (Q : B -> Prop)
    (R : C -> Prop) (f : A -> B -> C) :
  (forall a b, P a -> Q b -> R (f a b)) ->
  forall l l', Forall P l -> Forall Q l' -> Forall R (zip_with f l l').
Proof.
  intros Hf l. induction l as [| a l IH]; intros l' Hl Hl'; simpl.
  - constructor.
  - destruct l' as [| b l']; [constructor |].
    inversion Hl; inversion Hl'; subst.
    constructor; [apply Hf; assumption | apply IH; assumption].
Qed.

Lemma in_firstn {A : Type} (n : nat) (l : list A) (x : A) :
  In x (firstn n l) -> In x l.
Proof.
  revert l. induction n as [| n IH]; intros [| y l]; simpl; try tauto.
  intros [H | H]; [left; exact H | right; apply IH; exact H].
Qed.

Lemma in_skipn {A : Type} (n : nat) (l : list A) (x : A) :
  In x (skipn n l) -> In x l.
Proof.
  revert l. induction n as [| n IH]; intros [| y l]; simpl; try tauto.
  intro H. right. apply IH. exact H.
Qed.

Lemma in_window {A : Type} (w i : nat) (s : list A) (x : A) :
  In x (window_at w i s) -> In x s.
Proof.
  unfold window_at. intro H. apply in_skipn with (n := (S i - w)%nat).
  apply in_firstn with (n := w). exact H.
Qed.

Lemma length_window {A : Type} (w i : nat) (s : list A) :
  (w <= S i)%nat -> (i < length s)%nat -> length (window_at w i s) = w.
Proof.
  intros Hw Hi. unfold window_at. rewrite length_firstn, length_skipn. lia.
Qed.

Lemma nth_error_rolling (agg : Series -> pyfloat) (w : nat) (s : Series)
    (i : nat) :
  (i < length s)%nat ->
  nth_error (rolling agg w s) i = Some (rolling_at agg w s i).
Proof.
  intro Hi. unfold rolling.
  rewrite nth_error_map, nth_error_seq.
  rewrite (proj2 (Nat.ltb_lt _ _) Hi). reflexivity.
Qed.

Lemma nothing_missing_no_nan (win : Series) :
  existsb missing win = false -> existsb isnan win = false.
Proof.
  induction win as [| x win IH]; [reflexivity |]. simpl.
  destruct x; simpl; try discriminate. exact IH.
Qed.

Lemma rolling_Forall (P Q : pyfloat -> Prop) (agg : Series -> pyfloat)
    (w : nat) (s : Series) :
  Q NaN ->
  (forall win, Forall P win -> existsb isnan win = false -> Q (agg win)) ->
  Forall P s -> Forall Q (rolling agg w s).
Proof.
  intros HN Hagg Hs. unfold rolling. apply Forall_forall.
  intros x Hx. apply in_map_iff in Hx. destruct Hx as [i [<- _]].
  destruct (S i <? w)%nat; [exact HN |]. cbv zeta.
  destruct (existsb missing (window_at w i s)) eqn:E; [exact HN |].
  apply Hagg; [| apply nothing_missing_no_nan; exact E].
  apply Forall_forall. intros y Hy.
  apply (proj1 (Forall_forall P s) Hs). apply in_window in Hy. exact Hy.
Qed.

(* ================================================================= *)
(** ** The RSI indicator *)

Lemma fold_fadd_nonneg (l : Series) :
  Forall nonneg l -> forall a, 0 <= a -> nonneg (fold_left fadd l (Fin a)).
Proof.
  induction 1 as [| x l [q [-> Hq]] _ IH]; intros a Ha; simpl.
  - exists a. split; trivial.
  - apply IH. rewrite Qred_correct. lra.
Qed.

Lemma inject_nat_pos (n : nat) : (0 < n)%nat -> 0 < inject_Z (Z.of_nat n).
Proof.
  intro H. change 0 with (inject_Z 0). rewrite <- Zlt_Qlt. lia.
Qed.

(** Dividing a finite number by a positive count. *)
Lemma fdiv_count (q : Q) (n : nat) :
  (0 < n)%nat ->
  fdiv (Fin q) (of_nat n) = Fin (Qred (q / inject_Z (Z.of_nat n))).
Proof.
  intro H. apply inject_nat_pos in H. unfold of_nat, fdiv.
  rewrite (proj2 (Qeq_bool_false_iff _ 0)) by lra. reflexivity.
Qed.

Lemma mean_nonneg (win : Series) :
  Forall nonneg win -> nan_or nonneg (mean win).
Proof.
  intro H. unfold mean.
  destruct (fold_fadd_nonneg win H 0 (Qle_refl 0)) as [q [Hq Hq0]].
  unfold fsum. rewrite Hq.
  destruct win as [| x win].
  - left. simpl in Hq. injection Hq as <-. reflexivity.
  - right. rewrite fdiv_count by (simpl; lia).
    eexists. split; [reflexivity |]. rewrite Qred_correct.
    apply Qle_shift_div_l; [apply inject_nat_pos; simpl; lia | lra].
Qed.

Lemma diff_from_finite (s : Series) :
  Forall finite s -> forall prev, finite prev -> Forall finite (diff_from prev s).
Proof.
  induction 1 as [| x s [q ->] _ IH]; intros prev [p ->]; simpl;
    constructor.
  - eexists. reflexivity.
  - apply IH. eexists. reflexivity.
Qed.

Lemma diff_finite (s : Series) :
  Forall finite s -> Forall (nan_or finite) (diff s).
Proof.
  intro H. destruct H as [| x s Hx Hs]; simpl; constructor.
  - left. reflexivity.
  - eapply Forall_impl; [| apply diff_from_finite; eassumption].
    intros a Ha. right. exact Ha.
Qed.

Lemma up_moves_nonneg (delta : Series) :
  Forall (nan_or finite) delta -> Forall nonneg (up_moves delta).
Proof.
  intro H. unfold up_moves, where_. apply Forall_map.
  eapply Forall_impl; [| exact H].
  intros x [-> | [d ->]]; unfold fgtb; simpl.
  - exists 0. split; [reflexivity | lra].
  - destruct (Qlt_bool 0 d) eqn:E; qbool.
    + exists d. split; [reflexivity | lra].
    + exists 0. split; [reflexivity | lra].
Qed.

Lemma down_moves_nonneg (delta : Series) :
  Forall (nan_or finite) delta -> Forall nonneg (map fneg (down_moves delta)).
Proof.
  intro H. unfold down_moves, where_. rewrite map_map. apply Forall_map.
  eapply Forall_impl; [| exact H].
  intros x [-> | [d ->]]; simpl.
  - eexists. split; [reflexivity |]. rewrite Qred_correct. lra.
  - destruct (Qlt_bool d 0) eqn:E; qbool; simpl;
      (eexists; split; [reflexivity |]; rewrite Qred_correct; lra).
Qed.

Lemma avg_gain_nonneg (qs : list Q) (n : nat) :
  Forall (nan_or nonneg) (avg_gain (map Fin qs) n).
Proof.
  unfold avg_gain, rolling_mean.
  apply rolling_Forall with (P := nonneg).
  - left. reflexivity.
  - intros win Hwin _. apply mean_nonneg. exact Hwin.
  - apply up_moves_nonneg. apply diff_finite.
    apply Forall_map. apply Forall_forall. intros q _. exists q. reflexivity.
Qed.

Lemma avg_loss_nonneg (qs : list Q) (n : nat) :
  Forall (nan_or nonneg) (avg_loss (map Fin qs) n).
Proof.
  unfold avg_loss, rolling_mean.
  apply rolling_Forall with (P := nonneg).
  - left. reflexivity.
  - intros win Hwin _. apply mean_nonneg. exact Hwin.
  - apply down_moves_nonneg. apply diff_finite.
    apply Forall_map. apply Forall_forall. intros q _. exists q. reflexivity.
Qed.

(** The value when the average loss is zero: undefined without gain, 100
    with some. *)
Lemma rsi_point_zero_loss (a b : Q) :
  b == 0 -> 0 <= a ->
  rsi_point (Fin a) (Fin b) = (if Qeq_bool a 0 then NaN else Fin 100).
Proof.
  intros Hb Ha. unfold rsi_point. cbn [fdiv].
  rewrite (proj2 (Qeq_bool_iff b 0) Hb).
  destruct (Qeq_bool a 0) eqn:E; [reflexivity |].
  qbool. rewrite (proj2 (Qlt_bool_iff 0 a)) by lra.
  reflexivity.
Qed.

Lemma rsi_point_positive_loss (a b : Q) :
  0 < b -> 0 <= a ->
  exists r, rsi_point (Fin a) (Fin b) = Fin r
            /\ r == 100 - 100 / (1 + a / b) /\ 0 <= r /\ r < 100.
Proof.
  intros Hb Ha. unfold rsi_point. cbn [fdiv].
  rewrite (proj2 (Qeq_bool_false_iff b 0)) by lra.
  cbn [fadd fdiv].
  assert (H0 : 0 <= a / b) by (apply Qle_shift_div_l; lra).
  assert (H1 : ~ Qred (1 + Qred (a / b)) == 0)
    by (rewrite !Qred_correct; lra).
  rewrite (proj2 (Qeq_bool_false_iff _ 0) H1).
  eexists. split; [reflexivity |].
  rewrite !Qred_correct.
  assert (H2 : 0 < 100 / (1 + a / b)).
  { apply Qlt_shift_div_l; lra. }
  assert (H3 : 100 / (1 + a / b) <= 100).
  { apply Qle_shift_div_r; lra. }
  split; [| split]; lra.
Qed.

Lemma rsi_point_range (g l : pyfloat) :
  nan_or nonneg g -> nan_or nonneg l -> within 0 100 (fill50 (rsi_point g l)).
Proof.
  assert (H50 : within 0 100 (Fin 50))
    by (exists 50; split; [reflexivity | split; lra]).
  intros [-> | [a [-> Ha]]] [-> | [b [-> Hb]]]; try exact H50.
  destruct (Qeq_bool b 0) eqn:E; qbool.
  - rewrite (rsi_point_zero_loss a b E Ha).
    destruct (Qeq_bool a 0); [exact H50 |].
    exists 100. split; [reflexivity | split; lra].
  - destruct (rsi_point_positive_loss a b) as [r [-> [_ [Hr0 Hr1]]]];
      try lra.
    exists r. split; [reflexivity | split; lra].
Qed.

Lemma length_avg_gain (ps : Series) (n : nat) :
  length (avg_gain ps n) = length ps.
Proof.
  unfold avg_gain, rolling_mean, up_moves, where_.
  rewrite length_rolling, length_map, length_diff. reflexivity.
Qed.

Lemma length_avg_loss (ps : Series) (n : nat) :
  length (avg_loss ps n) = length ps.
Proof.
  unfold avg_loss, rolling_mean, down_moves, where_.
  rewrite length_rolling, !length_map, length_diff. reflexivity.
Qed.

(** On a list long enough, the indicator is computed position by position
    from the two averages. *)
Lemma calculate_rsi_long (ps : Series) (n : nat) :
  (n + 1 <= length ps)%nat ->
  calculate_rsi ps n
  = zip_with (fun g l => fill50 (rsi_point g l)) (avg_gain ps n) (avg_loss ps n).
Proof.
  intro H. unfold calculate_rsi.
  rewrite (proj2 (Nat.ltb_ge _ _) H). cbv zeta.
  unfold fillna, rsi_of_rs. rewrite map_map, map_zip_with. reflexivity.
Qed.

Lemma calculate_rsi_short (ps : Series) (n : nat) :
  (length ps < n + 1)%nat -> calculate_rsi ps n = repeat (Fin 0) (length ps).
Proof.
  intro H. unfold calculate_rsi. rewrite (proj2 (Nat.ltb_lt _ _) H).
  reflexivity.
Qed.

Lemma length_calculate_rsi (ps : Series) (n : nat) :
  length (calculate_rsi ps n) = length ps.
Proof.
  destruct (Nat.lt_ge_cases (length ps) (n + 1)) as [H | H].
  - rewrite (calculate_rsi_short ps n H). apply repeat_length.
  - rewrite (calculate_rsi_long ps n H).
    rewrite length_zip_with; [apply length_avg_gain |].
    rewrite length_avg_gain, length_avg_loss. reflexivity.
Qed.

(** Every value of the indicator is a finite number between 0 and 100. *)
Lemma calculate_rsi_within (qs : list Q) (n : nat) :
  Forall (within 0 100) (calculate_rsi (map Fin qs) n).
Proof.
  destruct (Nat.lt_ge_cases (length (map Fin qs)) (n + 1)) as [H | H].
  - rewrite (calculate_rsi_short _ n H). apply Forall_forall.
    intros x Hx. apply repeat_spec in Hx. subst.
    exists 0. split; [reflexivity | split; lra].
  - rewrite (calculate_rsi_long _ n H).
    apply Forall_zip_with
      with (P := nan_or nonneg) (Q := nan_or nonneg).
    + apply rsi_point_range.
    + apply avg_gain_nonneg.
    + apply avg_loss_nonneg.
Qed.

Lemma calculate_rsi_nth (ps : Series) (n i : nat) :
  (n + 1 <= length ps)%nat -> (i < length ps)%nat ->
  nth_error (calculate_rsi ps n) i
  = Some (fill50 (rsi_point
                    (rolling_at mean n (up_moves (diff ps)) i)
                    (rolling_at mean n (map fneg (down_moves (diff ps))) i))).
Proof.
  intros H Hi. rewrite (calculate_rsi_long ps n H).
  apply (nth_error_zip_with (fun g l => fill50 (rsi_point g l))).
  - unfold avg_gain, rolling_mean. apply nth_error_rolling.
    unfold up_moves, where_. rewrite length_map, length_diff. exact Hi.
  - unfold avg_loss, rolling_mean. apply nth_error_rolling.
    unfold down_moves, where_. rewrite !length_map, length_diff. exact Hi.
Qed.

(** C4, as the code has it.  For a period of at least 1 and every list of
    finite prices, [calculate_rsi] returns a list of the length of the
    input whose every value is a finite number in [[0, 100]] (so never NaN);
    on a list of at least [period + 1] prices the value is 50 at every
    position before [period - 1], where the rolling window is not full; on
    a shorter list every value is 0. *)
Theorem calculate_rsi_shape :
  forall (qs : list Q) (period : nat),
    (1 <= period)%nat ->
    length (calculate_rsi (map Fin qs) period) = length qs
    /\ Forall (within 0 100) (calculate_rsi (map Fin qs) period)
    /\ ((period + 1 <= length qs)%nat ->
        forall i, (S i < period)%nat ->
                  nth_error (calculate_rsi (map Fin qs) period) i
                  = Some (Fin 50))
    /\ ((length qs < period + 1)%nat ->
        calculate_rsi (map Fin qs) period = repeat (Fin 0) (length qs)).
Proof.
  intros qs n _.
  split; [rewrite length_calculate_rsi; apply length_map |].
  split; [apply calculate_rsi_within |].
  split.
  - intros H i Hi.
    rewrite calculate_rsi_nth by (rewrite length_map; lia).
    unfold rolling_at. rewrite (proj2 (Nat.ltb_lt _ _) Hi). reflexivity.
  - intro H. rewrite calculate_rsi_short by (rewrite length_map; exact H).
    rewrite length_map. reflexivity.
Qed.

Lemma calculate_rsi_shape_witness :
  length (calculate_rsi (map Fin [1; 2; 1; 3]) 2) = 4%nat
  /\ Forall (within 0 100) (calculate_rsi (map Fin [1; 2; 1; 3]) 2).
Proof.
  destruct (calculate_rsi_shape [1; 2; 1; 3] 2) as [H1 [H2 _]].
  - lia.
  - split; [exact H1 | exact H2].
Defined.

(** A list shorter than [period + 1] is filled with 0, not with 50: with
    two prices and the period 14 no position has 14 earlier observations,
    and none holds 50. *)
Lemma calculate_rsi_short_list_not_neutral :
  ~ (forall i, (i < 2)%nat ->
               nth_error (calculate_rsi (map Fin [1; 2]) 14) i = Some (Fin 50)).
Proof.
  intro H. specialize (H 0%nat). discriminate H. lia.
Qed.

(* ================================================================= *)
(** ** The RSI where the average loss is zero *)

Lemma length_strategy_rsi (n : nat) (ps : Series) :
  length (strategy_rsi n ps) = length ps.
Proof.
  unfold strategy_rsi, rsi_of_rs, rolling_mean, up_moves, down_moves, where_.
  cbv zeta. rewrite length_map, length_zip_with;
    rewrite ?length_map, ?length_rolling, ?length_map, ?length_diff;
    reflexivity.
Qed.

Lemma length_fillna (v : pyfloat) (s : Series) :
  length (fillna v s) = length s.
Proof. apply length_map. Qed.









(* ================================================================= *)
(** ** The Bollinger bands *)

Lemma Qsum_cons (x : Q) (l : list Q) : Qsum (x :: l) = x + Qsum l.
Proof. reflexivity. Qed.

Lemma fold_fadd_Fin (l : list Q) :
  forall a, exists q,
    fold_left fadd (map Fin l) (Fin a) = Fin q /\ q == a + Qsum l.
Proof.
  induction l as [| x l IH]; intro a.
  - exists a. split; [reflexivity |]. change (Qsum []) with 0. ring.
  - cbn [map fold_left fadd]. rewrite Qsum_cons.
    destruct (IH (Qred (a + x))) as [q [Hq Hv]].
    exists q. split; [exact Hq |]. rewrite Hv, Qred_correct. ring.
Qed.

Lemma Qsum_map_ext (f g : Q -> Q) (l : list Q) :
  (forall x, f x == g x) -> Qsum (map f l) == Qsum (map g l).
Proof.
  intro H. induction l as [| x l IH]; [reflexivity |].
  rewrite !map_cons, !Qsum_cons, IH, H. reflexivity.
Qed.

Lemma Qsquare_nonneg (a : Q) : 0 <= a * a.
Proof.
  destruct (Qlt_le_dec a 0) as [H | H].
  - assert (E : a * a == (- a) * (- a)) by ring. rewrite E.
    apply Qmult_le_0_compat; lra.
  - apply Qmult_le_0_compat; exact H.
Qed.

Lemma Qsum_squares_nonneg (m : Q) (l : list Q) :
  0 <= Qsum (map (fun x => (x - m) * (x - m)) l).
Proof.
  induction l as [| x l IH]; [apply Qle_refl |].
  rewrite map_cons, Qsum_cons.
  pose proof (Qsquare_nonneg (x - m)) as H. lra.
Qed.

Lemma mean_Fin (l : list Q) :
  l <> [] -> exists m, mean (map Fin l) = Fin m /\ m == Qmean l.
Proof.
  intro Hne. unfold mean, fsum.
  destruct (fold_fadd_Fin l 0) as [q [-> Hq]].
  rewrite length_map, fdiv_count by (destruct l; simpl; [congruence | lia]).
  eexists. split; [reflexivity |].
  unfold Qmean. rewrite Qred_correct, Hq. field.
  assert (H : 0 < inject_Z (Z.of_nat (length l)))
    by (apply inject_nat_pos; destruct l; simpl; [congruence | lia]).
  lra.
Qed.

Lemma window_map {A B : Type} (f : A -> B) (w i : nat) (s : list A) :
  window_at w i (map f s) = map f (window_at w i s).
Proof. unfold window_at. rewrite skipn_map, firstn_map. reflexivity. Qed.

Lemma no_nan_in_finite (l : list Q) : existsb missing (map Fin l) = false.
Proof. induction l as [| x l IH]; simpl; trivial. Qed.

Lemma std_Fin {lib : PyLib} (l : list Q) :
  (2 <= length l)%nat ->
  std (map Fin l) = Fin (Qred (sqrtQ (Qred (Qvariance l)))).
Proof.
  intro Hlen. unfold std. cbv zeta.
  destruct (mean_Fin l) as [m [Hm Hmv]].
  { destruct l; simpl in Hlen; [lia | congruence]. }
  rewrite Hm.
  set (sq := fun x => Qred (Qred (x + Qred (- m)) * Qred (x + Qred (- m)))).
  assert (E : map (fun x => fmul (fsub x (Fin m)) (fsub x (Fin m))) (map Fin l)
              = map Fin (map sq l)) by (rewrite !map_map; reflexivity).
  rewrite E. unfold fsum.
  destruct (fold_fadd_Fin (map sq l) 0) as [s [-> Hs]].
  rewrite length_map, fdiv_count by lia.
  assert (Hsum : s == Qsum (map (fun x => (x - Qmean l) * (x - Qmean l)) l)).
  { rewrite Hs, Qplus_0_l. apply Qsum_map_ext. intro x. unfold sq.
    rewrite !Qred_correct, Hmv. ring. }
  assert (Hpos : 0 < inject_Z (Z.of_nat (length l - 1)))
    by (apply inject_nat_pos; lia).
  unfold fsqrt.
  rewrite (proj2 (Qlt_bool_false_iff _ 0)).
  - do 3 f_equal. apply Qred_complete. unfold Qvariance. rewrite Hsum.
    reflexivity.
  - rewrite Qred_correct, Hsum. apply Qle_shift_div_l; [exact Hpos |].
    rewrite Qmult_0_l. apply Qsum_squares_nonneg.
Qed.

Lemma rolling_mean_at (qs : list Q) (w i : nat) :
  (1 <= w)%nat -> (w <= S i)%nat -> (i < length qs)%nat ->
  exists m, rolling_at mean w (map Fin qs) i = Fin m
            /\ m == trailing_mean w i qs.
Proof.
  intros Hw Hi Hlen. unfold rolling_at.
  rewrite (proj2 (Nat.ltb_ge _ _) Hi), window_map, no_nan_in_finite.
  apply mean_Fin. intro E. apply (f_equal (@length Q)) in E.
  rewrite length_window in E by assumption. simpl in E. lia.
Qed.

Lemma rolling_std_at {lib : PyLib} (qs : list Q) (w i : nat) :
  (2 <= w)%nat -> (w <= S i)%nat -> (i < length qs)%nat ->
  rolling_at std w (map Fin qs) i = Fin (Qred (trailing_std w i qs)).
Proof.
  intros Hw Hi Hlen. unfold rolling_at.
  rewrite (proj2 (Nat.ltb_ge _ _) Hi), window_map, no_nan_in_finite.
  apply std_Fin. rewrite length_window by assumption. exact Hw.
Qed.

Lemma rolling_at_early (agg : Series -> pyfloat) (w i : nat) (s : Series) :
  (S i < w)%nat -> rolling_at agg w s i = NaN.
Proof.
  intro H. unfold rolling_at. rewrite (proj2 (Nat.ltb_lt _ _) H). reflexivity.
Qed.

Lemma calculate_bollinger_bands_long {lib : PyLib} (ps : Series) (w k : nat) :
  (w <= length ps)%nat ->
  calculate_bollinger_bands ps w k
  = mkBands (zip_with (upper_point k) (rolling_mean w ps) (rolling_std w ps))
            (map fill0 (rolling_mean w ps))
            (zip_with (lower_point k) (rolling_mean w ps) (rolling_std w ps)).
Proof.
  intro H. unfold calculate_bollinger_bands.
  rewrite (proj2 (Nat.ltb_ge _ _) H). cbv zeta.
  unfold fillna, band_upper, band_lower. rewrite !map_zip_with. reflexivity.
Qed.


(** The sequences of [Rounded.calculate_bollinger_bands] where the list is
    long enough. *)
Lemma rounded_bands_long {pd : Rounded.Pandas} (ps : Series) (w k : nat) :
  (w <= length ps)%nat ->
  Rounded.calculate_bollinger_bands ps w k
  = mkBands
      (map fill0 (Rounded.band_upper k (Rounded.pd_rolling_mean w ps)
                                       (Rounded.pd_rolling_std w ps)))
      (map fill0 (Rounded.pd_rolling_mean w ps))
      (map fill0 (Rounded.band_lower k (Rounded.pd_rolling_mean w ps)
                                       (Rounded.pd_rolling_std w ps))).
Proof.
  intro H. unfold Rounded.calculate_bollinger_bands.
  rewrite (proj2 (Nat.ltb_ge _ _) H). reflexivity.
Qed.







(* ================================================================= *)
(** ** The advisory cache *)

Lemma query_first_none (table : list LLMCache) (key : string) :
  query_first table key = None ->
  existsb (fun row => String.eqb (signal_key row) key) table = false.
Proof.
  unfold query_first. intro H.
  induction table as [| row table IH]; simpl in *; trivial.
  destruct (String.eqb (signal_key row) key); [discriminate |].
  apply IH. exact H.
Qed.

Lemma if_text_some (s : string) : s <> "" -> if_text (Some s) = Some s.
Proof.
  intro H. unfold if_text, truthy.
  rewrite (proj2 (String.eqb_neq s "") H). reflexivity.
Qed.

Lemma if_text_nonempty (x : option string) (s : string) :
  if_text x = Some s -> x = Some s /\ s <> "".
Proof.
  unfold if_text, truthy. destruct x as [t |]; [| discriminate].
  destruct (String.eqb t "") eqn:E; simpl; [discriminate |].
  intro H. injection H as <-. split; [reflexivity |].
  apply String.eqb_neq. exact E.
Qed.

Section AdvisoryCache.
Context {lib : PyLib}.
Variable provider : Provider.
Variable table : list LLMCache.
Variables t_lookup t_save : Z.
Variable strategy_result : StrategyResult.

Let the_prompt : string := build_prompt strategy_result.
Let the_key : string := _generate_cache_key the_prompt.
Let run : AdviceRun :=
  generate_advice provider table t_lookup t_save strategy_result.

(** A live entry: the stored response is returned, no provider call is
    made and the table is left as it is. *)
Lemma generate_advice_hit (entry : LLMCache) :
  query_first table the_key = Some entry ->
  response entry <> "" ->
  (t_lookup < expires_at entry)%Z ->
  run = mkRun (response entry) table [].
Proof.
  intros Hq Hr Ht. unfold run, generate_advice, _get_cached_response.
  fold the_prompt. fold the_key. rewrite Hq.
  rewrite (proj2 (Z.gtb_lt _ _) Ht), (if_text_some _ Hr). reflexivity.
Qed.

(** An entry at or past its deadline: the provider is invoked. *)
Lemma generate_advice_expired (entry : LLMCache) :
  query_first table the_key = Some entry ->
  (expires_at entry <= t_lookup)%Z ->
  provider_calls run = [the_prompt].
Proof.
  intros Hq Ht. unfold run, generate_advice, _get_cached_response.
  fold the_prompt. fold the_key. rewrite Hq.
  assert (E : (expires_at entry >? t_lookup)%Z = false).
  { destruct (expires_at entry >? t_lookup)%Z eqn:E; trivial.
    apply Z.gtb_lt in E. lia. }
  rewrite E. cbn [if_text].
  destruct (if_text (provider the_prompt)); reflexivity.
Qed.

(** No entry for the key and a provider that answers: the answer is
    returned and stored for 24 hours from the time of the write. *)
Lemma generate_advice_store (text : string) :
  query_first table the_key = None ->
  provider the_prompt = Some text ->
  text <> "" ->
  run = mkRun text
              (table ++ [mkCache the_key the_prompt text (t_save + hours_24)])
              [the_prompt].
Proof.
  intros Hq Hp Ht. unfold run, generate_advice, _get_cached_response.
  fold the_prompt. fold the_key. rewrite Hq. cbn [if_text].
  rewrite Hp, (if_text_some _ Ht). unfold _save_to_cache.
  rewrite (query_first_none _ _ Hq). reflexivity.
Qed.

(** No usable entry and no text from the provider: the rule-based advice
    is returned, after the one call to the provider, and the table is left
    as it is. *)
Lemma generate_advice_fallback :
  if_text (_get_cached_response table t_lookup the_key) = None ->
  if_text (provider the_prompt) = None ->
  run = mkRun (_rule_based_advice strategy_result) table [the_prompt].
Proof.
  intros Hc Hp. unfold run, generate_advice.
  fold the_prompt. fold the_key. rewrite Hc, Hp. reflexivity.
Qed.

End AdvisoryCache.

(** C7, as the code has it.  When the table holds an entry for the key of
    the prompt (with a response that is not empty, as every stored one is),
    the call returns the stored response without a provider call exactly
    when the time of the lookup is strictly before [expires_at]; then the
    table is left as it is.  When the table holds no entry for the key and
    the provider answers with a text, the text is returned and a new entry
    is stored whose [expires_at] is the time of the write plus 24 hours. *)
Theorem cache_hit_and_store :
  forall (lib : PyLib) (provider : Provider) (table : list LLMCache)
         (t_lookup t_save : Z) (sr : StrategyResult),
    let prompt := build_prompt sr in
    let key := _generate_cache_key prompt in
    let run := generate_advice provider table t_lookup t_save sr in
    (forall entry,
        query_first table key = Some entry ->
        response entry <> "" ->
        ((advice run = response entry /\ provider_calls run = [])
         <-> (t_lookup < expires_at entry)%Z)
        /\ ((t_lookup < expires_at entry)%Z -> table_after run = table))
    /\ (forall text,
           query_first table key = None ->
           provider prompt = Some text ->
           text <> "" ->
           advice run = text
           /\ provider_calls run = [prompt]
           /\ table_after run
              = (table ++ [mkCache key prompt text (t_save + hours_24)])%list).
Proof.
  intros lib provider table t_lookup t_save sr. cbv zeta. split.
  - intros entry Hq Hr. split; [split |].
    + intros [_ Hcalls].
      destruct (Z.lt_ge_cases t_lookup (expires_at entry)) as [H | H];
        [exact H |].
      rewrite (generate_advice_expired provider table t_lookup t_save sr
                 entry Hq H) in Hcalls.
      discriminate Hcalls.
    + intro H.
      rewrite (generate_advice_hit provider table t_lookup t_save sr
                 entry Hq Hr H).
      split; reflexivity.
    + intro H.
      rewrite (generate_advice_hit provider table t_lookup t_save sr
                 entry Hq Hr H).
      reflexivity.
  - intros text Hq Hp Ht.
    rewrite (generate_advice_store provider table t_lookup t_save sr
               text Hq Hp Ht).
    repeat split; reflexivity.
Qed.

Lemma cache_hit_and_store_witness :
  table_after (generate_advice (lib := sample_lib) (fun _ => Some "fresh advice")
                               stale_table 99 99 buy_result)
  = stale_table.
Proof.
  apply (proj1 (cache_hit_and_store sample_lib (fun _ => Some "fresh advice")
                  stale_table 99 99 buy_result)
           (mkCache (_generate_cache_key (lib := sample_lib)
                       (build_prompt (lib := sample_lib) buy_result))
                    (build_prompt (lib := sample_lib) buy_result)
                    "cached advice" 100)).
  - vm_compute. reflexivity.
  - intro H. discriminate H.
  - reflexivity.
Defined.

(** At the very time of [expires_at] (here 100) the entry is not used: the
    provider is invoked and its text returned, although the time is not
    after [expires_at]; and the new text is not stored, the key being in
    the table already. *)
Lemma cache_entry_dead_at_its_deadline :
  (100 <= 100)%Z
  /\ advice (generate_advice (lib := sample_lib) (fun _ => Some "fresh advice")
                             stale_table 100 100 buy_result)
     = "fresh advice"
  /\ provider_calls (generate_advice (lib := sample_lib)
                                     (fun _ => Some "fresh advice")
                                     stale_table 100 100 buy_result)
     <> []
  /\ table_after (generate_advice (lib := sample_lib)
                                  (fun _ => Some "fresh advice")
                                  stale_table 100 100 buy_result)
     = stale_table.
Proof.
  split; [lia |]. split; [vm_compute; reflexivity |].
  split; [vm_compute; intro H; discriminate H | vm_compute; reflexivity].
Qed.

(** Three calls for the same result with the mock provider, on a table
    that is empty at first: the first, written at time 10, calls the
    provider and stores its text; the second, within 24 hours, returns the
    stored text without a call; the third, at the very time the entry
    expires, calls the provider again. *)
Example cache_three_calls :
  let call := generate_advice (lib := sample_lib) MockLLMProvider_generate in
  let first := call [] 0%Z 10%Z buy_result in
  let second :=
    call (table_after first) 3600000000%Z 3600000000%Z buy_result in
  let third :=
    call (table_after first) (10 + hours_24)%Z (10 + hours_24)%Z buy_result in
  map expires_at (table_after first) = [(10 + hours_24)%Z]
  /\ length (provider_calls first) = 1%nat
  /\ advice second = advice first
  /\ provider_calls second = []
  /\ length (provider_calls third) = 1%nat.
Proof. vm_compute. repeat split; reflexivity. Qed.

(* ================================================================= *)
(** ** The rule-based fallback *)

Lemma append_nonempty (s t : string) : t <> "" -> (s ++ t)%string <> "".
Proof.
  intros Ht H. destruct s as [| c s]; simpl in H; [contradiction | discriminate].
Qed.

Lemma append_nonempty_l (s t : string) : s <> "" -> (s ++ t)%string <> "".
Proof.
  intros Hs H. destruct s as [| c s]; simpl in H; [contradiction | discriminate].
Qed.

Lemma rule_based_advice_nonempty (sr : StrategyResult) :
  _rule_based_advice sr <> "".
Proof.
  unfold _rule_based_advice. cbv zeta.
  set (d := match dict_get action_desc (final_action sr) with
            | Some d => d
            | None => "建议观望"
            end).
  assert (H : (if fgtb (avg_confidence sr) (Fin 0.75)
               then d ++ "，信号较强。"
               else if fltb (avg_confidence sr) (Fin 0.55)
                    then d ++ "，信号较弱，谨慎操作。"
                    else d ++ "。")%string <> "").
  { destruct (fgtb _ _); [| destruct (fltb _ _)];
      apply append_nonempty; discriminate. }
  destruct (String.eqb (final_action sr) "买入");
    [apply append_nonempty_l; exact H |].
  destruct (String.eqb (final_action sr) "卖出");
    [apply append_nonempty_l; exact H | exact H].
Qed.

(** C8.  [generate_advice] returns a text that is not empty, for every
    result, table, provider and clock.  When no cached text is usable and
    the provider returns no text, the advice is the rule-based one, the
    table is left as it is (nothing is cached), and the provider has been
    called once, by [generate_advice] itself before the fallback.  The
    rule-based advice depends on the final action and the confidence
    only. *)
Theorem advice_always_returned :
  forall (lib : PyLib) (provider : Provider) (table : list LLMCache)
         (t_lookup t_save : Z) (sr : StrategyResult),
    let prompt := build_prompt sr in
    let run := generate_advice provider table t_lookup t_save sr in
    advice run <> ""
    /\ (if_text (_get_cached_response table t_lookup
                                      (_generate_cache_key prompt)) = None ->
        if_text (provider prompt) = None ->
        advice run = _rule_based_advice sr
        /\ table_after run = table
        /\ provider_calls run = [prompt])
    /\ (forall sr' : StrategyResult,
           final_action sr' = final_action sr ->
           avg_confidence sr' = avg_confidence sr ->
           _rule_based_advice sr' = _rule_based_advice sr).
Proof.
  intros lib provider table t_lookup t_save sr. cbv zeta.
  split; [| split].
  - unfold generate_advice.
    destruct (if_text (_get_cached_response _ _ _)) as [text |] eqn:Ec.
    + apply if_text_nonempty in Ec. apply Ec.
    + destruct (if_text (provider _)) as [text |] eqn:Ep.
      * apply if_text_nonempty in Ep. apply Ep.
      * apply rule_based_advice_nonempty.
  - intros Hc Hp.
    rewrite (generate_advice_fallback provider table t_lookup t_save sr Hc Hp).
    repeat split; reflexivity.
  - intros sr' Ha Hc. unfold _rule_based_advice. rewrite Ha, Hc. reflexivity.
Qed.

Lemma advice_always_returned_witness :
  advice (generate_advice (lib := sample_lib) (fun _ => None) [] 0 0 buy_result)
  = _rule_based_advice buy_result.
Proof.
  apply (proj1 (proj2 (advice_always_returned sample_lib (fun _ => None)
                         [] 0 0 buy_result))).
  - reflexivity.
  - reflexivity.
Defined.

Example rule_based_advice_buy :
  _rule_based_advice buy_result
  = "技术指标显示上涨信号，建议适度建仓，信号较强。注意控制仓位，设置止损位。".
Proof. vm_compute. reflexivity. Qed.

(* ================================================================= *)
(** ** The synthetic history *)

Section MockHistory.
Context {lib : PyLib} {np_random : NumpyRandom}.


Lemma mock_history_loop_length (today : Z) (idxs : list nat) :
  forall (p : pyfloat) (g : rng_state),
    let '(ds, ps, vs, _) := mock_history_loop today idxs p g in
    length ds = length idxs /\ length ps = length idxs
    /\ length vs = length idxs.
Proof.
  induction idxs as [| i idxs IH]; intros p g; simpl.
  - repeat split.
  - destruct (rng_randn g) as [r g1].
    destruct (rng_uniform 1000000 10000000 g1) as [u g2].
    specialize (IH (fmul p (fadd (Fin 1) (fmul (Fin r) (Fin 0.02)))) g2).
    destruct (mock_history_loop today idxs _ g2) as [[[ds ps] vs] g3].
    destruct IH as [H1 [H2 H3]]. simpl. rewrite H1, H2, H3. repeat split.
Qed.

End MockHistory.




Example mock_history_sample :
  prices (fst (_generate_mock_history (lib := sample_lib)
                 (np_random := sample_random) "510300" 3 100 0%Z))
  = [Fin 4.947; Fin 4.881; Fin 4.869].
Proof. vm_compute. reflexivity. Qed.

(* ================================================================= *)
(** ** The finite cases in binary64 *)

(** With the rounding of binary64, the final confidence is between 0.5
    and 0.85 for each of the 252 combinations of table entries. *)
Example binary64_confidence_range : Binary64.all_in_range = true.
Proof. vm_compute. reflexivity. Qed.

(** The two products of the specification are integers in binary64, which
    [round(., 2)] returns as they are. *)
Example binary64_positions : Binary64.position_checks = true.
Proof. vm_compute. reflexivity. Qed.

(** The rounding of [Rounded] is the one of the kernel's floats on the
    operations of the position sizer, an overflow and an underflow. *)
Example binary64_rounding : Binary64.rounding_agrees = true.
Proof. vm_compute. reflexivity. Qed.

(** The binary64 numbers nearest to 0.1 and to 0.03; a tie at the largest
    finite number goes to the infinity, and one at half the smallest
    number to 0. *)
Example rnd64_values :
  Rounded.lit 0.1 = Fin (3602879701896397 # 36028797018963968)
  /\ Rounded.lit 0.03 = Fin (1080863910568919 # 36028797018963968)
  /\ Rounded.rnd64 (2 ^ 1024 - 2 ^ 970) = PInf
  /\ Rounded.rnd64 (2 ^ (-1075)) = Fin 0.
Proof. repeat split; vm_compute; reflexivity. Qed.

Example binary64_tie :
  Binary64.aggregate Binary64.tie_votes = Binary64.tie_outcome.
Proof. vm_compute. reflexivity. Qed.

Example binary64_majority :
  Binary64.aggregate Binary64.majority_votes = Binary64.majority_outcome.
Proof. vm_compute. reflexivity. Qed.

(* ================================================================= *)
(** * Further properties of the services

    What the code shows beyond its specification: the indicators and the
    strategies on trends, the engine on little data and on steady trends,
    the size of the position, the life of an entry of the advisory cache,
    the fetch of the prices with its retries, the routes, and the tables of
    the ETFs and of the recorded actions. *)

(** ** The moving average and the indicator route *)

Lemma length_calculate_ma (ps : Series) (w : nat) :
  length (calculate_ma ps w) = length ps.
Proof.
  unfold calculate_ma. destruct (length ps <? w)%nat.
  - apply repeat_length.
  - unfold rolling_mean. rewrite length_fillna, length_rolling. reflexivity.
Qed.

Lemma length_bollinger {lib : PyLib} (ps : Series) (w k : nat) :
  let b := calculate_bollinger_bands ps w k in
  let n := if (length ps <? w)%nat then 0%nat else length ps in
  length (upper b) = n /\ length (middle b) = n /\ length (lower b) = n.
Proof.
  cbv zeta. destruct (length ps <? w)%nat eqn:E.
  - unfold calculate_bollinger_bands. rewrite E. repeat split.
  - apply Nat.ltb_ge in E. rewrite (calculate_bollinger_bands_long ps w k E).
    cbn [upper middle lower].
    assert (Hm : length (rolling_mean w ps) = length ps)
      by (unfold rolling_mean; apply length_rolling).
    assert (Hs : length (rolling_std w ps) = length ps)
      by (unfold rolling_std; apply length_rolling).
    rewrite !length_zip_with, length_map by congruence.
    repeat split; exact Hm.
Qed.



(** X2.  The indicator route has no body without dates.  With dates, the two
    moving averages and the RSI have the length of the prices, whatever it
    is; the three Bollinger sequences have it only from 20 prices on, and
    are empty below. *)
Theorem get_indicators_lengths :
  forall (lib : PyLib) (code : string) (h : MockHistory),
    get_indicators code TimedOut = None
    /\ (forall message, get_indicators code (Raised message) = None)
    /\ (dates h = [] -> get_indicators code (Returned h) = None)
    /\ (dates h <> [] ->
        exists ind,
          get_indicators code (Returned h) = Some ind
          /\ length (ma5 ind) = length (prices h)
          /\ length (ma20 ind) = length (prices h)
          /\ length (rsi ind) = length (prices h)
          /\ let n := if (length (prices h) <? 20)%nat
                      then 0%nat else length (prices h) in
             length (bollinger_upper ind) = n
             /\ length (bollinger_middle ind) = n
             /\ length (bollinger_lower ind) = n).
Proof.
  intros lib code h. split; [reflexivity |]. split; [reflexivity |]. split.
  - intro H. unfold get_indicators. cbn. rewrite H. reflexivity.
  - intro H. unfold get_indicators. cbn [get_data_with_timeout
      get_price_with_timeout fst].
    destruct (dates h) as [| d ds]; [congruence |].
    eexists. split; [reflexivity |].
    cbn [ma5 ma20 rsi bollinger_upper bollinger_middle bollinger_lower].
    rewrite !length_calculate_ma, length_calculate_rsi.
    repeat (split; [reflexivity |]).
    apply length_bollinger.
Qed.

Lemma get_indicators_lengths_witness :
  get_indicators (lib := sample_lib) "510300"
                 (Returned (mkHistory "510300" [] [] []))
  = None.
Proof.
  apply (proj1 (proj2 (proj2
           (get_indicators_lengths sample_lib "510300"
              (mkHistory "510300" [] [] []))))).
  reflexivity.
Defined.

(** ** The engine on little data, and the votes *)

Ltac entry_found := unfold entry_of; simpl; tauto.

Lemma MovingAverageStrategy_entry (ma : MovingAverageStrategy) (ps : Series) :
  In (entry_of (MovingAverageStrategy_analyze ma ps)) ma_entries.
Proof.
  unfold MovingAverageStrategy_analyze, ma_entries. cbv zeta.
  destruct (length ps <? long_window ma + 5)%nat; [entry_found |].
  destruct (_ && _); [entry_found |].
  destruct (_ && _); [entry_found |].
  destruct (_ && _); [entry_found |].
  destruct (_ && _); [entry_found |].
  destruct (fgtb _ _); entry_found.
Qed.

Lemma RSIStrategy_entry {lib : PyLib} (st : RSIStrategy) (ps : Series) :
  In (entry_of (RSIStrategy_analyze st ps)) rsi_entries.
Proof.
  unfold RSIStrategy_analyze, rsi_decide, rsi_table, rsi_entries. cbv zeta.
  destruct (length ps <? period st + 5)%nat; [entry_found |].
  destruct (fgeb _ _); [entry_found |].
  destruct (fleb _ _); [entry_found |].
  destruct (_ && _); [entry_found |].
  destruct (_ && _); [entry_found |].
  destruct (fgtb _ _); entry_found.
Qed.

Lemma BollingerBandStrategy_entry {lib : PyLib} (bb : BollingerBandStrategy)
    (ps : Series) :
  In (entry_of (BollingerBandStrategy_analyze bb ps)) bb_entries.
Proof.
  unfold BollingerBandStrategy_analyze, bb_entries. cbv zeta.
  destruct (length ps <? window bb + 5)%nat; [entry_found |].
  destruct (fgeb _ _); [entry_found |].
  destruct (fleb _ _); [entry_found |].
  destruct (_ && _); [entry_found |].
  destruct (_ && _); [entry_found |].
  destruct (fgtb _ _); entry_found.
Qed.

(** The aggregator reads the action and the confidence of a signal
    only. *)
Lemma tally_entries (sigs sigs' : list Signal) :
  map entry_of sigs = map entry_of sigs' ->
  forall vs tc, tally sigs vs tc = tally sigs' vs tc.
Proof.
  revert sigs'. induction sigs as [| s sigs IH]; intros [| s' sigs'] H vs tc;
    simpl in H; try discriminate; [reflexivity |].
  unfold entry_of in H at 1 3. injection H as Ha Hc Hrest.
  simpl. rewrite Ha, Hc.
  destruct (dict_update S vs (signal s')); [| reflexivity].
  destruct (dict_update _ tc (signal s')); [| reflexivity].
  apply IH. exact Hrest.
Qed.

Lemma aggregate_entries (sigs sigs' : list Signal) :
  map entry_of sigs = map entry_of sigs' ->
  option_map (fun r => (final_action r, avg_confidence r, votes r))
             (aggregate sigs)
  = option_map (fun r => (final_action r, avg_confidence r, votes r))
               (aggregate sigs').
Proof.
  intro H. unfold aggregate. rewrite (tally_entries sigs sigs' H).
  destruct (tally sigs' votes0 total_confidence0) as [[vs tc] |];
    [| reflexivity].
  destruct (max_by key_gt (vote_key vs tc) (dict_keys vs)); reflexivity.
Qed.

(** A signal with the given action and confidence, and nothing else. *)
Lemma aggregate_of_entries (sigs : list Signal) :
  option_map (fun r => (final_action r, avg_confidence r, votes r))
             (aggregate sigs)
  = option_map (fun r => (final_action r, avg_confidence r, votes r))
               (aggregate (map (fun e => mkSignal "" (fst e) (snd e) "")
                               (map entry_of sigs))).
Proof.
  apply aggregate_entries. rewrite !map_map. apply map_ext.
  intro s. reflexivity.
Qed.

Lemma engine_signals_entries {lib : PyLib} (ps : Series) :
  exists m r b,
    map entry_of (engine_signals ps) = [m; r; b]
    /\ In m ma_entries /\ In r rsi_entries /\ In b bb_entries
    /\ ((length ps < 25)%nat -> m = ("持有", Fin 0.5) /\ b = ("持有", Fin 0.5)).
Proof.
  unfold engine_signals, strategies. cbn [map].
  do 3 eexists. split; [reflexivity |].
  split; [apply MovingAverageStrategy_entry |].
  split; [apply RSIStrategy_entry |].
  split; [apply BollingerBandStrategy_entry |].
  intro H. unfold MovingAverageStrategy_analyze, BollingerBandStrategy_analyze.
  cbn [long_window window].
  rewrite (proj2 (Nat.ltb_lt (length ps) (20 + 5)) H). split; reflexivity.
Qed.

(** X3.  With fewer than 25 prices the moving-average and the Bollinger
    strategies both hold, so the engine's final action is Hold whatever the
    RSI strategy says; the confidence is 0.5, or 31/60 when the RSI strategy
    holds too with 0.55; and the suggested amount is 0 for any capital. *)
Theorem engine_holds_below_25_prices :
  forall (lib : PyLib) (ps : Series) (capital : pyfloat),
    (length ps < 25)%nat ->
    exists r,
      StrategyEngine_analyze ps = Some r
      /\ final_action r = "持有"
      /\ (avg_confidence r = Fin (1 # 2) \/ avg_confidence r = Fin (31 # 60))
      /\ (votes r = votes_of 0 0 3 \/ votes r = votes_of 1 0 2
          \/ votes r = votes_of 0 1 2)
      /\ calculate_position capital (avg_confidence r) (final_action r)
         = Fin 0.
Proof.
  intros lib ps capital Hlen.
  destruct (engine_signals_entries ps) as [m [e [b [Hmap [_ [He [_ Hmb]]]]]]].
  destruct (Hmb Hlen) as [-> ->].
  pose proof (aggregate_of_entries (engine_signals ps)) as Hagg.
  rewrite Hmap in Hagg.
  change (aggregate (engine_signals ps)) with (StrategyEngine_analyze ps)
    in Hagg.
  assert (Hcases :
    option_map (fun r => (final_action r, avg_confidence r, votes r))
      (aggregate (map (fun e => mkSignal "" (fst e) (snd e) "")
                      [("持有", Fin 0.5); e; ("持有", Fin 0.5)]))
    = Some ("持有", Fin (1 # 2), votes_of 0 0 3)
    \/ option_map (fun r => (final_action r, avg_confidence r, votes r))
         (aggregate (map (fun e => mkSignal "" (fst e) (snd e) "")
                         [("持有", Fin 0.5); e; ("持有", Fin 0.5)]))
       = Some ("持有", Fin (31 # 60), votes_of 0 0 3)
    \/ option_map (fun r => (final_action r, avg_confidence r, votes r))
         (aggregate (map (fun e => mkSignal "" (fst e) (snd e) "")
                         [("持有", Fin 0.5); e; ("持有", Fin 0.5)]))
       = Some ("持有", Fin (1 # 2), votes_of 1 0 2)
    \/ option_map (fun r => (final_action r, avg_confidence r, votes r))
         (aggregate (map (fun e => mkSignal "" (fst e) (snd e) "")
                         [("持有", Fin 0.5); e; ("持有", Fin 0.5)]))
       = Some ("持有", Fin (1 # 2), votes_of 0 1 2)).
  { unfold rsi_entries in He. simpl in He.
    repeat (destruct He as [<- | He]; [vm_compute; tauto |]). destruct He. }
  destruct (StrategyEngine_analyze ps) as [r |];
    [| rewrite <- Hagg in Hcases; simpl in Hcases;
       destruct Hcases as [H | [H | [H | H]]]; discriminate H].
  exists r. split; [reflexivity |].
  rewrite <- Hagg in Hcases. simpl in Hcases.
  assert (Ha : final_action r = "持有")
    by (destruct Hcases as [H | [H | [H | H]]]; injection H as H1 _ _; exact H1).
  split; [exact Ha |].
  split; [destruct Hcases as [H | [H | [H | H]]]; injection H as _ H2 _;
          rewrite H2; vm_compute; auto |].
  split; [destruct Hcases as [H | [H | [H | H]]]; injection H as _ _ H3;
          rewrite H3; auto |].
  rewrite Ha. reflexivity.
Qed.

Lemma engine_holds_below_25_prices_witness :
  exists r,
    StrategyEngine_analyze (lib := sample_lib) (map Fin rising_prices) = Some r
    /\ final_action r = "持有".
Proof.
  destruct (engine_holds_below_25_prices sample_lib (map Fin rising_prices)
              (Fin 10000)) as [r [H1 [H2 _]]].
  - simpl. lia.
  - exists r. split; assumption.
Defined.

Lemma dict_update_unknown {V : Type} (f : V -> V) (v1 v2 v3 : V) (k : string) :
  ~ In k actions ->
  dict_update f [("买入", v1); ("卖出", v2); ("持有", v3)] k = None.
Proof.
  intro H. unfold actions in H. simpl in H.
  assert (H1 : String.eqb "买入" k = false)
    by (apply String.eqb_neq; intro E; apply H; auto).
  assert (H2 : String.eqb "卖出" k = false)
    by (apply String.eqb_neq; intro E; apply H; auto).
  assert (H3 : String.eqb "持有" k = false)
    by (apply String.eqb_neq; intro E; apply H; auto).
  cbn [dict_update]. rewrite H1, H2, H3. reflexivity.
Qed.

Lemma action_dec (k : string) : {In k actions} + {~ In k actions}.
Proof. apply in_dec. apply string_dec. Defined.

(** The tally loop fails exactly when some signal has an action that is
    not a key of the two dictionaries. *)
Lemma tally_fails_iff (sigs : list Signal) :
  forall n1 n2 n3 t1 t2 t3,
    tally sigs (votes_of n1 n2 n3) (totals_of t1 t2 t3) = None
    <-> Exists (fun s => ~ In (signal s) actions) sigs.
Proof.
  induction sigs as [| s rest IH]; intros.
  - simpl. split; [discriminate | intro H; inversion H].
  - rewrite Exists_cons. destruct (action_dec (signal s)) as [Hin | Hout].
    + assert (Hstep : exists n1' n2' n3' t1' t2' t3',
                tally (s :: rest) (votes_of n1 n2 n3) (totals_of t1 t2 t3)
                = tally rest (votes_of n1' n2' n3') (totals_of t1' t2' t3')).
      { destruct (action_cases s Hin) as [E | [E | E]];
          simpl; rewrite E; simpl; do 6 eexists; reflexivity. }
      destruct Hstep as [n1' [n2' [n3' [t1' [t2' [t3' ->]]]]]].
      rewrite IH. tauto.
    + cbn [tally]. unfold votes_of at 1.
      rewrite (dict_update_unknown S n1 n2 n3 _ Hout).
      split; [intros _; left; exact Hout | reflexivity].
Qed.

Lemma tally_keys (sigs : list Signal) :
  forall n1 n2 n3 t1 t2 t3 vs tc,
    tally sigs (votes_of n1 n2 n3) (totals_of t1 t2 t3) = Some (vs, tc) ->
    dict_keys vs = actions.
Proof.
  induction sigs as [| s rest IH]; intros n1 n2 n3 t1 t2 t3 vs tc H.
  - simpl in H. injection H as <- _. reflexivity.
  - destruct (action_dec (signal s)) as [Hin | Hout].
    + destruct (action_cases s Hin) as [E | [E | E]];
        simpl in H; rewrite E in H; simpl in H;
        eapply IH; exact H.
    + cbn [tally] in H. unfold votes_of at 1 in H.
      rewrite (dict_update_unknown S n1 n2 n3 _ Hout) in H. discriminate H.
Qed.

(** X4.  A signal whose action is none of "买入", "卖出" and "持有" makes the
    aggregator fail (a [KeyError] in the tally), whatever the other
    signals; and nothing else does, whatever the confidences. *)
Theorem aggregate_fails_on_unknown_action :
  forall sigs : list Signal,
    aggregate sigs = None
    <-> exists s, In s sigs /\ ~ In (signal s) actions.
Proof.
  intro sigs. rewrite <- Exists_exists. unfold aggregate.
  change votes0 with (votes_of 0 0 0).
  change total_confidence0 with (totals_of (Fin 0) (Fin 0) (Fin 0)).
  rewrite <- (tally_fails_iff sigs 0 0 0 (Fin 0) (Fin 0) (Fin 0)).
  destruct (tally sigs (votes_of 0 0 0) (totals_of (Fin 0) (Fin 0) (Fin 0)))
    as [[vs tc] |] eqn:E; [| tauto].
  rewrite (tally_keys sigs _ _ _ _ _ _ vs tc E). cbn [actions max_by].
  split; discriminate.
Qed.

Lemma vote_counts_add_up (sigs : list Signal) :
  Forall (fun s => In (signal s) actions) sigs ->
  (vote_count "买入" sigs + vote_count "卖出" sigs + vote_count "持有" sigs
   = length sigs)%nat.
Proof.
  unfold vote_count, voters.
  induction 1 as [| s rest Hs _ IH]; [reflexivity |].
  destruct (action_cases s Hs) as [E | [E | E]];
    simpl; rewrite E; simpl; lia.
Qed.

(** X5.  On well-formed signals the three vote counts of the result add up to
    the number of signals, and the final action has at least a third of
    the votes: at least one as soon as there is a signal. *)
Theorem votes_add_up :
  forall sigs : list Signal,
    Forall well_formed sigs ->
    exists r b s h,
      aggregate sigs = Some r
      /\ votes r = [("买入", b); ("卖出", s); ("持有", h)]
      /\ (b + s + h = length sigs)%nat
      /\ (length sigs <= 3 * dict_at 0%nat (votes r) (final_action r))%nat.
Proof.
  intros sigs Hwf.
  destruct (aggregate_spec sigs Hwf) as [w [Hw [Hagg Hmax]]].
  assert (Hval : Forall (fun s => In (signal s) actions) sigs)
    by (eapply Forall_impl; [| exact Hwf]; intros s Hs; apply Hs).
  pose proof (vote_counts_add_up sigs Hval) as Hsum.
  exists (result_for sigs w), (vote_count "买入" sigs),
    (vote_count "卖出" sigs), (vote_count "持有" sigs).
  split; [exact Hagg |]. split; [reflexivity |]. split; [exact Hsum |].
  cbn [result_for votes final_action].
  assert (Hat : dict_at 0%nat
                  (votes_of (vote_count "买入" sigs) (vote_count "卖出" sigs)
                            (vote_count "持有" sigs)) w
                = vote_count w sigs).
  { destruct (action_cases (mkSignal "" w NaN "") Hw) as [E | [E | E]];
      simpl in E; subst w; reflexivity. }
  rewrite Hat.
  assert (Hle : forall a, In a actions ->
                          (vote_count a sigs <= vote_count w sigs)%nat).
  { intros a Ha. destruct (Hmax a Ha) as [H | [H _]]; simpl in H; lia. }
  pose proof (Hle "买入") as H1. pose proof (Hle "卖出") as H2.
  pose proof (Hle "持有") as H3. unfold actions in H1, H2, H3.
  simpl in H1, H2, H3. specialize (H1 (or_introl eq_refl)).
  specialize (H2 (or_intror (or_introl eq_refl))).
  specialize (H3 (or_intror (or_intror (or_introl eq_refl)))). lia.
Qed.

Lemma votes_add_up_witness :
  exists r, aggregate tie_example = Some r.
Proof.
  destruct (votes_add_up tie_example tie_example_well_formed)
    as [r [b [s [h [H _]]]]].
  exists r. exact H.
Defined.

(** ** Rounding and the size of the position *)

Lemma scale_pos (nd : nat) : 0 < inject_Z (10 ^ Z.of_nat nd).
Proof.
  change 0 with (inject_Z 0). rewrite <- Zlt_Qlt.
  apply Z.pow_pos_nonneg; lia.
Qed.

Lemma py_round_mono (x y : Q) (nd : nat) :
  x <= y ->
  exists a b,
    py_round (Fin x) nd = Fin a /\ py_round (Fin y) nd = Fin b /\ a <= b.
Proof.
  intro H. pose proof (scale_pos nd) as Hs.
  do 2 eexists. split; [reflexivity |]. split; [reflexivity |].
  rewrite !Qred_correct.
  apply Qmult_le_compat_r.
  - rewrite <- Zle_Qle. apply round_half_even_mono.
    apply Qmult_le_compat_r; [exact H | lra].
  - apply Qlt_le_weak. apply Qinv_lt_0_compat. exact Hs.
Qed.

(** The allocation fraction after the clamp: a number of [[0.1, 0.5]]
    that grows with the confidence. *)
Lemma position_pct_value (c : Q) :
  exists p,
    py_max (Fin 0.1) (py_min (Fin 0.5) (raw_fraction c)) = Fin p
    /\ 0.1 <= p /\ p <= 0.5
    /\ (c <= 0.5 -> p == 0.1)
    /\ (1 <= c -> p == 0.5)
    /\ (0.5 <= c -> c <= 1 -> p == 0.1 + (c - 0.5) * 0.8).
Proof.
  destruct (raw_fraction_value c) as [x [-> Hx]].
  unfold py_max, py_min, fgtb; simpl.
  destruct (Qlt_bool x 0.5) eqn:E1; simpl;
    try (destruct (Qlt_bool 0.1 x) eqn:E2; simpl);
    try (destruct (Qlt_bool 0.1 0.5) eqn:E3; simpl);
    qbool; eexists; (split; [reflexivity |]);
    repeat split; intros; lra.
Qed.

Lemma position_value (K c : Q) :
  exists p,
    calculate_position (Fin K) (Fin c) "买入"
    = py_round (Fin (Qred (K * p))) 2
    /\ 0.1 <= p /\ p <= 0.5
    /\ (c <= 0.5 -> p == 0.1)
    /\ (1 <= c -> p == 0.5)
    /\ (0.5 <= c -> c <= 1 -> p == 0.1 + (c - 0.5) * 0.8).
Proof.
  destruct (position_pct_value c) as [p [Hp Hrest]].
  exists p. split; [| exact Hrest].
  assert (E : calculate_position (Fin K) (Fin c) "买入"
              = py_round (fmul (Fin K)
                  (py_max (Fin 0.1) (py_min (Fin 0.5) (raw_fraction c)))) 2)
    by reflexivity.
  rewrite E, Hp. reflexivity.
Qed.

Lemma fraction_order (c1 c2 p1 p2 : Q) :
  c1 <= c2 ->
  0.1 <= p1 -> p1 <= 0.5 -> 0.1 <= p2 -> p2 <= 0.5 ->
  (c1 <= 0.5 -> p1 == 0.1) ->
  (1 <= c2 -> p2 == 0.5) ->
  (0.5 <= c1 -> c1 <= 1 -> p1 == 0.1 + (c1 - 0.5) * 0.8) ->
  (0.5 <= c2 -> c2 <= 1 -> p2 == 0.1 + (c2 - 0.5) * 0.8) ->
  p1 <= p2.
Proof.
  intros Hc L1 U1 L2 U2 Hlow Hhigh Hmid1 Hmid2.
  destruct (Qlt_le_dec c1 0.5) as [A | A].
  - rewrite Hlow by lra. exact L2.
  - destruct (Qlt_le_dec 1 c2) as [B | B].
    + rewrite Hhigh by lra. exact U1.
    + rewrite Hmid1, Hmid2 by lra. lra.
Qed.

(** X6.  For a capital that is not negative, the amount for Buy does not
    decrease when the confidence grows; it is the amount of confidence 0.5
    at the least and the amount of confidence 1 at the most, both reached
    outside of the two. *)
Theorem position_grows_with_confidence :
  forall K c1 c2 : Q,
    0 <= K -> c1 <= c2 ->
    exists a1 a2 lo hi,
      calculate_position (Fin K) (Fin c1) "买入" = Fin a1
      /\ calculate_position (Fin K) (Fin c2) "买入" = Fin a2
      /\ calculate_position (Fin K) (Fin 0.5) "买入" = Fin lo
      /\ calculate_position (Fin K) (Fin 1) "买入" = Fin hi
      /\ 0 <= lo /\ lo <= a1 /\ a1 <= a2 /\ a2 <= hi
      /\ (c2 <= 0.5 -> a2 == lo)
      /\ (1 <= c1 -> a1 == hi).
Proof.
  intros K c1 c2 HK Hc.
  destruct (position_value K c1) as [p1 [E1 [L1 [U1 [W1 [H1 M1]]]]]].
  destruct (position_value K c2) as [p2 [E2 [L2 [U2 [W2 [H2 M2]]]]]].
  destruct (position_value K 0.5) as [pl [El [_ [_ [Wl _]]]]].
  destruct (position_value K 1) as [ph [Eh [_ [_ [_ [Hh _]]]]]].
  assert (Pl : pl == 0.1) by (apply Wl; lra).
  assert (Ph : ph == 0.5) by (apply Hh; lra).
  assert (P12 : p1 <= p2) by (apply (fraction_order c1 c2); assumption).
  assert (Hmul : forall p q, p <= q -> Qred (K * p) <= Qred (K * q)).
  { intros p q Hpq. rewrite !Qred_correct, (Qmult_comm K p), (Qmult_comm K q).
    apply Qmult_le_compat_r; assumption. }
  destruct (py_round_mono _ _ 2 (Hmul pl p1 ltac:(lra)))
    as [lo [a1 [Rlo [Ra1 Hlo]]]].
  destruct (py_round_mono _ _ 2 (Hmul p1 p2 P12)) as [a1' [a2 [Ra1' [Ra2 H12]]]].
  destruct (py_round_mono _ _ 2 (Hmul p2 ph ltac:(lra)))
    as [a2' [hi [Ra2' [Rhi Hhi]]]].
  rewrite Ra1 in Ra1'. injection Ra1' as <-.
  rewrite Ra2 in Ra2'. injection Ra2' as <-.
  destruct (py_round_mono _ _ 2 (Hmul 0 pl ltac:(lra)))
    as [z [lo' [Rz [Rlo' Hz]]]].
  rewrite Rlo in Rlo'. injection Rlo' as <-.
  assert (Z0 : 0 <= z).
  { destruct (py_round_mono 0 (Qred (K * 0)) 2) as [z0 [z' [R0 [Rz' H0]]]];
      [rewrite Qred_correct; lra |].
    rewrite Rz in Rz'. injection Rz' as <-.
    vm_compute in R0. injection R0 as <-. exact H0. }
  exists a1, a2, lo, hi.
  rewrite E1, E2, El, Eh.
  repeat (split; [assumption || lra |]).
  split.
  - intro Hc2.
    destruct (py_round_mono _ _ 2 (Hmul p2 pl ltac:(rewrite W2, Pl; lra)))
      as [a2' [lo' [Ra2' [Rlo' H']]]].
    rewrite Ra2 in Ra2'. injection Ra2' as <-.
    rewrite Rlo in Rlo'. injection Rlo' as <-. lra.
  - intro Hc1.
    destruct (py_round_mono _ _ 2 (Hmul ph p1 ltac:(rewrite H1, Ph; lra)))
      as [hi' [a1' [Rhi' [Ra1' H']]]].
    rewrite Rhi in Rhi'. injection Rhi' as <-.
    rewrite Ra1 in Ra1'. injection Ra1' as <-. lra.
Qed.

Lemma position_grows_with_confidence_witness :
  exists a1 a2,
    calculate_position (Fin 10000) (Fin 0.6) "买入" = Fin a1
    /\ calculate_position (Fin 10000) (Fin 0.7) "买入" = Fin a2
    /\ a1 <= a2.
Proof.
  destruct (position_grows_with_confidence 10000 0.6 0.7)
    as [a1 [a2 [lo [hi [H1 [H2 [_ [_ [_ [_ [H12 _]]]]]]]]]]].
  - lra.
  - lra.
  - exists a1, a2. repeat split; assumption.
Defined.

(* ================================================================= *)
(** ** The size of the position with the rounding of binary64 *)

Lemma round64_mono (x y : pyfloat) :
  fleb x y = true -> fleb (Rounded.round64 x) (Rounded.round64 y) = true.
Proof.
  destruct x as [a | | |], y as [b | | |]; try discriminate;
    try reflexivity; cbn [Rounded.round64]; intro H.
  - apply rnd64_mono. apply fleb_Fin. exact H.
  - pose proof (rnd64_not_nan a) as N.
    destruct (Rounded.rnd64 a); try reflexivity. discriminate N.
  - pose proof (rnd64_not_nan b) as N.
    destruct (Rounded.rnd64 b); try reflexivity. discriminate N.
Qed.

Lemma rsub_mono (x y : pyfloat) (h : Q) :
  fleb x y = true ->
  fleb (Rounded.rsub x (Fin h)) (Rounded.rsub y (Fin h)) = true.
Proof.
  intro H. unfold Rounded.rsub. apply round64_mono.
  destruct x as [a | | |], y as [b | | |]; try discriminate;
    try reflexivity.
  apply fleb_Fin in H. unfold fsub. cbn [fneg fadd]. apply fleb_Fin.
  rewrite !Qred_correct. lra.
Qed.

Lemma rmul_mono_r (x y : pyfloat) (q : Q) :
  0 < q -> fleb x y = true ->
  fleb (Rounded.rmul x (Fin q)) (Rounded.rmul y (Fin q)) = true.
Proof.
  intros Hq H. unfold Rounded.rmul. apply round64_mono.
  assert (Hz : Qeq_bool q 0 = false) by (apply Qeq_bool_false_iff; lra).
  assert (Hp : Qlt_bool 0 q = true) by (apply Qlt_bool_iff; exact Hq).
  destruct x as [a | | |], y as [b | | |]; try discriminate;
    cbn [fmul]; unfold inf_times; rewrite ?Hz, ?Hp; try reflexivity.
  apply fleb_Fin in H. apply fleb_Fin. rewrite !Qred_correct. nra.
Qed.

Lemma radd_mono_r (q : Q) (x y : pyfloat) :
  fleb x y = true ->
  fleb (Rounded.radd (Fin q) x) (Rounded.radd (Fin q) y) = true.
Proof.
  intro H. unfold Rounded.radd. apply round64_mono.
  destruct x as [a | | |], y as [b | | |]; try discriminate;
    try reflexivity.
  apply fleb_Fin in H. cbn [fadd]. apply fleb_Fin.
  rewrite !Qred_correct. lra.
Qed.

Lemma raw_fraction_mono (c1 c2 : pyfloat) :
  fleb c1 c2 = true ->
  fleb (Rounded.raw_fraction c1) (Rounded.raw_fraction c2) = true.
Proof.
  intro H. unfold Rounded.raw_fraction.
  destruct sizer_literals as [q01 [q08 [-> [-> [-> [_ [_ [_ H8]]]]]]]].
  apply radd_mono_r. apply rmul_mono_r; [exact H8 |].
  apply rsub_mono. exact H.
Qed.

(** The fraction after the clamp is a number of [[lo, 0.5]] that grows
    with the fraction before it. *)
Lemma clamped_fraction (lo : Q) (x : pyfloat) :
  lo < 1 # 2 -> isnan x = false ->
  exists p, py_max (Fin lo) (py_min (Fin (1 # 2)) x) = Fin p
            /\ lo <= p /\ p <= 1 # 2.
Proof.
  intros Hlo Hx. unfold py_max, py_min, fgtb.
  destruct x as [a | | |]; try discriminate Hx; cbn [fltb].
  - destruct (Qlt_bool a (1 # 2)) eqn:E1; cbn [fltb].
    + destruct (Qlt_bool lo a) eqn:E2; qbool; eexists;
        (split; [reflexivity |]); lra.
    + rewrite (proj2 (Qlt_bool_iff lo (1 # 2)) Hlo).
      eexists. split; [reflexivity |]. lra.
  - rewrite (proj2 (Qlt_bool_iff lo (1 # 2)) Hlo).
    eexists. split; [reflexivity |]. lra.
  - eexists. split; [reflexivity |]. lra.
Qed.

Lemma clamped_fraction_mono (lo : Q) (x y : pyfloat) :
  lo < 1 # 2 -> fleb x y = true ->
  fleb (py_max (Fin lo) (py_min (Fin (1 # 2)) x))
       (py_max (Fin lo) (py_min (Fin (1 # 2)) y)) = true.
Proof.
  intros Hlo H. unfold py_max, py_min, fgtb.
  pose proof (proj2 (Qlt_bool_iff lo (1 # 2)) Hlo) as Hl.
  destruct x as [a | | |], y as [b | | |]; try discriminate;
    cbn [fltb]; try (apply fleb_Fin in H);
    try (destruct (Qlt_bool a (1 # 2)) eqn:E1; cbn [fltb]);
    try (destruct (Qlt_bool b (1 # 2)) eqn:E2; cbn [fltb]);
    try (destruct (Qlt_bool lo a) eqn:E3);
    try (destruct (Qlt_bool lo b) eqn:E4);
    rewrite ?Hl; qbool; apply fleb_Fin; lra.
Qed.

Lemma py_round_rounded_mono (x y : pyfloat) (nd : nat) :
  fleb x y = true ->
  fleb (Rounded.py_round x nd) (Rounded.py_round y nd) = true.
Proof.
  pose proof (scale_pos nd) as Hs.
  destruct x as [a | | |], y as [b | | |]; try discriminate;
    try reflexivity; cbn [Rounded.py_round]; intro H.
  - apply rnd64_mono. apply fleb_Fin in H.
    apply Qmult_le_compat_r.
    + rewrite <- Zle_Qle. apply round_half_even_mono.
      apply Qmult_le_compat_r; [exact H | lra].
    + apply Qlt_le_weak, Qinv_lt_0_compat. exact Hs.
  - match goal with |- fleb ?r PInf = true =>
      pose proof (rnd64_not_nan
        (inject_Z (round_half_even (a * inject_Z (10 ^ Z.of_nat nd)))
         / inject_Z (10 ^ Z.of_nat nd))) as N;
      destruct r; try reflexivity; discriminate N end.
  - match goal with |- fleb NInf ?r = true =>
      pose proof (rnd64_not_nan
        (inject_Z (round_half_even (b * inject_Z (10 ^ Z.of_nat nd)))
         / inject_Z (10 ^ Z.of_nat nd))) as N;
      destruct r; try reflexivity; discriminate N end.
Qed.

Lemma amount_mono (K p1 p2 : Q) :
  0 <= K -> p1 <= p2 ->
  fleb (Rounded.py_round (Rounded.rmul (Fin K) (Fin p1)) 2)
       (Rounded.py_round (Rounded.rmul (Fin K) (Fin p2)) 2) = true.
Proof.
  intros HK Hp. apply py_round_rounded_mono.
  unfold Rounded.rmul. cbn [fmul Rounded.round64].
  apply rnd64_mono. rewrite !Qred_correct. nra.
Qed.

(** X30.  With the rounding of binary64, for floats: a capital that is a
    number and not negative, and confidences that are numbers; the amount
    for Buy does not decrease when the confidence grows; it is the amount
    of confidence 0.5 at the least and the amount of confidence 1 at the
    most. *)
Theorem position_never_decreases_rounded :
  forall (K : Q) (c1 c2 : pyfloat),
    Rounded.binary64 (Fin K) -> Rounded.binary64 c1 -> Rounded.binary64 c2 ->
    0 <= K -> fleb c1 c2 = true ->
    fleb (Rounded.calculate_position (Fin K) c1 "买入")
         (Rounded.calculate_position (Fin K) c2 "买入") = true
    /\ fleb (Rounded.calculate_position (Fin K) (Rounded.lit 0.5) "买入")
            (Rounded.calculate_position (Fin K) c1 "买入") = true
    /\ fleb (Rounded.calculate_position (Fin K) c2 "买入")
            (Rounded.calculate_position (Fin K) (Fin 1) "买入") = true.
Proof.
  intros K c1 c2 _ _ _ HK Hc.
  assert (N1 : isnan c1 = false) by (destruct c1; trivial; discriminate Hc).
  assert (N2 : isnan c2 = false)
    by (destruct c1, c2; trivial; discriminate Hc).
  pose proof (raw_fraction_mono c1 c2 Hc) as Hraw.
  pose proof (raw_fraction_not_nan c1 N1) as R1.
  pose proof (raw_fraction_not_nan c2 N2) as R2.
  assert (Hbuy : forall c,
             Rounded.calculate_position (Fin K) c "买入"
             = Rounded.py_round
                 (Rounded.rmul (Fin K)
                    (py_max (Rounded.lit 0.1)
                       (py_min (Rounded.lit 0.5) (Rounded.raw_fraction c))))
                 2) by reflexivity.
  assert (Hlo : py_max (Rounded.lit 0.1)
                  (py_min (Rounded.lit 0.5)
                     (Rounded.raw_fraction (Rounded.lit 0.5)))
                = Rounded.lit 0.1) by (vm_compute; reflexivity).
  assert (Hhi : py_max (Rounded.lit 0.1)
                  (py_min (Rounded.lit 0.5) (Rounded.raw_fraction (Fin 1)))
                = Fin (1 # 2)) by (vm_compute; reflexivity).
  rewrite !Hbuy, Hlo, Hhi.
  destruct sizer_literals as [q01 [q08 [E1 [_ [E5 [_ [_ [H1 _]]]]]]]].
  rewrite E1, E5 in *.
  pose proof (clamped_fraction_mono q01 _ _ H1 Hraw) as Hm.
  destruct (clamped_fraction q01 _ H1 R1) as [p1 [P1 [L1 U1]]].
  destruct (clamped_fraction q01 _ H1 R2) as [p2 [P2 [L2 U2]]].
  rewrite P1, P2 in *. apply fleb_Fin in Hm.
  repeat split; apply amount_mono; assumption.
Qed.

Lemma position_never_decreases_rounded_witness :
  fleb (Rounded.calculate_position (Fin (1 # 4)) (Rounded.lit 0.5) "买入")
       (Rounded.calculate_position (Fin (1 # 4)) (Rounded.lit 0.7) "买入")
  = true.
Proof.
  apply (proj1 (position_never_decreases_rounded (1 # 4) (Rounded.lit 0.5)
                  (Rounded.lit 0.7)
                  ltac:(vm_compute; reflexivity)
                  ltac:(vm_compute; reflexivity)
                  ltac:(vm_compute; reflexivity)
                  ltac:(vm_compute; discriminate)
                  ltac:(vm_compute; reflexivity))).
Defined.

(** ** The confidence of each action, and the answer of the strategy route *)

Lemma all_triples_in_band :
  forallb (fun es => in_band (outcome_of es)) table_triples = true.
Proof. vm_compute. reflexivity. Qed.

Lemma in_band_spec (a : string) (c : pyfloat) (v : dict nat) :
  in_band (Some (a, c, v)) = true ->
  exists q,
    c = Fin q
    /\ ((a = "持有" /\ 0.5 <= q <= 0.6)
        \/ ((a = "买入" \/ a = "卖出") /\ 0.65 <= q <= 0.85)).
Proof.
  unfold in_band.
  destruct (String.eqb a "持有") eqn:Eh.
  - apply String.eqb_eq in Eh. intro H. apply andb_prop in H.
    destruct H as [H1 H2]. destruct c as [q | | |]; try discriminate.
    apply fleb_Fin in H1. apply fleb_Fin in H2.
    exists q. split; [reflexivity |]. left. split; [exact Eh | split; lra].
  - intro H. apply andb_prop in H. destruct H as [H H2].
    apply andb_prop in H. destruct H as [Ha H1].
    destruct c as [q | | |]; try discriminate.
    apply fleb_Fin in H1. apply fleb_Fin in H2.
    exists q. split; [reflexivity |]. right. split; [| split; lra].
    apply orb_prop in Ha.
    destruct Ha as [Ha | Ha]; apply String.eqb_eq in Ha; auto.
Qed.

Lemma engine_in_band {lib : PyLib} (ps : Series) :
  exists r,
    StrategyEngine_analyze ps = Some r
    /\ in_band (Some (final_action r, avg_confidence r, votes r)) = true.
Proof.
  destruct (engine_signals_entries ps) as [m [e [b [Hmap [Hm [He [Hb _]]]]]]].
  pose proof (aggregate_of_entries (engine_signals ps)) as Hagg.
  rewrite Hmap in Hagg.
  change (aggregate (engine_signals ps)) with (StrategyEngine_analyze ps)
    in Hagg.
  assert (Hin : In [m; e; b] table_triples).
  { unfold table_triples. apply in_flat_map. exists m. split; [exact Hm |].
    apply in_flat_map. exists e. split; [exact He |].
    apply (in_map (fun b0 => [m; e; b0])). exact Hb. }
  pose proof (proj1 (forallb_forall _ _) all_triples_in_band _ Hin) as Hband.
  unfold outcome_of in Hband. rewrite <- Hagg in Hband.
  destruct (StrategyEngine_analyze ps) as [r |]; [| discriminate Hband].
  exists r. split; [reflexivity | exact Hband].
Qed.

(** X7.  Whatever the prices, the engine returns a result; when its final action
    is Hold the confidence is between 0.5 and 0.6, and when it is Buy or
    Sell the confidence is between 0.65 and 0.85. *)
Theorem engine_confidence_by_action :
  forall (lib : PyLib) (ps : Series),
    exists r q,
      StrategyEngine_analyze ps = Some r
      /\ avg_confidence r = Fin q
      /\ ((final_action r = "持有" /\ 0.5 <= q <= 0.6)
          \/ ((final_action r = "买入" \/ final_action r = "卖出")
              /\ 0.65 <= q <= 0.85)).
Proof.
  intros lib ps. destruct (engine_in_band ps) as [r [Hr Hband]].
  destruct (in_band_spec _ _ _ Hband) as [q [Hq Hcases]].
  exists r, q. repeat split; assumption.
Qed.

(** Rounding to [nd] decimals keeps a number between two bounds that have
    at most [nd] decimals themselves. *)
Lemma py_round_between (x : Q) (nd : nat) (lo hi : Z) :
  inject_Z lo <= x * inject_Z (10 ^ Z.of_nat nd) ->
  x * inject_Z (10 ^ Z.of_nat nd) <= inject_Z hi ->
  exists a,
    py_round (Fin x) nd = Fin a
    /\ inject_Z lo / inject_Z (10 ^ Z.of_nat nd) <= a
    /\ a <= inject_Z hi / inject_Z (10 ^ Z.of_nat nd).
Proof.
  intros Hlo Hhi. pose proof (scale_pos nd) as Hs.
  eexists. split; [reflexivity |]. rewrite Qred_correct.
  apply round_half_even_ge in Hlo. apply round_half_even_le in Hhi.
  rewrite Zle_Qle in Hlo, Hhi.
  split; apply Qmult_le_compat_r; trivial;
    apply Qlt_le_weak; apply Qinv_lt_0_compat; exact Hs.
Qed.

(** The amount for Buy on a capital of 10000 and a confidence between 0.65
    and 0.85. *)
Lemma buy_amount_range (q : Q) :
  0.65 <= q -> q <= 0.85 ->
  exists a,
    calculate_position (Fin 10000) (Fin q) "买入" = Fin a
    /\ 2200 <= a /\ a <= 3800.
Proof.
  intros H1 H2.
  destruct (position_value 10000 q) as [p [E [_ [_ [_ [_ Hmid]]]]]].
  assert (Hp : p == 0.1 + (q - 0.5) * 0.8) by (apply Hmid; lra).
  destruct (py_round_between (Qred (10000 * p)) 2 220000 380000)
    as [a [Ha [Hlo Hhi]]].
  - rewrite Qred_correct, Hp. vm_compute (inject_Z _). lra.
  - rewrite Qred_correct, Hp. vm_compute (inject_Z _). lra.
  - exists a. rewrite E. split; [exact Ha |].
    assert (Hl : inject_Z 220000 / inject_Z (10 ^ Z.of_nat 2) == 2200)
      by reflexivity.
    assert (Hh : inject_Z 380000 / inject_Z (10 ^ Z.of_nat 2) == 3800)
      by reflexivity.
    rewrite Hl in Hlo. rewrite Hh in Hhi. split; assumption.
Qed.

(** The table a call of [generate_advice] leaves: the one it found, or
    that one with one more row, which holds the advice returned and expires
    24 hours after the write. *)
Lemma generate_advice_table {lib : PyLib} (provider : Provider)
    (table : list LLMCache) (t_lookup t_save : Z) (sr : StrategyResult) :
  let run := generate_advice provider table t_lookup t_save sr in
  advice run <> ""
  /\ (table_after run = table
      \/ table_after run
         = (table ++ [mkCache (_generate_cache_key (build_prompt sr))
                              (build_prompt sr) (advice run)
                              (t_save + hours_24)])%list).
Proof.
  cbv zeta. unfold generate_advice.
  destruct (if_text (_get_cached_response _ _ _)) as [text |] eqn:Ec.
  - apply if_text_nonempty in Ec. split; [apply Ec | left; reflexivity].
  - destruct (if_text (provider _)) as [text |] eqn:Ep.
    + apply if_text_nonempty in Ep. split; [apply Ep |].
      cbn [table_after advice]. unfold _save_to_cache.
      destruct (existsb _ table); [left | right]; reflexivity.
    + split; [apply rule_based_advice_nonempty | left; reflexivity].
Qed.

(** X8.  The strategy route never answers with status 500.  Its amount is 0
    unless the final action is Buy, and then it is between 2200 and 3800;
    the advice is not empty; and the cache table is left as it was or has
    one more row.  Without dates (a timeout, an exception, or an empty
    history) the final action is "等待", a warning is set and the table is
    left as it was. *)
Theorem get_strategy_answers :
  forall (lib : PyLib) (provider : Provider) (table : list LLMCache)
         (today t_lookup t_save : Z) (code : string)
         (awaited : Awaited MockHistory),
    exists resp table',
      get_strategy provider table today t_lookup t_save code awaited
      = (Ok200 resp, table')
      /\ ((data_final_action (data resp) <> "买入"
           /\ amount (data resp) = Fin 0)
          \/ (data_final_action (data resp) = "买入"
              /\ exists a, amount (data resp) = Fin a
                           /\ 2200 <= a /\ a <= 3800))
      /\ llm_advice (data resp) <> ""
      /\ (table' = table \/ exists row, table' = (table ++ [row])%list
                                        /\ response row = llm_advice (data resp)
                                        /\ expires_at row = (t_save + hours_24)%Z)
      /\ (dates (fst (get_price_with_timeout code awaited)) = [] ->
          data_final_action (data resp) = "等待"
          /\ warning resp <> None /\ table' = table).
Proof.
  intros lib provider table today t_lookup t_save code awaited.
  unfold get_strategy. cbv zeta.
  destruct (dates (fst (get_price_with_timeout code awaited))) as [| d ds].
  - do 2 eexists. split; [reflexivity |].
    cbn [waiting_response data warning data_final_action amount llm_advice].
    split; [left; split; [discriminate | reflexivity] |].
    split; [discriminate |]. split; [left; reflexivity |].
    intros _. split; [reflexivity |]. split; [discriminate | reflexivity].
  - destruct (engine_in_band (prices (fst (get_price_with_timeout code awaited))))
      as [r [-> Hband]].
    destruct (in_band_spec _ _ _ Hband) as [q [Hq Hcases]].
    destruct (generate_advice_table provider table t_lookup t_save r)
      as [Hne Htab].
    do 2 eexists. split; [reflexivity |].
    cbn [data warning data_final_action amount llm_advice].
    split; [| split; [exact Hne | split; [| discriminate]]].
    + rewrite Hq. destruct Hcases as [[Ha _] | [[Ha | Ha] Hr]].
      * left. rewrite Ha. split; [discriminate | reflexivity].
      * right. split; [exact Ha |]. rewrite Ha.
        apply buy_amount_range; apply Hr.
      * left. rewrite Ha. split; [discriminate | reflexivity].
    + destruct Htab as [-> | ->]; [left; reflexivity |].
      right. eexists. split; [reflexivity |]. split; reflexivity.
Qed.

(** ** The RSI strategy on a trend *)

Lemma diff_deltas (a : Q) (qs : list Q) :
  diff_from (Fin a) (map Fin qs) = map Fin (deltas a qs).
Proof.
  revert a. induction qs as [| b qs IH]; intro a; [reflexivity |].
  cbn [map diff_from deltas]. rewrite IH. reflexivity.
Qed.

Lemma length_deltas (a : Q) (qs : list Q) : length (deltas a qs) = length qs.
Proof.
  revert a. induction qs as [| b qs IH]; intro a; simpl; [| rewrite IH];
    reflexivity.
Qed.

Lemma chain_deltas (R : Q -> Q -> Prop) (P : Q -> Prop) :
  (forall a b, R a b -> P (Qred (b + Qred (- a)))) ->
  forall qs a, chain R a qs -> Forall P (deltas a qs).
Proof.
  intros HR qs. induction qs as [| b qs IH]; intros a H; simpl.
  - constructor.
  - destruct H as [Hab Hrest]. constructor; [apply HR; exact Hab |].
    apply IH. exact Hrest.
Qed.

(** The gains and the losses of steps of one sign. *)
Lemma moves_of_rises (ds : list Q) :
  Forall (fun d => 0 < d) ds ->
  up_moves (map Fin ds) = map Fin ds
  /\ down_moves (map Fin ds) = repeat (Fin 0) (length ds).
Proof.
  unfold up_moves, down_moves, where_, fgtb.
  induction 1 as [| d ds Hd _ [IH1 IH2]]; [split; reflexivity |].
  cbn [map length repeat]. rewrite IH1, IH2. cbn [fltb].
  rewrite (proj2 (Qlt_bool_iff 0 d) Hd).
  rewrite (proj2 (Qlt_bool_false_iff d 0)) by lra. split; reflexivity.
Qed.

Lemma moves_of_falls (ds : list Q) :
  Forall (fun d => d < 0) ds ->
  up_moves (map Fin ds) = repeat (Fin 0) (length ds)
  /\ down_moves (map Fin ds) = map Fin ds.
Proof.
  unfold up_moves, down_moves, where_, fgtb.
  induction 1 as [| d ds Hd _ [IH1 IH2]]; [split; reflexivity |].
  cbn [map length repeat]. rewrite IH1, IH2. cbn [fltb].
  rewrite (proj2 (Qlt_bool_iff d 0) Hd).
  rewrite (proj2 (Qlt_bool_false_iff 0 d)) by lra. split; reflexivity.
Qed.

Lemma moves_of_rests (ds : list Q) :
  Forall (fun d => d == 0) ds ->
  up_moves (map Fin ds) = repeat (Fin 0) (length ds)
  /\ down_moves (map Fin ds) = repeat (Fin 0) (length ds).
Proof.
  unfold up_moves, down_moves, where_, fgtb.
  induction 1 as [| d ds Hd _ [IH1 IH2]]; [split; reflexivity |].
  cbn [map length repeat]. rewrite IH1, IH2. cbn [fltb].
  rewrite (proj2 (Qlt_bool_false_iff d 0)) by lra.
  rewrite (proj2 (Qlt_bool_false_iff 0 d)) by lra. split; reflexivity.
Qed.

Lemma Qred_zero (q : Q) : q == 0 -> Qred q = 0.
Proof. intro H. apply (Qred_complete q 0). exact H. Qed.

Lemma fsum_zeros (n : nat) :
  fold_left fadd (repeat (Fin 0) n) (Fin 0) = Fin 0.
Proof. induction n as [| n IH]; [reflexivity | exact IH]. Qed.

(** The rolling mean over a window of zeros is zero. *)
Lemma rolling_at_zeros (w i len : nat) :
  (1 <= w)%nat -> (w <= S i)%nat -> (i < len)%nat ->
  rolling_at mean w (repeat (Fin 0) len) i = Fin 0.
Proof.
  intros Hw Hi Hlen. unfold rolling_at.
  rewrite (proj2 (Nat.ltb_ge _ _) Hi).
  assert (E : window_at w i (repeat (Fin 0) len) = repeat (Fin 0) w).
  { rewrite <- (length_window w i (repeat (Fin 0) len)) at 2
      by (rewrite ?repeat_length; assumption).
    apply Forall_eq_repeat. apply Forall_forall. intros x Hx.
    apply in_window in Hx. apply repeat_spec in Hx. congruence. }
  rewrite E.
  assert (Hnan : existsb missing (repeat (Fin 0) w) = false).
  { clear. induction w as [| w IH]; [reflexivity | exact IH]. }
  rewrite Hnan. unfold mean, fsum.
  rewrite fsum_zeros, repeat_length, fdiv_count by lia.
  reflexivity.
Qed.

(** Past the first element, the window lies in the rest of the series. *)
Lemma rolling_at_tail (x : pyfloat) (l : list Q) (w i : nat) :
  (1 <= w)%nat -> (w <= S i)%nat -> (i < length l)%nat ->
  exists m,
    rolling_at mean w (x :: map Fin l) (S i) = Fin m
    /\ m == Qmean (window_at w i l)
    /\ length (window_at w i l) = w
    /\ forall q, In q (window_at w i l) -> In q l.
Proof.
  intros Hw Hi Hlen.
  destruct (rolling_mean_at l w i Hw Hi Hlen) as [m [Hm Hv]].
  exists m. split; [| split; [exact Hv | split]].
  - rewrite <- Hm. unfold rolling_at.
    rewrite (proj2 (Nat.ltb_ge _ _) Hi).
    rewrite (proj2 (Nat.ltb_ge (S (S i)) w) ltac:(lia)).
    unfold window_at. replace (S (S i) - w)%nat with (S (S i - w)) by lia.
    reflexivity.
  - apply length_window; assumption.
  - intros q Hq. apply in_window in Hq. exact Hq.
Qed.

Lemma Qsum_pos (l : list Q) :
  l <> [] -> Forall (fun d => 0 < d) l -> 0 < Qsum l.
Proof.
  intros Hne H. induction H as [| d l Hd Hl IH]; [congruence |].
  rewrite Qsum_cons. destruct l as [| e l].
  - change (Qsum []) with 0. lra.
  - assert (0 < Qsum (e :: l)) by (apply IH; discriminate). lra.
Qed.

Lemma Qsum_neg (l : list Q) :
  l <> [] -> Forall (fun d => d < 0) l -> Qsum l < 0.
Proof.
  intros Hne H. induction H as [| d l Hd Hl IH]; [congruence |].
  rewrite Qsum_cons. destruct l as [| e l].
  - change (Qsum []) with 0. lra.
  - assert (Qsum (e :: l) < 0) by (apply IH; discriminate). lra.
Qed.

Lemma Qmean_sign (l : list Q) :
  l <> [] ->
  (Forall (fun d => 0 < d) l -> 0 < Qmean l)
  /\ (Forall (fun d => d < 0) l -> Qmean l < 0).
Proof.
  intro Hne.
  assert (Hn : 0 < inject_Z (Z.of_nat (length l)))
    by (apply inject_nat_pos; destruct l; simpl; [congruence | lia]).
  unfold Qmean. split; intro H.
  - apply Qlt_shift_div_l; [exact Hn |]. rewrite Qmult_0_l.
    apply Qsum_pos; assumption.
  - apply Qlt_shift_div_r; [exact Hn |]. rewrite Qmult_0_l.
    apply Qsum_neg; assumption.
Qed.

(** The mean of the last [w] steps of a series of steps of one sign has
    that sign. *)
Lemma rolling_at_sign (x : pyfloat) (l : list Q) (w i : nat) :
  (1 <= w)%nat -> (w <= S i)%nat -> (i < length l)%nat ->
  exists m,
    rolling_at mean w (x :: map Fin l) (S i) = Fin m
    /\ (Forall (fun d => 0 < d) l -> 0 < m)
    /\ (Forall (fun d => d < 0) l -> m < 0).
Proof.
  intros Hw Hi Hlen.
  destruct (rolling_at_tail x l w i Hw Hi Hlen) as [m [Hm [Hv [Hl Hin]]]].
  exists m. split; [exact Hm |].
  assert (Hne : window_at w i l <> []).
  { intro E. rewrite E in Hl. simpl in Hl. lia. }
  destruct (Qmean_sign _ Hne) as [Hpos Hneg].
  split; intro H; rewrite Hv; [apply Hpos | apply Hneg];
    apply Forall_forall; intros q Hq;
    apply (proj1 (Forall_forall _ _) H); apply Hin; exact Hq.
Qed.

Lemma strategy_rsi_nth {lib : PyLib} (n : nat) (ps : Series) (i : nat) :
  (i < length ps)%nat ->
  nth_error (strategy_rsi n ps) i
  = Some (rsi_point (rolling_at mean n (up_moves (diff ps)) i)
                    (fneg (rolling_at mean n (down_moves (diff ps)) i))).
Proof.
  intro Hi. unfold strategy_rsi, rsi_of_rs. cbv zeta. rewrite map_zip_with.
  apply (nth_error_zip_with
           (fun a b => fsub (Fin 100) (fdiv (Fin 100) (fadd (Fin 1) (fdiv a b))))).
  - unfold rolling_mean. apply nth_error_rolling.
    unfold up_moves, where_. rewrite length_map, length_diff. exact Hi.
  - unfold rolling_mean. rewrite nth_error_map, nth_error_rolling; [reflexivity |].
    unfold down_moves, where_. rewrite length_map, length_diff. exact Hi.
Qed.

(** The current RSI of the strategy, from the two rolling means at the last
    position. *)
Lemma strategy_rsi_last {lib : PyLib} (n : nat) (ps : Series) :
  ps <> [] ->
  iloc_neg (strategy_rsi n ps) 1
  = rsi_point
      (rolling_at mean n (up_moves (diff ps)) (length ps - 1))
      (fneg (rolling_at mean n (down_moves (diff ps)) (length ps - 1))).
Proof.
  intro Hne. unfold iloc_neg. rewrite length_strategy_rsi.
  assert (Hlen : (length ps - 1 < length ps)%nat)
    by (destruct ps; simpl; [congruence | lia]).
  apply nth_error_nth. apply strategy_rsi_nth. exact Hlen.
Qed.

Lemma rsi_point_zero_gain (a b : Q) :
  a == 0 -> 0 < b -> rsi_point (Fin a) (Fin b) = Fin 0.
Proof.
  intros Ha Hb. unfold rsi_point. cbn [fdiv].
  rewrite (proj2 (Qeq_bool_false_iff b 0)) by lra.
  cbn [fadd fdiv].
  assert (H0 : a / b == 0) by (rewrite Ha; unfold Qdiv; ring).
  assert (H1 : ~ Qred (1 + Qred (a / b)) == 0)
    by (rewrite !Qred_correct, H0; lra).
  rewrite (proj2 (Qeq_bool_false_iff _ 0) H1).
  cbn [fsub fneg fadd]. f_equal. apply Qred_zero.
  rewrite !Qred_correct, H0. reflexivity.
Qed.

(** The two rolling means at the last position of prices in a chain. *)
Lemma trend_means {lib : PyLib} (a : Q) (rest : list Q) (n : nat) :
  (1 <= n)%nat -> (n + 5 <= S (length rest))%nat ->
  let ps := map Fin (a :: rest) in
  let last := (length ps - 1)%nat in
  (chain (fun a b => a < b) a rest ->
   exists g, rolling_at mean n (up_moves (diff ps)) last = Fin g /\ 0 < g
             /\ rolling_at mean n (down_moves (diff ps)) last = Fin 0)
  /\ (chain (fun a b => b < a) a rest ->
      exists l, rolling_at mean n (down_moves (diff ps)) last = Fin l /\ l < 0
                /\ rolling_at mean n (up_moves (diff ps)) last = Fin 0)
  /\ (chain (fun a b => a == b) a rest ->
      rolling_at mean n (up_moves (diff ps)) last = Fin 0
      /\ rolling_at mean n (down_moves (diff ps)) last = Fin 0).
Proof.
  intros Hn Hlen. cbv zeta.
  cbn [map diff length]. rewrite length_map, diff_deltas.
  replace (S (length rest) - 1)%nat with (S (length rest - 1)) by lia.
  change (up_moves (NaN :: map Fin (deltas a rest)))
    with (Fin 0 :: up_moves (map Fin (deltas a rest))).
  change (down_moves (NaN :: map Fin (deltas a rest)))
    with (Fin 0 :: down_moves (map Fin (deltas a rest))).
  assert (Hi : (n <= S (length rest - 1))%nat) by lia.
  assert (Hl : (length rest - 1 < length (deltas a rest))%nat)
    by (rewrite length_deltas; lia).
  assert (Hz : rolling_at mean n
                 (Fin 0 :: repeat (Fin 0) (length (deltas a rest)))
                 (S (length rest - 1)) = Fin 0).
  { change (Fin 0 :: repeat (Fin 0) (length (deltas a rest)))
      with (repeat (Fin 0) (S (length (deltas a rest)))).
    apply rolling_at_zeros; lia. }
  split; [| split]; intro Hc.
  - assert (Hd : Forall (fun d => 0 < d) (deltas a rest)).
    { apply (chain_deltas (fun a b => a < b)); [| exact Hc].
      intros x y Hxy. rewrite !Qred_correct. lra. }
    destruct (moves_of_rises _ Hd) as [-> ->].
    destruct (rolling_at_sign (Fin 0) _ n _ Hn Hi Hl) as [g [Hg [Hpos _]]].
    exists g. split; [exact Hg |]. split; [apply Hpos; exact Hd | exact Hz].
  - assert (Hd : Forall (fun d => d < 0) (deltas a rest)).
    { apply (chain_deltas (fun a b => b < a)); [| exact Hc].
      intros x y Hxy. rewrite !Qred_correct. lra. }
    destruct (moves_of_falls _ Hd) as [-> ->].
    destruct (rolling_at_sign (Fin 0) _ n _ Hn Hi Hl) as [l [Hg [_ Hneg]]].
    exists l. split; [exact Hg |]. split; [apply Hneg; exact Hd | exact Hz].
  - assert (Hd : Forall (fun d => d == 0) (deltas a rest)).
    { apply (chain_deltas (fun a b => a == b)); [| exact Hc].
      intros x y Hxy. rewrite !Qred_correct. lra. }
    destruct (moves_of_rests _ Hd) as [-> ->]. split; exact Hz.
Qed.

Lemma analyze_long_enough {lib : PyLib} (self : RSIStrategy) (ps : Series) :
  (period self + 5 <= length ps)%nat ->
  RSIStrategy_analyze self ps
  = rsi_table self (iloc_neg (strategy_rsi (period self) ps) 1)
      (fsub (iloc_neg (strategy_rsi (period self) ps) 1)
            (iloc_neg (strategy_rsi (period self) ps) 5)).
Proof.
  intro H. unfold RSIStrategy_analyze, rsi_decide.
  rewrite (proj2 (Nat.ltb_ge _ _) H), length_strategy_rsi.
  rewrite (proj2 (Nat.leb_le 5 (length ps))) by lia. reflexivity.
Qed.

(** X9.  On prices that rise at every step the current RSI is 100, and the RSI
    strategy says Sell with confidence 0.85, for every threshold of the
    overbought zone that is at most 100. *)
Theorem rsi_strategy_sells_on_rising :
  forall (lib : PyLib) (self : RSIStrategy) (qs : list Q) (o : Q),
    (1 <= period self)%nat ->
    (period self + 5 <= length qs)%nat ->
    overbought self = Fin o -> o <= 100 ->
    rising qs ->
    RSIStrategy_analyze self (map Fin qs)
    = mkSignal "RSI" "卖出" (Fin 0.85)
               ("RSI=" ++ format_1f (Fin 100) ++ "，超买区域").
Proof.
  intros lib self qs o Hn Hlen Ho Hle Hrise.
  destruct qs as [| a rest]; [simpl in Hlen; lia |].
  rewrite analyze_long_enough by (rewrite length_map; exact Hlen).
  rewrite strategy_rsi_last by discriminate.
  destruct (trend_means a rest (period self) Hn Hlen) as [Hup _].
  destruct (Hup Hrise) as [g [-> [Hg ->]]].
  change (fneg (Fin 0)) with (Fin 0).
  rewrite (rsi_point_zero_loss g 0) by lra.
  rewrite (proj2 (Qeq_bool_false_iff g 0)) by lra.
  unfold rsi_table, fgeb. rewrite Ho, (proj2 (fleb_Fin o 100) Hle).
  reflexivity.
Qed.

Lemma rsi_strategy_sells_on_rising_witness :
  signal (RSIStrategy_analyze (lib := sample_lib)
            {| period := 14; overbought := Fin 70; oversold := Fin 30 |}
            (map Fin climb))
  = "卖出".
Proof.
  rewrite (rsi_strategy_sells_on_rising sample_lib
             {| period := 14; overbought := Fin 70; oversold := Fin 30 |}
             climb 70).
  - reflexivity.
  - simpl. lia.
  - simpl. lia.
  - reflexivity.
  - discriminate.
  - vm_compute. repeat split.
Defined.



(** X11.  On prices that never change the average gain and the average loss are
    both 0, the current RSI is NaN, every test of the decision table fails
    and the RSI strategy holds with confidence 0.55, whatever its
    thresholds. *)
Theorem rsi_strategy_holds_on_unchanged :
  forall (lib : PyLib) (self : RSIStrategy) (qs : list Q),
    (1 <= period self)%nat ->
    (period self + 5 <= length qs)%nat ->
    unchanged qs ->
    iloc_neg (strategy_rsi (period self) (map Fin qs)) 1 = NaN
    /\ RSIStrategy_analyze self (map Fin qs)
       = mkSignal "RSI" "持有" (Fin 0.55)
                  ("RSI=" ++ format_1f NaN ++ "，偏弱区域").
Proof.
  intros lib self qs Hn Hlen Hflat.
  destruct qs as [| a rest]; [simpl in Hlen; lia |].
  rewrite analyze_long_enough by (rewrite length_map; exact Hlen).
  rewrite strategy_rsi_last by discriminate.
  destruct (trend_means a rest (period self) Hn Hlen) as [_ [_ Hrest]].
  destruct (Hrest Hflat) as [-> ->].
  change (rsi_point (Fin 0) (fneg (Fin 0))) with NaN.
  split; [reflexivity |].
  unfold rsi_table, fgeb, fleb.
  destruct (overbought self), (oversold self); reflexivity.
Qed.

Lemma rsi_strategy_holds_on_unchanged_witness :
  confidence (RSIStrategy_analyze (lib := sample_lib)
                {| period := 14; overbought := Fin 70; oversold := Fin 30 |}
                (map Fin flat_prices))
  = Fin 0.55.
Proof.
  rewrite (proj2 (rsi_strategy_holds_on_unchanged sample_lib
                    {| period := 14; overbought := Fin 70; oversold := Fin 30 |}
                    flat_prices
                    (le_n_S _ _ (Nat.le_0_l 13))
                    ltac:(simpl; lia)
                    ltac:(vm_compute; repeat split))).
  reflexivity.
Defined.

Lemma get_strategy_answers_witness :
  exists resp,
    fst (get_strategy (lib := sample_lib) MockLLMProvider_generate [] 0 0 0
                      "510300" TimedOut) = Ok200 resp
    /\ data_final_action (data resp) = "等待".
Proof.
  destruct (get_strategy_answers sample_lib MockLLMProvider_generate [] 0 0 0
              "510300" TimedOut) as [resp [table' [H [_ [_ [_ Hw]]]]]].
  exists resp. split; [rewrite H; reflexivity |].
  apply Hw. reflexivity.
Defined.

(** ** The life of a cache entry *)

Lemma query_first_found (table : list LLMCache) (key : string)
    (entry : LLMCache) :
  query_first table key = Some entry ->
  existsb (fun row => String.eqb (signal_key row) key) table = true
  /\ signal_key entry = key /\ In entry table.
Proof.
  unfold query_first. intro H.
  induction table as [| row table IH]; simpl in *; [discriminate |].
  destruct (String.eqb (signal_key row) key) eqn:E.
  - injection H as <-. apply String.eqb_eq in E. auto.
  - destruct (IH H) as [H1 [H2 H3]]. auto.
Qed.

Lemma query_first_appended (table : list LLMCache) (row : LLMCache) :
  query_first table (signal_key row) = None ->
  query_first (table ++ [row]) (signal_key row) = Some row.
Proof.
  unfold query_first. intro H.
  induction table as [| r table IH]; simpl in *.
  - rewrite String.eqb_refl. reflexivity.
  - destruct (String.eqb (signal_key r) (signal_key row)); [discriminate |].
    apply IH. exact H.
Qed.

(** A call that finds an entry at or past its deadline leaves the table as
    it is, whatever the provider answers. *)
Lemma generate_advice_dead_entry {lib : PyLib} (provider : Provider)
    (table : list LLMCache) (t_lookup t_save : Z) (sr : StrategyResult)
    (entry : LLMCache) :
  query_first table (_generate_cache_key (build_prompt sr)) = Some entry ->
  (expires_at entry <= t_lookup)%Z ->
  let run := generate_advice provider table t_lookup t_save sr in
  provider_calls run = [build_prompt sr] /\ table_after run = table.
Proof.
  intros Hq Ht. cbv zeta.
  split; [eapply generate_advice_expired; eassumption |].
  unfold generate_advice, _get_cached_response. rewrite Hq.
  assert (E : (expires_at entry >? t_lookup)%Z = false).
  { destruct (expires_at entry >? t_lookup)%Z eqn:E; trivial.
    apply Z.gtb_lt in E. lia. }
  rewrite E. cbn [if_text].
  destruct (if_text (provider (build_prompt sr))); [| reflexivity].
  cbn [table_after]. unfold _save_to_cache.
  rewrite (proj1 (query_first_found _ _ _ Hq)). reflexivity.
Qed.

(** X12.  An entry that has expired stays in the table for good: every later
    call for the same prompt invokes the provider, and none replaces the
    entry or changes the table, so the answers of the provider are never
    cached again for this prompt. *)
Theorem expired_entry_is_never_replaced :
  forall (lib : PyLib) (provider : Provider) (table : list LLMCache)
         (sr : StrategyResult) (entry : LLMCache) (times : list Z),
    query_first table (_generate_cache_key (build_prompt sr)) = Some entry ->
    Forall (fun t => (expires_at entry <= t)%Z) times ->
    Forall (fun run => provider_calls run = [build_prompt sr]
                       /\ table_after run = table)
           (advise_all provider table times sr).
Proof.
  intros lib provider table sr entry times Hq Ht.
  induction Ht as [| t times Ht _ IH]; simpl; constructor.
  - apply (generate_advice_dead_entry provider table t t sr entry Hq Ht).
  - rewrite (proj2 (generate_advice_dead_entry provider table t t sr entry
                      Hq Ht)).
    exact IH.
Qed.

Lemma expired_entry_is_never_replaced_witness :
  Forall (fun run => provider_calls run
                     = [build_prompt (lib := sample_lib) buy_result]
                     /\ table_after run = stale_table)
         (advise_all (lib := sample_lib) MockLLMProvider_generate stale_table
                     [100; 200; 300]%Z buy_result).
Proof.
  apply (expired_entry_is_never_replaced sample_lib MockLLMProvider_generate
           stale_table buy_result
           (mkCache (_generate_cache_key (lib := sample_lib)
                       (build_prompt (lib := sample_lib) buy_result))
                    (build_prompt (lib := sample_lib) buy_result)
                    "cached advice" 100)).
  - vm_compute. reflexivity.
  - repeat constructor; simpl; lia.
Defined.

(** X13.  When the table has no entry for the prompt and the provider answers
    with a text, the first call stores the text, and every later call
    before the 24 hours after the write are over returns that text without
    a call to the provider and without a change of the table. *)
Theorem stored_advice_is_served_for_24_hours :
  forall (lib : PyLib) (provider : Provider) (table : list LLMCache)
         (sr : StrategyResult) (text : string) (t_lookup t_save : Z)
         (times : list Z),
    query_first table (_generate_cache_key (build_prompt sr)) = None ->
    provider (build_prompt sr) = Some text ->
    text <> "" ->
    Forall (fun t => (t < t_save + hours_24)%Z) times ->
    let first := generate_advice provider table t_lookup t_save sr in
    advice first = text
    /\ Forall (fun run => run = mkRun text (table_after first) [])
              (advise_all provider (table_after first) times sr).
Proof.
  intros lib provider table sr text t_lookup t_save times Hq Hp Hne Ht.
  cbv zeta.
  rewrite (generate_advice_store provider table t_lookup t_save sr text
             Hq Hp Hne).
  cbn [advice table_after]. split; [reflexivity |].
  set (row := mkCache (_generate_cache_key (build_prompt sr))
                      (build_prompt sr) text (t_save + hours_24)).
  assert (Hrow : query_first (table ++ [row])
                   (_generate_cache_key (build_prompt sr)) = Some row)
    by (apply (query_first_appended table row); exact Hq).
  induction Ht as [| t times Ht _ IH]; simpl; constructor.
  - apply (generate_advice_hit provider (table ++ [row]) t t sr row Hrow Hne Ht).
  - rewrite (generate_advice_hit provider (table ++ [row]) t t sr row
               Hrow Hne Ht).
    exact IH.
Qed.

Lemma stored_advice_is_served_for_24_hours_witness :
  advice (generate_advice (lib := sample_lib) (fun _ => Some "fresh advice")
                          [] 0 10 buy_result)
  = "fresh advice".
Proof.
  apply (stored_advice_is_served_for_24_hours sample_lib
           (fun _ => Some "fresh advice") [] buy_result "fresh advice"
           0 10 [20; 30]%Z).
  - reflexivity.
  - reflexivity.
  - discriminate.
  - repeat constructor.
Defined.

Lemma save_to_cache_keys {lib : PyLib} (table : list LLMCache) (now : Z)
    (key prompt text : string) :
  NoDup (map signal_key table) ->
  NoDup (map signal_key (_save_to_cache table now key prompt text)).
Proof.
  intro H. unfold _save_to_cache.
  destruct (existsb _ table) eqn:E; [exact H |].
  rewrite map_app. cbn [map signal_key].
  apply NoDup_app; [exact H | repeat constructor; simpl; tauto |].
  intros k Hk [<- | []]. apply in_map_iff in Hk.
  destruct Hk as [row [Hrow Hin]].
  assert (Ex : existsb (fun r => String.eqb (signal_key r) key) table = true).
  { apply existsb_exists. exists row. split; [exact Hin |].
    apply String.eqb_eq. exact Hrow. }
  congruence.
Qed.

(** X14.  The table of the cache only grows, by one row at most in a call; the
    keys in it stay different from each other, as the unique constraint of
    the column demands, and the stored responses stay non-empty; and a call
    invokes the provider once at most. *)
Theorem cache_table_invariant :
  forall (lib : PyLib) (provider : Provider) (table : list LLMCache)
         (t_lookup t_save : Z) (sr : StrategyResult),
    let run := generate_advice provider table t_lookup t_save sr in
    (exists added, table_after run = (table ++ added)%list
                   /\ (length added <= 1)%nat)
    /\ (NoDup (map signal_key table) ->
        NoDup (map signal_key (table_after run)))
    /\ (Forall (fun row => response row <> "") table ->
        Forall (fun row => response row <> "") (table_after run))
    /\ (length (provider_calls run) <= 1)%nat.
Proof.
  intros lib provider table t_lookup t_save sr. cbv zeta.
  unfold generate_advice.
  destruct (if_text (_get_cached_response _ _ _)) as [text |] eqn:Ec.
  - cbn [table_after provider_calls length].
    split; [exists []; rewrite app_nil_r; split; [reflexivity | simpl; lia] |].
    repeat split; trivial. lia.
  - destruct (if_text (provider _)) as [text |] eqn:Ep.
    + apply if_text_nonempty in Ep. destruct Ep as [_ Hne].
      cbn [table_after provider_calls length].
      split; [| split; [apply save_to_cache_keys | split; [| lia]]].
      * unfold _save_to_cache. destruct (existsb _ table).
        -- exists []. rewrite app_nil_r. split; [reflexivity | simpl; lia].
        -- eexists. split; [reflexivity | simpl; lia].
      * intro H. unfold _save_to_cache. destruct (existsb _ table); [exact H |].
        apply Forall_app. split; [exact H |].
        constructor; [exact Hne | constructor].
    + cbn [table_after provider_calls length].
      split; [exists []; rewrite app_nil_r; split; [reflexivity | simpl; lia] |].
      repeat split; trivial.
Qed.

Lemma cache_table_invariant_witness :
  NoDup (map signal_key
           (table_after (generate_advice (lib := sample_lib)
                           MockLLMProvider_generate stale_table 100 100
                           buy_result))).
Proof.
  apply (proj1 (proj2 (cache_table_invariant sample_lib
                         MockLLMProvider_generate stale_table 100 100
                         buy_result))).
  repeat constructor. simpl. tauto.
Defined.

(** ** The mock provider *)

Lemma prefix_append (n h s : string) :
  String.prefix n h = true -> String.prefix n (h ++ s) = true.
Proof.
  revert h. induction n as [| c n IH]; intros h H;
    [destruct h; [destruct s |]; reflexivity |].
  destruct h as [| d h]; simpl in *; [discriminate |].
  destruct (Ascii.ascii_dec c d); [apply IH; exact H | discriminate].
Qed.

Lemma contains_prefix (n h : string) :
  String.prefix n h = true -> contains n h = true.
Proof.
  intro H. destruct h; cbn [contains]; [exact H | rewrite H; reflexivity].
Qed.

Lemma contains_append_l (n h s : string) :
  contains n h = true -> contains n (h ++ s) = true.
Proof.
  induction h as [| c h IH]; intro H.
  - simpl in H. apply contains_prefix.
    apply (prefix_append n "" s). exact H.
  - cbn [contains] in H. apply orb_prop in H.
    change ((String c h ++ s)%string) with (String c (h ++ s)).
    cbn [contains]. apply orb_true_iff. destruct H as [H | H].
    + left. apply (prefix_append n (String c h) s). exact H.
    + right. apply IH. exact H.
Qed.

Lemma contains_append_r (n p h : string) :
  contains n h = true -> contains n (p ++ h) = true.
Proof.
  intro H. induction p as [| c p IH]; [exact H |].
  change ((String c p ++ h)%string) with (String c (p ++ h)).
  cbn [contains]. rewrite IH. apply orb_true_r.
Qed.

Lemma contains_self (n : string) : contains n n = true.
Proof.
  apply contains_prefix. induction n as [| c n IH]; [reflexivity |].
  simpl. destruct (Ascii.ascii_dec c c); [exact IH | congruence].
Qed.

Lemma fold_lines_keep {lib : PyLib} (n : string) (sigs : list Signal) :
  forall acc,
    contains n acc = true ->
    contains n (fold_left (fun acc s => acc ++ signal_line s) sigs acc) = true.
Proof.
  induction sigs as [| s sigs IH]; intros acc H; [exact H |].
  apply IH. apply contains_append_l. exact H.
Qed.

Lemma fold_lines_signal {lib : PyLib} (sigs : list Signal) (s : Signal) :
  In s sigs ->
  forall acc,
    contains (signal s)
      (fold_left (fun acc s => acc ++ signal_line s) sigs acc) = true.
Proof.
  induction sigs as [| s0 sigs IH]; intros Hin acc; [destruct Hin |].
  destruct Hin as [-> | Hin]; [| apply IH; exact Hin].
  cbn [fold_left]. apply fold_lines_keep. apply contains_append_r.
  unfold signal_line.
  do 3 apply contains_append_r. apply contains_append_l. apply contains_self.
Qed.

(** The prompt names the final action and the action of every signal. *)
Lemma prompt_mentions {lib : PyLib} (sr : StrategyResult) :
  contains (final_action sr) (build_prompt sr) = true
  /\ forall s, In s (signals sr) -> contains (signal s) (build_prompt sr) = true.
Proof.
  unfold build_prompt. cbv zeta. split.
  - apply contains_append_l. apply fold_lines_keep.
    do 5 apply contains_append_r. apply contains_append_l. apply contains_self.
  - intros s Hs. apply contains_append_l. apply fold_lines_signal. exact Hs.
Qed.

(** X15.  The mock provider answers with its Buy text as soon as the final action
    or the action of one signal is Buy, also when the final action is Sell;
    with an empty cache this text is the advice. *)
Theorem mock_provider_answers_buy :
  forall (lib : PyLib) (sr : StrategyResult) (t_lookup t_save : Z),
    final_action sr = "买入"
    \/ (exists s, In s (signals sr) /\ signal s = "买入") ->
    MockLLMProvider_generate (build_prompt sr) = Some mock_buy_answer
    /\ advice (generate_advice MockLLMProvider_generate [] t_lookup t_save sr)
       = mock_buy_answer.
Proof.
  intros lib sr t_lookup t_save H.
  assert (Hc : contains "买入" (build_prompt sr) = true).
  { destruct (prompt_mentions sr) as [Hf Hs].
    destruct H as [<- | [s [Hin <-]]]; [exact Hf | apply Hs; exact Hin]. }
  assert (Hm : MockLLMProvider_generate (build_prompt sr)
               = Some mock_buy_answer)
    by (unfold MockLLMProvider_generate; rewrite Hc; reflexivity).
  split; [exact Hm |].
  rewrite (generate_advice_store MockLLMProvider_generate [] t_lookup t_save
             sr mock_buy_answer); [reflexivity | reflexivity | exact Hm |].
  discriminate.
Qed.

Lemma mock_provider_answers_buy_witness :
  final_action sell_with_a_buy = "卖出"
  /\ advice (generate_advice (lib := sample_lib) MockLLMProvider_generate []
                             0 0 sell_with_a_buy)
     = mock_buy_answer.
Proof.
  split; [reflexivity |].
  apply (mock_provider_answers_buy sample_lib sell_with_a_buy 0 0).
  right. eexists. split; [right; right; left; reflexivity | reflexivity].
Defined.

(** ** The dates of the synthetic history *)

Lemma mock_history_loop_dates {lib : PyLib} {np_random : NumpyRandom}
    (today : Z) (idxs : list nat) :
  forall (p : pyfloat) (g : rng_state),
    let '(ds, _, _, _) := mock_history_loop today idxs p g in
    ds = map (fun i => (today - Z.of_nat i)%Z) idxs.
Proof.
  induction idxs as [| i idxs IH]; intros p g; simpl; [reflexivity |].
  destruct (rng_randn g) as [r g1].
  destruct (rng_uniform 1000000 10000000 g1) as [u g2].
  specialize (IH (fmul p (fadd (Fin 1) (fmul (Fin r) (Fin 0.02)))) g2).
  destruct (mock_history_loop today idxs _ g2) as [[[ds ps] vs] g3].
  rewrite IH. reflexivity.
Qed.

(** X16.  The dates of the synthetic history are the [days] consecutive days
    that end the day before the call, in ascending order; today is not
    among them. *)
Theorem mock_history_dates :
  forall (lib : PyLib) (np_random : NumpyRandom) (code : string) (days : nat)
         (today : Z) (g : rng_state) (k : nat),
    (k < days)%nat ->
    let h := fst (_generate_mock_history code days today g) in
    length (dates h) = days
    /\ nth_error (dates h) k
       = Some (today - Z.of_nat days + Z.of_nat k)%Z
    /\ ~ In today (dates h).
Proof.
  intros lib np_random code days today g k Hk. cbv zeta.
  unfold _generate_mock_history.
  set (g0 := rng_seed (py_hash code mod 2 ^ 32)%Z).
  set (base := fadd (Fin 3) _).
  pose proof (mock_history_loop_dates today (rev (seq 1 days)) base g0) as Hd.
  destruct (mock_history_loop today _ base g0) as [[[ds ps] vs] g1].
  cbn [fst dates]. subst ds.
  split; [rewrite length_map, length_rev, length_seq; reflexivity |].
  split.
  - rewrite nth_error_map.
    assert (E : nth_error (rev (seq 1 days)) k = Some (days - k)%nat).
    { rewrite nth_error_rev, length_seq.
      rewrite (proj2 (Nat.ltb_lt k days) Hk).
      rewrite nth_error_seq.
      rewrite (proj2 (Nat.ltb_lt (days - S k) days)) by lia.
      f_equal. lia. }
    rewrite E. cbn [option_map]. f_equal. lia.
  - intro Hin. apply in_map_iff in Hin. destruct Hin as [i [Hi Hin]].
    apply in_rev in Hin. apply in_seq in Hin. lia.
Qed.

Lemma mock_history_dates_witness :
  nth_error (dates (fst (_generate_mock_history (lib := sample_lib)
                           (np_random := sample_random) "510300" 90 1000 0%Z)))
            89
  = Some 999%Z.
Proof.
  apply (mock_history_dates sample_lib sample_random "510300" 90 1000 0%Z 89).
  lia.
Defined.

(** ** The price history with retries *)

Lemma length_frame_tail {A : Type} (n : nat) (rows : list A) :
  length (frame_tail n rows) = Nat.min n (length rows).
Proof. unfold frame_tail. rewrite length_skipn. lia. Qed.

Lemma history_of_shape (symbol : string) (rows : list (Z * pyfloat * Z)) :
  code (history_of symbol rows) = symbol
  /\ length (dates (history_of symbol rows)) = length rows
  /\ length (prices (history_of symbol rows)) = length rows
  /\ length (volumes (history_of symbol rows)) = length rows.
Proof. unfold history_of. cbn [code dates prices volumes].
  rewrite !length_map. repeat split. Qed.

Lemma fetch_attempts_shape (fetch : nat -> Fetched) (call : Event)
    (symbol : string) (days : nat) (attempts : list nat) :
  (1 <= days)%nat ->
  (exists a b c d, call = Fetch a b c d) ->
  let '(r, trace) := fetch_attempts fetch call symbol days attempts in
  (fetches trace <= length attempts)%nat
  /\ (attempts <> [] -> 1 <= fetches trace)%nat
  /\ (slept trace
      <= 2 * length (filter (fun a => a <? MAX_RETRIES - 1)%nat attempts))%nat
  /\ match r with
     | Some h =>
         code h = symbol /\ dates h <> []
         /\ length (prices h) = length (dates h)
         /\ length (volumes h) = length (dates h)
         /\ (length (dates h) <= days)%nat
     | None => fetches trace = length attempts
     end.
Proof.
  intros Hdays [a [b [c [d ->]]]].
  set (early := fun a0 : nat => (a0 <? MAX_RETRIES - 1)%nat).
  induction attempts as [| attempt rest IH]; cbn [fetch_attempts].
  - cbn. repeat split; trivial. congruence.
  - destruct (fetch_attempts fetch (Fetch a b c d) symbol days rest)
      as [r trace].
    destruct IH as [H1 [H2 [H3 H4]]].
    assert (Hf : (length (filter early rest)
                  <= length (filter early (attempt :: rest)))%nat)
      by (cbn [filter]; destruct (early attempt); simpl; lia).
    destruct (fetch attempt) as [[| row rows] | message].
    + unfold fetches in *. cbn [filter length slept] in *.
      split; [lia |]. split; [intros _; lia |]. split; [lia |].
      destruct r; [exact H4 | lia].
    + unfold fetches. cbn [filter length slept].
      split; [lia |]. split; [intros _; lia |]. split; [lia |].
      destruct (history_of_shape symbol (frame_tail days (row :: rows)))
        as [Hc [Hd [Hp Hv]]].
      pose proof (length_frame_tail days (row :: rows)) as Hl.
      cbn [length] in Hl.
      split; [exact Hc |].
      split; [intro E; rewrite E in Hd; simpl in Hd; lia |].
      split; [congruence |]. split; [congruence | lia].
    + assert (Hs : (slept ((if (attempt <? MAX_RETRIES - 1)%nat
                            then [Sleep RETRY_DELAY] else []) ++ trace)
                    <= 2 * length (filter early (attempt :: rest)))%nat).
      { cbn [filter]. change (early attempt) with (attempt <? MAX_RETRIES - 1)%nat.
        destruct (attempt <? MAX_RETRIES - 1)%nat;
          cbn [app slept length]; unfold RETRY_DELAY; lia. }
      assert (Hn : fetches ((if (attempt <? MAX_RETRIES - 1)%nat
                            then [Sleep RETRY_DELAY] else []) ++ trace)
                   = fetches trace)
        by (destruct (attempt <? MAX_RETRIES - 1)%nat; reflexivity).
      unfold fetches in *. cbn [filter length slept] in *.
      split; [lia |]. split; [intros _; lia |]. split; [lia |].
      destruct r; [exact H4 | lia].
Qed.

Lemma config_of_days (period_key : string) :
  In (snd (config_of period_key)) [7; 30; 90; 180; 365]%nat.
Proof.
  unfold config_of, period_config. cbn [dict_get].
  repeat (destruct (String.eqb _ period_key); [simpl; tauto |]).
  simpl. tauto.
Qed.

Lemma price_history_shape {lib : PyLib} {np_random : NumpyRandom}
    (fetch : nat -> Fetched) (symbol period_key : string)
    (t_end t_start t_mock : Z) (g : rng_state) :
  let '(h, _, trace) :=
    get_price_history fetch symbol period_key t_end t_start t_mock g in
  code h = symbol
  /\ dates h <> []
  /\ length (prices h) = length (dates h)
  /\ length (volumes h) = length (dates h)
  /\ (length (dates h) <= snd (config_of period_key))%nat
  /\ (1 <= fetches trace <= 3)%nat
  /\ (slept trace <= 4)%nat.
Proof.
  unfold get_price_history.
  pose proof (config_of_days period_key) as Hdays.
  destruct (config_of period_key) as [akshare_period days]. cbn [snd] in *.
  assert (Hpos : (1 <= days)%nat)
    by (simpl in Hdays; repeat (destruct Hdays as [<- | Hdays]; [lia |]);
        destruct Hdays).
  pose proof (fetch_attempts_shape fetch
                (Fetch symbol akshare_period
                       (t_start - 2 * Z.of_nat days)%Z t_end)
                symbol days (seq 0 MAX_RETRIES) Hpos
                ltac:(do 4 eexists; reflexivity)) as H.
  destruct (fetch_attempts _ _ _ _ _) as [[h |] trace];
    destruct H as [H1 [H2 [H3 H4]]];
    assert (H2' : (1 <= fetches trace)%nat) by (apply H2; discriminate);
    cbn in H1, H3.
  - destruct H4 as [Hc [Hd [Hp [Hv Hl]]]]. repeat split; trivial; lia.
  - unfold _generate_mock_history.
    set (g0 := rng_seed (py_hash symbol mod 2 ^ 32)%Z).
    set (base := fadd (Fin 3) _).
    pose proof (mock_history_loop_length t_mock (rev (seq 1 days)) base g0)
      as Hlen.
    destruct (mock_history_loop t_mock _ base g0) as [[[ds ps] vs] g1].
    rewrite length_rev, length_seq in Hlen. destruct Hlen as [L1 [L2 L3]].
    cbn [code dates prices volumes].
    split; [reflexivity |].
    split; [intro E; rewrite E in L1; simpl in L1; lia |].
    repeat split; lia.
Qed.

(** X17.  Whatever the outside answers, [get_price_history] returns a history
    for the code asked that is not empty, with as many prices and volumes
    as dates and no more dates than the days of the period (7, 30, 90, 180
    or 365); it calls the outside once at least and three times at most,
    and sleeps for 4 seconds at most. *)
Theorem get_price_history_returns_data :
  forall (lib : PyLib) (np_random : NumpyRandom) (fetch : nat -> Fetched)
         (symbol period_key : string) (t_end t_start t_mock : Z)
         (g : rng_state),
    let '(h, _, trace) :=
      get_price_history fetch symbol period_key t_end t_start t_mock g in
    In (snd (config_of period_key)) [7; 30; 90; 180; 365]%nat
    /\ code h = symbol
    /\ dates h <> []
    /\ length (prices h) = length (dates h)
    /\ length (volumes h) = length (dates h)
    /\ (length (dates h) <= snd (config_of period_key))%nat
    /\ (1 <= fetches trace <= 3)%nat
    /\ (slept trace <= 4)%nat.
Proof.
  intros lib np_random fetch symbol period_key t_end t_start t_mock g.
  pose proof (price_history_shape fetch symbol period_key t_end t_start
                t_mock g) as H.
  destruct (get_price_history _ _ _ _ _ _ _) as [[h g'] trace].
  split; [apply config_of_days | exact H].
Qed.

(** X18.  When every attempt raises, the outside is called three times with a
    sleep of 2 seconds after the first and after the second call, none
    after the third; when every attempt gives an empty frame it is called
    three times without a sleep.  Both times the result is the synthetic
    history, and the global generator is left in the state that history
    leaves it in. *)
Theorem get_price_history_falls_back :
  forall (lib : PyLib) (np_random : NumpyRandom) (fetch : nat -> Fetched)
         (symbol period_key : string) (t_end t_start t_mock : Z)
         (g : rng_state),
    let days := snd (config_of period_key) in
    let call := Fetch symbol (fst (config_of period_key))
                      (t_start - 2 * Z.of_nat days)%Z t_end in
    let run := get_price_history fetch symbol period_key t_end t_start
                                 t_mock g in
    ((forall k, exists message, fetch k = Failed message) ->
     run = (_generate_mock_history symbol days t_mock g,
            [call; Sleep 2; call; Sleep 2; call]))
    /\ ((forall k, fetch k = Frame []) ->
        run = (_generate_mock_history symbol days t_mock g,
               [call; call; call])).
Proof.
  intros lib np_random fetch symbol period_key t_end t_start t_mock g.
  cbv zeta. unfold get_price_history.
  destruct (config_of period_key) as [akshare_period days].
  cbn [fst snd seq MAX_RETRIES fetch_attempts].
  split; intro H.
  - destruct (H 0%nat) as [m0 ->]. destruct (H 1%nat) as [m1 ->].
    destruct (H 2%nat) as [m2 ->]. cbn.
    destruct (_generate_mock_history symbol days t_mock g). reflexivity.
  - rewrite !H. cbn.
    destruct (_generate_mock_history symbol days t_mock g). reflexivity.
Qed.

Lemma get_price_history_falls_back_witness :
  slept (snd (get_price_history (lib := sample_lib)
                (np_random := sample_random) (fun _ => Failed "no network")
                "510300" "3m" 1000 1000 1000 0%Z))
  = 4%nat.
Proof.
  rewrite (proj1 (get_price_history_falls_back sample_lib sample_random
                    (fun _ => Failed "no network") "510300" "3m"
                    1000 1000 1000 0%Z)).
  - reflexivity.
  - intro k. exists "no network". reflexivity.
Defined.

(** X19.  When the history arrives in time, the strategy route answers with one
    of the three actions, the three signals, a confidence and no warning:
    the answer "等待" is given on a timeout or an exception of the fetch
    only. *)
Theorem strategy_route_on_fetched_history :
  forall (lib : PyLib) (np_random : NumpyRandom) (fetch : nat -> Fetched)
         (symbol : string) (t_end t_start t_mock : Z) (g : rng_state)
         (provider : Provider) (table : list LLMCache)
         (today t_lookup t_save : Z),
    let h := fst (fst (get_price_history fetch symbol "3m" t_end t_start
                                         t_mock g)) in
    exists resp table',
      get_strategy provider table today t_lookup t_save symbol (Returned h)
      = (Ok200 resp, table')
      /\ In (data_final_action (data resp)) actions
      /\ length (data_signals (data resp)) = 3%nat
      /\ data_confidence (data resp) <> None
      /\ warning resp = None.
Proof.
  intros lib np_random fetch symbol t_end t_start t_mock g provider table
         today t_lookup t_save. cbv zeta.
  pose proof (price_history_shape fetch symbol "3m" t_end t_start t_mock g)
    as H.
  destruct (get_price_history _ _ _ _ _ _ _) as [[h g'] trace].
  destruct H as [_ [Hd _]]. cbn [fst].
  unfold get_strategy. cbv zeta. cbn [get_price_with_timeout fst].
  destruct (dates h) as [| d ds]; [congruence |].
  destruct (engine_in_band (prices h)) as [r [Hr Hband]].
  rewrite Hr.
  destruct (in_band_spec _ _ _ Hband) as [q [_ Hcases]].
  do 2 eexists. split; [reflexivity |].
  cbn [data warning data_final_action data_signals data_confidence].
  split; [| split; [| split; [discriminate | reflexivity]]].
  - unfold actions.
    destruct Hcases as [[-> _] | [[-> | ->] _]]; simpl; tauto.
  - unfold StrategyEngine_analyze, aggregate in Hr.
    destruct (tally _ _ _) as [[vs tc] |]; [| discriminate].
    destruct (max_by _ _ _); [| discriminate].
    injection Hr as <-. reflexivity.
Qed.

(** ** The synthetic intraday data *)

Section Intraday.
Context {lib : PyLib} {np_random : NumpyRandom}.

Lemma intraday_minutes_shape (hour : nat) (minutes : list nat) :
  forall (p : pyfloat) (g : rng_state),
    let '(ts, ps, vs, _, _) := intraday_minutes hour minutes p g in
    ts = slot_labels hour minutes
    /\ length ps = length ts /\ length vs = length ts.
Proof.
  induction minutes as [| minute rest IH]; intros p g;
    cbn [intraday_minutes slot_labels].
  - repeat split.
  - destruct ((hour =? 9)%nat && (minute <? 30)%nat); [apply IH |].
    destruct ((hour =? 15)%nat && (0 <? minute)%nat); [repeat split |].
    destruct (rng_randn g) as [r g1].
    destruct (rng_uniform 10000 100000 g1) as [u g2].
    specialize (IH (fmul p (fadd (Fin 1) (fmul (Fin r) (Fin 0.005)))) g2).
    destruct (intraday_minutes hour rest _ g2) as [[[[ts ps] vs] p'] g3].
    destruct IH as [-> [H2 H3]]. simpl. rewrite H2, H3. repeat split.
Qed.

Lemma intraday_hours_shape (hours : list nat) :
  forall (p : pyfloat) (g : rng_state),
    let '(ts, ps, vs, _) := intraday_hours hours p g in
    ts = flat_map (fun hour =>
                     slot_labels hour (map (fun k => 5 * k)%nat (seq 0 12)))
                  hours
    /\ length ps = length ts /\ length vs = length ts.
Proof.
  induction hours as [| hour rest IH]; intros p g; cbn [intraday_hours flat_map].
  - repeat split.
  - pose proof (intraday_minutes_shape hour
                  (map (fun k => 5 * k)%nat (seq 0 12)) p g) as Hm.
    destruct (intraday_minutes hour _ p g) as [[[[ts ps] vs] p'] g1].
    specialize (IH p' g1).
    destruct (intraday_hours rest p' g1) as [[[ts' ps'] vs'] g2].
    destruct Hm as [-> [H2 H3]]. destruct IH as [-> [H2' H3']].
    rewrite !length_app, H2, H3, H2', H3'. repeat split.
Qed.

End Intraday.

(** X20.  The synthetic intraday data have 66 points for every code, one every
    five minutes from 09:30 to 14:55: the point of index [k] carries the
    time [5 * k] minutes after 09:30, with a price and a volume; the
    [break] at hour 15 is never reached, and there is no point at the close
    of 15:00. *)
Theorem mock_intraday_shape :
  forall (lib : PyLib) (np_random : NumpyRandom) (symbol : string)
         (g : rng_state),
    let r := fst (_generate_mock_intraday symbol g) in
    times r = map (fun k => clock (570 + 5 * k)) (seq 0 66)
    /\ length (times r) = 66%nat
    /\ length (intraday_prices r) = 66%nat
    /\ length (intraday_volumes r) = 66%nat
    /\ nth_error (times r) 0 = Some "09:30"
    /\ nth_error (times r) 1 = Some "09:35"
    /\ nth_error (times r) 65 = Some "14:55"
    /\ ~ In "15:00" (times r).
Proof.
  intros lib np_random symbol g. cbv zeta. unfold _generate_mock_intraday.
  set (g0 := rng_seed (py_hash symbol mod 2 ^ 32)%Z).
  set (base := fadd (Fin 3) _).
  pose proof (intraday_hours_shape (seq 9 6) base g0) as H.
  destruct (intraday_hours (seq 9 6) base g0) as [[[ts ps] vs] g1].
  cbn [fst times intraday_prices intraday_volumes].
  destruct H as [-> [-> ->]].
  set (labels := flat_map _ _).
  assert (Hn : existsb (String.eqb "15:00") labels = false)
    by (vm_compute; reflexivity).
  repeat split; try (vm_compute; reflexivity).
  intro Hin.
  assert (Ht : existsb (String.eqb "15:00") labels = true).
  { apply existsb_exists. exists "15:00". split; [exact Hin |].
    apply String.eqb_refl. }
  congruence.
Qed.

(** ** The ETF table *)

Lemma preset_name_nonempty (symbol : string) :
  symbol <> "" -> preset_name symbol <> "".
Proof.
  intro H. unfold preset_name, ETF_NAMES. cbn [dict_get].
  repeat (destruct (String.eqb _ symbol); [discriminate |]). exact H.
Qed.

(** X21.  A code that is not made of six digits is answered with status 500,
    not 400: the [HTTPException] with status 400 is raised inside the
    [try] and caught by its handler, which raises status 500, as long as
    the text of the exception does not mention a UNIQUE constraint.  The
    table is left as it is. *)
Theorem add_etf_invalid_code_gives_500 :
  forall (pystr : PyStr) (table : list ETFFund) (symbol : string)
         (awaited : Awaited string),
    isdigit symbol = false \/ len symbol <> 6%nat ->
    contains "UNIQUE constraint" (str_HTTPException 400 "请输入6位数字代码")
    = false ->
    add_etf table symbol awaited = (HttpError 500, table).
Proof.
  intros pystr table symbol awaited Hbad Htext. unfold add_etf.
  assert (E : negb (isdigit symbol) || negb (len symbol =? 6)%nat = true).
  { destruct Hbad as [-> | H]; [reflexivity |].
    apply Nat.eqb_neq in H. rewrite H. apply orb_true_r. }
  rewrite E. unfold add_etf_handler. rewrite Htext. reflexivity.
Qed.

Lemma add_etf_invalid_code_gives_500_witness :
  add_etf (pystr := sample_str) [] "51030" TimedOut = (HttpError 500, []).
Proof.
  apply (add_etf_invalid_code_gives_500 sample_str [] "51030" TimedOut).
  - right. simpl. lia.
  - vm_compute. reflexivity.
Defined.

(** X22.  The route [add_etf] keeps the codes of the table different from each
    other.  It leaves the table as it is, or adds one row for the code
    asked, with a name that is not empty, and then the code is made of six
    digits and the list route shows it.  A code of six digits that is in
    the table is answered with "ETF已存在".  The commit never fails on the
    primary key, and status 400 is never the answer. *)
Theorem add_etf_keeps_codes_unique :
  forall (pystr : PyStr) (table : list ETFFund) (symbol : string)
         (awaited : Awaited string),
    NoDup (map fund_code table) ->
    let '(reply, table') := add_etf table symbol awaited in
    NoDup (map fund_code table')
    /\ (table' = table
        \/ exists n,
             n <> "" /\ table' = (table ++ [mkFund symbol n "沪深" "ETF"])%list
             /\ reply = Ok200 ("成功添加ETF: " ++ n)
             /\ isdigit symbol = true /\ len symbol = 6%nat
             /\ In (symbol, n) (get_etf_list table'))
    /\ (In symbol (map fund_code table) ->
        isdigit symbol = true -> len symbol = 6%nat ->
        reply = Ok200 "ETF已存在" /\ table' = table)
    /\ reply <> HttpError 400.
Proof.
  intros pystr table symbol awaited Hnd. unfold add_etf.
  destruct (negb (isdigit symbol) || negb (len symbol =? 6)%nat) eqn:Ev.
  - unfold add_etf_handler.
    destruct (contains _ _);
      (split; [exact Hnd |]); (split; [left; reflexivity |]);
      (split; [| discriminate]); intros _ Hd Hl;
      rewrite Hd, Hl in Ev; discriminate Ev.
  - apply orb_false_elim in Ev. destruct Ev as [Hd Hl].
    apply negb_false_iff in Hd. apply negb_false_iff in Hl.
    apply Nat.eqb_eq in Hl.
    destruct (existsb (fun e => String.eqb (fund_code e) symbol) table) eqn:Ex.
    + split; [exact Hnd |]. split; [left; reflexivity |].
      split; [intros; split; reflexivity | discriminate].
    + cbv zeta. unfold Database_add_etf. cbn [fund_code]. rewrite Ex.
      set (n := if truthy (get_etf_info_async symbol awaited)
                then get_etf_info_async symbol awaited
                else preset_name symbol).
      assert (Hsym : symbol <> "")
        by (intro E0; rewrite E0 in Hl; simpl in Hl; lia).
      assert (Hn : n <> "").
      { unfold n. destruct (truthy _) eqn:Et.
        - unfold truthy in Et. apply negb_true_iff in Et.
          apply String.eqb_neq in Et. exact Et.
        - apply preset_name_nonempty. exact Hsym. }
      assert (Hfresh : ~ In symbol (map fund_code table)).
      { intro Hin. apply in_map_iff in Hin. destruct Hin as [e [He Hin]].
        assert (Et : existsb (fun e => String.eqb (fund_code e) symbol) table
                     = true).
        { apply existsb_exists. exists e. split; [exact Hin |].
          apply String.eqb_eq. exact He. }
        congruence. }
      split; [| split; [| split; [| discriminate]]].
      * rewrite map_app. cbn [map fund_code].
        apply NoDup_app; [exact Hnd | repeat constructor; simpl; tauto |].
        intros k Hk [<- | []]. contradiction.
      * right. exists n. repeat split; trivial.
        unfold get_etf_list.
        destruct (table ++ [mkFund symbol n "沪深" "ETF"])%list eqn:Et;
          [destruct table; discriminate Et |].
        rewrite <- Et. apply in_map_iff.
        exists (mkFund symbol n "沪深" "ETF"). split; [reflexivity |].
        apply in_or_app. right. left. reflexivity.
      * intros Hin. contradiction.
Qed.

Lemma add_etf_keeps_codes_unique_witness :
  NoDup (map fund_code
           (snd (add_etf (pystr := sample_str) [] "510300" TimedOut))).
Proof.
  pose proof (add_etf_keeps_codes_unique sample_str [] "510300" TimedOut
                (NoDup_nil _)) as H.
  destruct (add_etf (pystr := sample_str) [] "510300" TimedOut)
    as [reply table'].
  exact (proj1 H).
Defined.

(** ** The recorded actions *)

Lemma length_insert_by_date (r : DailyStrategy) (l : list DailyStrategy) :
  length (insert_by_date r l) = S (length l).
Proof.
  induction l as [| x l IH]; simpl; [reflexivity |].
  destruct (daily_date x <? daily_date r)%Z; simpl; [| rewrite IH];
    reflexivity.
Qed.

Lemma Forall_insert_by_date (P : DailyStrategy -> Prop) (r : DailyStrategy)
    (l : list DailyStrategy) :
  P r -> Forall P l -> Forall P (insert_by_date r l).
Proof.
  intros Hr Hl. induction Hl as [| x l Hx Hl IH]; simpl.
  - constructor; [exact Hr | constructor].
  - destruct (daily_date x <? daily_date r)%Z.
    + constructor; [exact Hr |]. constructor; assumption.
    + constructor; assumption.
Qed.

Lemma order_by_date_desc_shape (P : DailyStrategy -> Prop)
    (l : list DailyStrategy) :
  length (order_by_date_desc l) = length l
  /\ (Forall P l -> Forall P (order_by_date_desc l)).
Proof.
  unfold order_by_date_desc. induction l as [| x l [IH1 IH2]]; simpl.
  - split; [reflexivity | trivial].
  - rewrite length_insert_by_date, IH1. split; [reflexivity |].
    intro H. inversion H; subst.
    apply Forall_insert_by_date; [assumption | apply IH2; assumption].
Qed.

(** The rows [record_action] writes have no actual action, and there are
    as many of them for a code as calls for it. *)
Lemma record_all_rows (calls : list Recorded) :
  forall table,
    Forall (fun s => actual_action s = None) table ->
    Forall (fun s => actual_action s = None) (record_all calls table)
    /\ forall symbol,
         length (filter (fun s => String.eqb (daily_etf_code s) symbol)
                        (record_all calls table))
         = (length (filter (fun s => String.eqb (daily_etf_code s) symbol)
                           table)
            + recorded_for symbol calls)%nat.
Proof.
  unfold record_all, recorded_for.
  induction calls as [| [[[[today s] action] a] r] calls IH]; intros table Ht.
  - simpl. split; [exact Ht | intro; lia].
  - cbn [fold_left record_action save_daily_strategy snd].
    destruct (IH (table ++ [mkDaily (S (length table)) s today action a ""
                                    None None None])%list) as [H1 H2].
    { apply Forall_app. split; [exact Ht |].
      constructor; [reflexivity | constructor]. }
    split; [exact H1 |]. intro symbol. rewrite H2.
    rewrite filter_app, length_app. cbn [filter daily_etf_code].
    destruct (String.eqb s symbol); simpl; lia.
Qed.

(** X23.  The action a user records is never stored as the actual action:
    [save_daily_strategy] does not read that key.  So, on a table that
    [record_action] alone has written, the performance route counts the
    rows for the code, up to the limit, and reports none of them as
    followed. *)
Theorem recorded_actions_are_never_followed :
  forall (calls : list Recorded) (symbol : string) (days : nat),
    let n := Nat.min days (recorded_for symbol calls) in
    get_performance (record_all calls []) symbol days
    = mkPerformance n 0 n 0.
Proof.
  intros calls symbol days. cbv zeta.
  destruct (record_all_rows calls [] (Forall_nil _)) as [Hnone Hcount].
  specialize (Hcount symbol). simpl in Hcount.
  unfold get_performance, get_daily_strategies. cbv zeta.
  set (rows := filter (fun s => String.eqb (daily_etf_code s) symbol)
                      (record_all calls [])) in *.
  assert (Hrows : Forall (fun s => actual_action s = None) rows).
  { apply Forall_forall. intros s Hs. apply filter_In in Hs.
    apply (proj1 (Forall_forall _ _) Hnone). apply Hs. }
  destruct (order_by_date_desc_shape (fun s => actual_action s = None) rows)
    as [Hlen Hall].
  specialize (Hall Hrows).
  set (sorted := order_by_date_desc rows) in *.
  assert (Hk : filter (fun s => truthy_opt (actual_action s))
                      (firstn days sorted) = []).
  { assert (Hf : Forall (fun s => actual_action s = None)
                        (firstn days sorted)).
    { apply Forall_forall. intros s Hs. apply in_firstn in Hs.
      apply (proj1 (Forall_forall _ _) Hall). exact Hs. }
    induction Hf as [| s l Hs _ IH]; [reflexivity |].
    cbn [filter]. rewrite Hs. exact IH. }
  rewrite Hk, length_firstn, Hlen, Hcount. cbn [length].
  destruct (Nat.min days (recorded_for symbol calls)) as [| n] eqn:E;
    [reflexivity |].
  cbn [Nat.eqb]. rewrite Nat.sub_0_r. reflexivity.
Qed.

(** ** The order of the Bollinger bands *)

Lemma band_points_ordered (k : nat) (m s : Q) :
  Rounded.rnd64 m = Fin m -> 0 <= s ->
  let u := fill0 (Rounded.radd (Fin m) (Rounded.rmul (of_nat k) (Fin s))) in
  let l := fill0 (Rounded.rsub (Fin m) (Rounded.rmul (of_nat k) (Fin s))) in
  fleb l (Fin m) = true /\ fleb (Fin m) u = true.
Proof.
  intros Hm Hs. cbv zeta.
  assert (Hk : 0 <= inject_Z (Z.of_nat k)).
  { change 0 with (inject_Z 0). rewrite <- Zle_Qle. lia. }
  unfold Rounded.rmul, of_nat. cbn [fmul Rounded.round64].
  destruct (rnd64_nonneg (Qred (inject_Z (Z.of_nat k) * s)))
    as [-> | [t [-> Ht]]].
  { rewrite Qred_correct. apply Qmult_le_0_compat; assumption. }
  - split; reflexivity.
  - unfold Rounded.radd, Rounded.rsub, fsub.
    cbn [fneg fadd Rounded.round64].
    assert (Hlo : Qred (m + Qred (- t)) <= m)
      by (rewrite !Qred_correct; lra).
    assert (Hhi : m <= Qred (m + t)) by (rewrite Qred_correct; lra).
    pose proof (rnd64_mono _ _ Hlo) as Hl.
    pose proof (rnd64_mono _ _ Hhi) as Hu.
    rewrite Hm in Hl, Hu.
    destruct (Rounded.rnd64 (Qred (m + Qred (- t)))); try discriminate Hl;
      destruct (Rounded.rnd64 (Qred (m + t))); try discriminate Hu;
      split; assumption.
Qed.

(** X24.  With the rounding of binary64, wherever pandas' rolling mean and
    standard deviation are finite floats and the deviation is not
    negative, the three bands are in order: lower, then middle, then upper.
    The middle band is the mean; the lower one may be the negative infinity
    and the upper one the positive infinity, when the product or the sum
    leaves the range of binary64. *)
Theorem bollinger_bands_ordered :
  forall (pd : Rounded.Pandas) (prices : Series) (window std_dev i : nat)
         (m s : Q),
    (window <= length prices)%nat ->
    (Z.of_nat std_dev <= 2 ^ 53)%Z ->
    nth_error (Rounded.pd_rolling_mean window prices) i = Some (Fin m) ->
    nth_error (Rounded.pd_rolling_std window prices) i = Some (Fin s) ->
    Rounded.binary64 (Fin m) -> Rounded.binary64 (Fin s) -> 0 <= s ->
    let b := Rounded.calculate_bollinger_bands prices window std_dev in
    exists l u,
      nth_error (lower b) i = Some l
      /\ nth_error (middle b) i = Some (Fin m)
      /\ nth_error (upper b) i = Some u
      /\ fleb l (Fin m) = true /\ fleb (Fin m) u = true.
Proof.
  intros pd ps w k i m s Hlen Hk Em Es Hm _ Hs. cbv zeta.
  rewrite (rounded_bands_long ps w k Hlen). cbn [upper middle lower].
  unfold Rounded.band_upper, Rounded.band_lower.
  rewrite !nth_error_map.
  rewrite (nth_error_zip_with
             (fun m s => Rounded.radd m (Rounded.rmul (of_nat k) s))
             _ _ i _ _ Em Es).
  rewrite (nth_error_zip_with
             (fun m s => Rounded.rsub m (Rounded.rmul (of_nat k) s))
             _ _ i _ _ Em Es).
  rewrite Em. cbn [option_map].
  destruct (band_points_ordered k m s Hm Hs) as [Hl Hu].
  do 2 eexists. split; [reflexivity |]. split; [reflexivity |].
  split; [reflexivity |]. split; assumption.
Qed.

Lemma sqrt_digits_nonneg (q : Q) : 0 <= sqrt_digits q.
Proof.
  unfold sqrt_digits, Qle. simpl. rewrite Z.mul_1_r.
  apply Z.sqrt_nonneg.
Qed.

Lemma bollinger_bands_ordered_witness :
  exists l u,
    nth_error (lower (Rounded.calculate_bollinger_bands (pd := sample_pandas)
                        (map Fin [1; 2; 4; 8]) 3 2)) 3 = Some l
    /\ nth_error (upper (Rounded.calculate_bollinger_bands
                           (pd := sample_pandas)
                           (map Fin [1; 2; 4; 8]) 3 2)) 3 = Some u
    /\ fleb l u = true.
Proof.
  destruct (bollinger_bands_ordered sample_pandas (map Fin [1; 2; 4; 8])
              3 2 3 (5254199565265579 # 1125899906842624)
              (3439681032032363 # 1125899906842624))
    as [l [u [Hl [_ [Hu [H1 H2]]]]]].
  - simpl. lia.
  - vm_compute. discriminate.
  - vm_compute. reflexivity.
  - vm_compute. reflexivity.
  - vm_compute. reflexivity.
  - vm_compute. reflexivity.
  - vm_compute. discriminate.
  - exists l, u. split; [exact Hl |]. split; [exact Hu |].
    vm_compute in Hl, Hu. injection Hl as <-. injection Hu as <-.
    vm_compute. reflexivity.
Defined.

(** ** The rule-based advice on the results of the engine *)

(** X25.  On a result of the engine the rule-based advice is one of six texts:
    for Hold the plain or the weak one, never the strong one; for Buy and
    for Sell the plain or the strong one, never the weak one. *)
Theorem fallback_advice_on_engine_results :
  forall (lib : PyLib) (ps : Series),
    exists r,
      StrategyEngine_analyze ps = Some r
      /\ ((final_action r = "持有"
           /\ In (_rule_based_advice r)
                 [ "市场方向不明，建议观望等待，信号较弱，谨慎操作。";
                   "市场方向不明，建议观望等待。" ])
          \/ (final_action r = "买入"
              /\ In (_rule_based_advice r)
                    [ "技术指标显示上涨信号，建议适度建仓。注意控制仓位，设置止损位。";
                      "技术指标显示上涨信号，建议适度建仓，信号较强。注意控制仓位，设置止损位。" ])
          \/ (final_action r = "卖出"
              /\ In (_rule_based_advice r)
                    [ "技术指标显示调整风险，建议适当减仓。可考虑分批减仓，回调后择机接回。";
                      "技术指标显示调整风险，建议适当减仓，信号较强。可考虑分批减仓，回调后择机接回。" ])).
Proof.
  intros lib ps. destruct (engine_in_band ps) as [r [Hr Hband]].
  destruct (in_band_spec _ _ _ Hband) as [q [Hq Hcases]].
  exists r. split; [exact Hr |].
  unfold _rule_based_advice. cbv zeta. rewrite Hq.
  unfold fgtb. cbn [fltb].
  destruct Hcases as [[Ha Hrange] | [[Ha | Ha] Hrange]]; rewrite Ha.
  - left. split; [reflexivity |].
    rewrite (proj2 (Qlt_bool_false_iff 0.75 q)) by lra.
    destruct (Qlt_bool q 0.55); simpl; tauto.
  - right. left. split; [reflexivity |].
    rewrite (proj2 (Qlt_bool_false_iff q 0.55)) by lra.
    destruct (Qlt_bool 0.75 q); simpl; tauto.
  - right. right. split; [reflexivity |].
    rewrite (proj2 (Qlt_bool_false_iff q 0.55)) by lra.
    destruct (Qlt_bool 0.75 q); simpl; tauto.
Qed.

(** ** Means over the windows of a trend *)

Lemma chain_Forall (a : Q) (rest : list Q) :
  chain (fun a b => a < b) a rest -> Forall (fun x => a < x) rest.
Proof.
  revert a. induction rest as [| b rest IH]; intros a H; constructor.
  - apply H.
  - destruct H as [Hab Hrest]. eapply Forall_impl; [| apply IH; exact Hrest].
    intros x Hx. simpl in Hx. lra.
Qed.

Lemma rising_nth (qs : list Q) :
  rising qs ->
  forall j k, (j < k)%nat -> (k < length qs)%nat -> nth j qs 0 < nth k qs 0.
Proof.
  induction qs as [| a rest IH]; intros H j k Hjk Hk; [simpl in Hk; lia |].
  destruct k as [| k]; [lia |]. simpl in Hk.
  destruct j as [| j].
  - cbn [nth]. apply (proj1 (Forall_forall _ _) (chain_Forall a rest H)).
    apply nth_In. lia.
  - cbn [nth]. apply IH; try lia.
    destruct rest as [| b rest]; [exact I | apply H].
Qed.

Lemma nth_window (w i t : nat) (qs : list Q) :
  (w <= S i)%nat -> (i < length qs)%nat -> (t < w)%nat ->
  nth t (window_at w i qs) 0 = nth (S i - w + t) qs 0.
Proof.
  intros Hw Hi Ht. unfold window_at.
  rewrite nth_firstn, (proj2 (Nat.ltb_lt t w) Ht), nth_skipn. reflexivity.
Qed.

Lemma in_window_nth (w i : nat) (qs : list Q) (x : Q) :
  (w <= S i)%nat -> (i < length qs)%nat ->
  In x (window_at w i qs) ->
  exists t, (t < w)%nat /\ x = nth (S i - w + t) qs 0.
Proof.
  intros Hw Hi Hin. apply (In_nth _ _ 0) in Hin.
  destruct Hin as [t [Ht <-]]. rewrite length_window in Ht by assumption.
  exists t. split; [exact Ht | apply nth_window; assumption].
Qed.

Lemma firstn_plus {A : Type} (a b : nat) (l : list A) :
  firstn (a + b) l = (firstn a l ++ firstn b (skipn a l))%list.
Proof.
  revert l. induction a as [| a IH]; intros l; [reflexivity |].
  destruct l as [| x l]; simpl; [destruct b; reflexivity |].
  rewrite IH. reflexivity.
Qed.

(** A window is the window of its older part followed by the window of
    its newer part. *)
Lemma window_split (w s i : nat) (qs : list Q) :
  (s < w)%nat -> (w <= S i)%nat ->
  window_at w i qs = (window_at (w - s) (i - s) qs ++ window_at s i qs)%list.
Proof.
  intros Hs Hw. unfold window_at.
  replace (S (i - s) - (w - s))%nat with (S i - w)%nat by lia.
  replace (S i - s)%nat with ((w - s) + (S i - w))%nat by lia.
  rewrite <- skipn_skipn.
  replace w with ((w - s) + s)%nat at 1 by lia.
  apply firstn_plus.
Qed.

Lemma Qsum_app (l1 l2 : list Q) : Qsum (l1 ++ l2) == Qsum l1 + Qsum l2.
Proof.
  induction l1 as [| x l1 IH]; simpl app.
  - change (Qsum []) with 0. ring.
  - rewrite !Qsum_cons, IH. ring.
Qed.

Lemma Qsum_at_least (c : Q) (l : list Q) :
  Forall (fun x => c <= x) l -> inject_Z (Z.of_nat (length l)) * c <= Qsum l.
Proof.
  induction 1 as [| x l Hx _ IH].
  - change (Qsum []) with 0. simpl length. change (inject_Z (Z.of_nat 0)) with 0.
    lra.
  - rewrite Qsum_cons. cbn [length].
    rewrite Nat2Z.inj_succ, <- Z.add_1_r, inject_Z_plus.
    change (inject_Z 1) with 1. lra.
Qed.

Lemma Qsum_below (c : Q) (l : list Q) :
  l <> [] -> Forall (fun x => x < c) l ->
  Qsum l < inject_Z (Z.of_nat (length l)) * c.
Proof.
  intros Hne H. induction H as [| x l Hx Hl IH]; [congruence |].
  rewrite Qsum_cons. cbn [length].
  rewrite Nat2Z.inj_succ, <- Z.add_1_r, inject_Z_plus.
  change (inject_Z 1) with 1.
  destruct l as [| y l].
  - change (Qsum []) with 0. simpl length. change (inject_Z (Z.of_nat 0)) with 0.
    lra.
  - assert (Qsum (y :: l) < inject_Z (Z.of_nat (length (y :: l))) * c)
      by (apply IH; discriminate).
    lra.
Qed.

Lemma Qsum_pointwise (l1 l2 : list Q) :
  length l1 = length l2 -> l1 <> [] ->
  (forall t, (t < length l1)%nat -> nth t l1 0 < nth t l2 0) ->
  Qsum l1 < Qsum l2.
Proof.
  revert l2. induction l1 as [| x l1 IH]; intros [| y l2] Hlen Hne H;
    simpl in Hlen; try congruence; try discriminate.
  rewrite !Qsum_cons.
  assert (Hxy : x < y) by (apply (H 0%nat); simpl; lia).
  destruct l1 as [| x' l1].
  - destruct l2; [| discriminate]. change (Qsum []) with 0. lra.
  - assert (Qsum (x' :: l1) < Qsum l2).
    { apply IH; [lia | discriminate |].
      intros t Ht. apply (H (S t)). simpl in *. lia. }
    lra.
Qed.

(** On rising prices the trailing mean grows with the position, the mean
    of a shorter window is above the mean of a longer one, and the price
    is above the mean of a window of two or more. *)
Lemma rising_mean_shift (qs : list Q) (w j i : nat) :
  rising qs -> (1 <= w)%nat -> (w <= S j)%nat -> (j < i)%nat ->
  (i < length qs)%nat ->
  trailing_mean w j qs < trailing_mean w i qs.
Proof.
  intros Hr Hw Hj Hji Hi. unfold trailing_mean, Qmean.
  rewrite !length_window by lia.
  assert (Hn : 0 < inject_Z (Z.of_nat w)) by (apply inject_nat_pos; lia).
  apply Qmult_lt_compat_r; [apply Qinv_lt_0_compat; exact Hn |].
  apply Qsum_pointwise.
  - rewrite !length_window by lia. reflexivity.
  - intro E. apply (f_equal (@length Q)) in E.
    rewrite length_window in E by lia. simpl in E. lia.
  - intros t Ht. rewrite length_window in Ht by lia.
    rewrite !nth_window by lia. apply rising_nth; [exact Hr | lia | lia].
Qed.

Lemma rising_mean_sizes (qs : list Q) (s w i : nat) :
  rising qs -> (1 <= s)%nat -> (s < w)%nat -> (w <= S i)%nat ->
  (i < length qs)%nat ->
  trailing_mean w i qs < trailing_mean s i qs.
Proof.
  intros Hr Hs Hsw Hw Hi. unfold trailing_mean, Qmean.
  rewrite (window_split w s i qs Hsw Hw), length_app, Qsum_app.
  set (older := window_at (w - s) (i - s) qs).
  set (newer := window_at s i qs).
  assert (Lo : length older = (w - s)%nat)
    by (unfold older; apply length_window; lia).
  assert (Ln : length newer = s) by (unfold newer; apply length_window; lia).
  set (b := nth (S i - s) qs 0).
  assert (Ho : Qsum older < inject_Z (Z.of_nat (length older)) * b).
  { apply Qsum_below.
    - intro E. rewrite E in Lo. simpl in Lo. lia.
    - apply Forall_forall. intros x Hx.
      apply in_window_nth in Hx; try lia. destruct Hx as [t [Ht ->]].
      apply rising_nth; [exact Hr | lia | lia]. }
  assert (Hn : inject_Z (Z.of_nat (length newer)) * b <= Qsum newer).
  { apply Qsum_at_least. apply Forall_forall. intros x Hx.
    apply in_window_nth in Hx; try lia. destruct Hx as [t [Ht ->]].
    destruct t as [| t].
    - unfold b. rewrite Nat.add_0_r. apply Qle_refl.
    - apply Qlt_le_weak. apply rising_nth; [exact Hr | lia | lia]. }
  rewrite Lo, Ln in *.
  rewrite Nat2Z.inj_add, inject_Z_plus.
  set (O := inject_Z (Z.of_nat (w - s))) in *.
  set (N := inject_Z (Z.of_nat s)) in *.
  assert (HO : 0 < O) by (apply inject_nat_pos; lia).
  assert (HN : 0 < N) by (apply inject_nat_pos; lia).
  set (X := Qsum older) in *. set (Y := Qsum newer) in *.
  apply Qlt_shift_div_r; [lra |].
  assert (E : Y / N * (O + N) == (O * Y + N * Y) / N) by (field; lra).
  rewrite E. apply Qlt_shift_div_l; [exact HN |].
  assert (H1 : N * X < N * (O * b)) by (apply Qmult_lt_l; assumption).
  assert (H2 : O * (N * b) <= O * Y).
  { apply Qmult_le_l; assumption. }
  assert (E2 : N * (O * b) == O * (N * b)) by ring.
  assert (E3 : (X + Y) * N == N * X + N * Y) by ring.
  rewrite E3. lra.
Qed.

Lemma window_of_one (i : nat) (qs : list Q) :
  (i < length qs)%nat -> trailing_mean 1 i qs == nth i qs 0.
Proof.
  intro Hi. unfold trailing_mean, Qmean.
  assert (E : window_at 1 i qs = [nth i qs 0]).
  { pose proof (length_window 1 i qs ltac:(lia) Hi) as Hl.
    pose proof (nth_window 1 i 0 qs ltac:(lia) Hi ltac:(lia)) as Hn.
    destruct (window_at 1 i qs) as [| x [| y l]]; simpl in Hl; try lia.
    simpl in Hn. rewrite Hn. f_equal. f_equal. lia. }
  rewrite E. simpl. unfold Qsum. simpl. field.
Qed.

Lemma rising_price_above_mean (qs : list Q) (w i : nat) :
  rising qs -> (2 <= w)%nat -> (w <= S i)%nat -> (i < length qs)%nat ->
  trailing_mean w i qs < nth i qs 0.
Proof.
  intros Hr Hw Hi Hlen. rewrite <- (window_of_one i qs Hlen).
  apply rising_mean_sizes; trivial; lia.
Qed.

Lemma falling_negated (qs : list Q) : falling qs -> rising (map Qopp qs).
Proof.
  destruct qs as [| a rest]; [trivial |]. unfold falling, rising. simpl.
  revert a. induction rest as [| b rest IH]; intros a H; [exact I |].
  destruct H as [Hab Hrest]. split; [lra | apply IH; exact Hrest].
Qed.

Lemma Qsum_opp (l : list Q) : Qsum (map Qopp l) == - Qsum l.
Proof.
  induction l as [| x l IH]; [reflexivity |].
  rewrite map_cons, !Qsum_cons, IH. ring.
Qed.

Lemma trailing_mean_opp (w i : nat) (qs : list Q) :
  (w <= S i)%nat -> (i < length qs)%nat -> (1 <= w)%nat ->
  trailing_mean w i (map Qopp qs) == - trailing_mean w i qs.
Proof.
  intros Hw Hi H1. unfold trailing_mean, Qmean.
  rewrite window_map, Qsum_opp, length_map. field.
  rewrite length_window by assumption.
  assert (0 < inject_Z (Z.of_nat w)) by (apply inject_nat_pos; lia). lra.
Qed.

Lemma nth_opp (i : nat) (qs : list Q) : nth i (map Qopp qs) 0 = - nth i qs 0.
Proof. apply (map_nth Qopp qs 0 i). Qed.

(** The same on falling prices, the other way round. *)
Lemma falling_mean_sizes (qs : list Q) (s w i : nat) :
  falling qs -> (1 <= s)%nat -> (s < w)%nat -> (w <= S i)%nat ->
  (i < length qs)%nat ->
  trailing_mean s i qs < trailing_mean w i qs.
Proof.
  intros Hf Hs Hsw Hw Hi.
  pose proof (rising_mean_sizes (map Qopp qs) s w i (falling_negated qs Hf)
                Hs Hsw Hw ltac:(rewrite length_map; exact Hi)) as H.
  rewrite !trailing_mean_opp in H by lia. lra.
Qed.

Lemma falling_price_below_mean (qs : list Q) (w i : nat) :
  falling qs -> (2 <= w)%nat -> (w <= S i)%nat -> (i < length qs)%nat ->
  nth i qs 0 < trailing_mean w i qs.
Proof.
  intros Hf Hw Hi Hlen.
  pose proof (rising_price_above_mean (map Qopp qs) w i (falling_negated qs Hf)
                Hw Hi ltac:(rewrite length_map; exact Hlen)) as H.
  rewrite trailing_mean_opp, nth_opp in H by lia. lra.
Qed.

(** ** The values the strategies read at the end of the series *)

Lemma iloc_rolling (agg : Series -> pyfloat) (w : nat) (ps : Series) (k : nat) :
  (1 <= k)%nat -> (k <= length ps)%nat ->
  iloc_neg (rolling agg w ps) k = rolling_at agg w ps (length ps - k).
Proof.
  intros Hk Hle. unfold iloc_neg. rewrite length_rolling.
  apply nth_error_nth. apply nth_error_rolling. lia.
Qed.

Lemma iloc_mean (qs : list Q) (w k : nat) :
  (1 <= w)%nat -> (1 <= k)%nat -> (w + k <= S (length qs))%nat ->
  exists m,
    iloc_neg (rolling_mean w (map Fin qs)) k = Fin m
    /\ m == trailing_mean w (length qs - k) qs.
Proof.
  intros Hw Hk Hlen. unfold rolling_mean.
  rewrite iloc_rolling by (rewrite ?length_map; lia).
  rewrite length_map. apply rolling_mean_at; lia.
Qed.

Lemma iloc_price (qs : list Q) :
  qs <> [] -> iloc_neg (map Fin qs) 1 = Fin (nth (length qs - 1) qs 0).
Proof.
  intro Hne. unfold iloc_neg. rewrite length_map.
  assert (Hlen : (length qs - 1 < length qs)%nat)
    by (destruct qs; simpl; [congruence | lia]).
  rewrite (nth_indep _ NaN (Fin 0)) by (rewrite length_map; exact Hlen).
  apply (map_nth Fin qs 0).
Qed.

Lemma window_positive (qs : list Q) (w i : nat) :
  Forall (fun q => 0 < q) qs -> (1 <= w)%nat -> (w <= S i)%nat ->
  (i < length qs)%nat -> 0 < trailing_mean w i qs.
Proof.
  intros Hpos Hw Hi Hlen. unfold trailing_mean.
  apply Qmean_sign.
  - intro E. apply (f_equal (@length Q)) in E.
    rewrite length_window in E by assumption. simpl in E. lia.
  - apply Forall_forall. intros x Hx. apply in_window in Hx.
    apply (proj1 (Forall_forall _ _) Hpos). exact Hx.
Qed.

Lemma fltb_Fin (a b : Q) : fltb (Fin a) (Fin b) = true <-> a < b.
Proof. apply Qlt_bool_iff. Qed.

Lemma fltb_Fin_false (a b : Q) : fltb (Fin a) (Fin b) = false <-> b <= a.
Proof. apply Qlt_bool_false_iff. Qed.

Lemma fleb_Fin_false (a b : Q) : fleb (Fin a) (Fin b) = false <-> b < a.
Proof.
  split; intro H.
  - destruct (Qlt_le_dec b a) as [L | L]; [exact L |].
    apply fleb_Fin in L. congruence.
  - destruct (fleb (Fin a) (Fin b)) eqn:E; trivial.
    apply fleb_Fin in E. lra.
Qed.

(** ** The moving-average strategy on a trend *)

Lemma ma_rising_signal (self : MovingAverageStrategy) (qs : list Q) :
  (1 <= short_window self)%nat ->
  (short_window self < long_window self)%nat ->
  (long_window self + 5 <= length qs)%nat ->
  rising qs -> Forall (fun q => 0 < q) qs ->
  MovingAverageStrategy_analyze self (map Fin qs)
  = mkSignal "双均线" "买入" (Fin 0.7) "短期均线在上且上升趋势".
Proof.
  intros Hs Hsl Hlen Hr Hpos.
  set (n := length qs) in *.
  unfold MovingAverageStrategy_analyze. rewrite length_map. fold n.
  rewrite (proj2 (Nat.ltb_ge n (long_window self + 5)) Hlen). cbv zeta.
  rewrite (proj2 (Nat.leb_le 5 n)) by lia.
  destruct (iloc_mean qs (short_window self) 1) as [A [-> HA]]; try lia.
  destruct (iloc_mean qs (long_window self) 1) as [B [-> HB]]; try lia.
  destruct (iloc_mean qs (short_window self) 2) as [A' [-> HA']]; try lia.
  destruct (iloc_mean qs (long_window self) 2) as [B' [-> HB']]; try lia.
  destruct (iloc_mean qs (short_window self) 5) as [A5 [-> HA5]]; try lia.
  fold n in HA, HB, HA', HB', HA5.
  assert (H1 : B' < A').
  { rewrite HA', HB'. apply rising_mean_sizes; trivial; lia. }
  assert (H2 : B < A).
  { rewrite HA, HB. apply rising_mean_sizes; trivial; lia. }
  assert (H3 : A5 < A).
  { rewrite HA, HA5. apply rising_mean_shift; trivial; lia. }
  assert (H4 : 0 < A5).
  { rewrite HA5. apply window_positive; trivial; lia. }
  rewrite (proj2 (fleb_Fin_false A' B') H1). cbn [andb].
  unfold fgeb, fgtb.
  rewrite (proj2 (fltb_Fin_false A B)) by lra. rewrite andb_false_r.
  rewrite (proj2 (fltb_Fin B A) H2). cbn [andb].
  assert (H5 : fltb (Fin 0) (fsub (fdiv (Fin A) (Fin A5)) (Fin 1)) = true).
  { cbn [fdiv]. rewrite (proj2 (Qeq_bool_false_iff A5 0)) by lra.
    cbn [fsub fneg fadd]. apply fltb_Fin. rewrite !Qred_correct.
    assert (1 < A / A5) by (apply Qlt_shift_div_l; lra). lra. }
  rewrite H5. reflexivity.
Qed.

Lemma ma_falling_signal (self : MovingAverageStrategy) (qs : list Q) :
  (1 <= short_window self)%nat ->
  (short_window self < long_window self)%nat ->
  (long_window self + 5 <= length qs)%nat ->
  falling qs ->
  let s := MovingAverageStrategy_analyze self (map Fin qs) in
  (s = mkSignal "双均线" "卖出" (Fin 0.7) "中长期趋势向下"
   \/ s = mkSignal "双均线" "持有" (Fin 0.55) "观望为主")
  /\ ((length qs < long_window self + 9)%nat ->
      s = mkSignal "双均线" "持有" (Fin 0.55) "观望为主").
Proof.
  intros Hs Hsl Hlen Hf. cbv zeta.
  set (n := length qs) in *.
  unfold MovingAverageStrategy_analyze. rewrite length_map. fold n.
  rewrite (proj2 (Nat.ltb_ge n (long_window self + 5)) Hlen). cbv zeta.
  rewrite (proj2 (Nat.leb_le 5 n)) by lia.
  rewrite iloc_price by (intro E; unfold n in Hlen; rewrite E in Hlen;
                         simpl in Hlen; lia).
  fold n.
  assert (Hlong : (n < long_window self + 9)%nat ->
                  fltb (if (10 <=? n)%nat
                        then fsub (fdiv (iloc_neg (rolling_mean (long_window self)
                                                      (map Fin qs)) 1)
                                        (iloc_neg (rolling_mean (long_window self)
                                                      (map Fin qs)) 10))
                                  (Fin 1)
                        else Fin 0) (Fin (-0.02)) = false).
  { intro Hn. destruct (10 <=? n)%nat eqn:E10; [| reflexivity].
    apply Nat.leb_le in E10. unfold rolling_mean at 2.
    rewrite iloc_rolling by (rewrite ?length_map; fold n; lia).
    rewrite length_map. fold n.
    rewrite rolling_at_early by lia.
    destruct (iloc_neg _ 1); reflexivity. }
  set (long_trend := if (10 <=? n)%nat then _ else _) in *.
  destruct (iloc_mean qs (short_window self) 1) as [A [-> HA]]; try lia.
  destruct (iloc_mean qs (long_window self) 1) as [B [EB HB]]; try lia.
  rewrite EB.
  destruct (iloc_mean qs (short_window self) 2) as [A' [-> HA']]; try lia.
  destruct (iloc_mean qs (long_window self) 2) as [B' [-> HB']]; try lia.
  fold n in HA, HB, HA', HB'.
  assert (H1 : A' < B').
  { rewrite HA', HB'. apply falling_mean_sizes; trivial; lia. }
  assert (H2 : A < B).
  { rewrite HA, HB. apply falling_mean_sizes; trivial; lia. }
  assert (H3 : nth (n - 1) qs 0 <= A).
  { rewrite HA. destruct (Nat.eq_dec (short_window self) 1) as [E1 | E1].
    - rewrite E1, window_of_one by lia. apply Qle_refl.
    - apply Qlt_le_weak. apply falling_price_below_mean; trivial; lia. }
  unfold fgeb, fgtb.
  rewrite (proj2 (fltb_Fin_false B A)) by lra. rewrite andb_false_r.
  cbn [andb].
  rewrite (proj2 (fleb_Fin_false B' A') H1). cbn [andb].
  rewrite (proj2 (fltb_Fin A B) H2).
  rewrite (proj2 (fltb_Fin_false A (nth (n - 1) qs 0))) by lra.
  cbn [andb]. split.
  - destruct (fltb long_trend (Fin (-0.02))); [left | right]; reflexivity.
  - intro Hn. rewrite (Hlong Hn). reflexivity.
Qed.

Lemma quoted_positive (qs : list Q) :
  forallb quoted qs = true -> Forall (fun q => 0 < q) qs.
Proof.
  intro H. apply Forall_forall. intros q Hq.
  pose proof (proj1 (forallb_forall quoted qs) H q Hq) as Hb.
  unfold quoted in Hb. apply andb_prop in Hb. destruct Hb as [Hb _].
  apply andb_prop in Hb. destruct Hb as [Hb _].
  apply Qlt_bool_iff. exact Hb.
Qed.

(** X26.  On prices as the data service gives them (positive, at most a
    million, with three decimals) that rise at every step, the short mean is
    above the long one now and one step before and has grown over the last
    four steps, so the moving-average strategy says Buy with confidence
    0.7: a golden cross is not seen, the short mean being above already.
    On prices that fall at every step it says Sell with confidence 0.7 when
    the long mean has lost more than 2 percent over the last nine steps,
    and else it holds with confidence 0.55; below [long_window + 9] prices
    that long trend is NaN or 0 and the strategy holds. *)
Theorem ma_strategy_on_trends :
  forall (self : MovingAverageStrategy) (qs : list Q),
    (1 <= short_window self)%nat ->
    (short_window self < long_window self)%nat ->
    (long_window self + 5 <= length qs)%nat ->
    let s := MovingAverageStrategy_analyze self (map Fin qs) in
    (rising qs -> forallb quoted qs = true ->
     s = mkSignal "双均线" "买入" (Fin 0.7) "短期均线在上且上升趋势")
    /\ (falling qs ->
        (s = mkSignal "双均线" "卖出" (Fin 0.7) "中长期趋势向下"
         \/ s = mkSignal "双均线" "持有" (Fin 0.55) "观望为主")
        /\ ((length qs < long_window self + 9)%nat ->
            s = mkSignal "双均线" "持有" (Fin 0.55) "观望为主")).
Proof.
  intros self qs Hs Hsl Hlen. cbv zeta. split.
  - intros Hr Hq. apply ma_rising_signal; try assumption.
    apply quoted_positive. exact Hq.
  - intro Hf. apply (ma_falling_signal self qs Hs Hsl Hlen Hf).
Qed.

Lemma ma_strategy_on_trends_witness :
  signal (MovingAverageStrategy_analyze engine_ma (map Fin long_climb))
  = "买入"
  /\ signal (MovingAverageStrategy_analyze engine_ma
               (map Fin (firstn 25 long_descent)))
     = "持有".
Proof.
  split.
  - rewrite (proj1 (ma_strategy_on_trends engine_ma long_climb
                      ltac:(simpl; lia) ltac:(simpl; lia) ltac:(simpl; lia))).
    + reflexivity.
    + vm_compute. repeat split.
    + vm_compute. reflexivity.
  - rewrite (proj2 (proj2 (ma_strategy_on_trends engine_ma
                             (firstn 25 long_descent)
                             ltac:(simpl; lia) ltac:(simpl; lia)
                             ltac:(simpl; lia))
                      ltac:(vm_compute; repeat split))).
    + reflexivity.
    + simpl. lia.
Defined.

(** ** The Bollinger strategy on a trend *)

Lemma iloc_bands {lib : PyLib} (qs : list Q) (w k : nat) :
  (forall q, 0 <= sqrtQ q) -> (2 <= w)%nat -> (w <= length qs)%nat ->
  exists m l u,
    iloc_neg (rolling_mean w (map Fin qs)) 1 = Fin m
    /\ iloc_neg (band_upper k (rolling_mean w (map Fin qs))
                            (rolling_std w (map Fin qs))) 1 = Fin u
    /\ iloc_neg (band_lower k (rolling_mean w (map Fin qs))
                            (rolling_std w (map Fin qs))) 1 = Fin l
    /\ m == trailing_mean w (length qs - 1) qs
    /\ l <= m /\ m <= u /\ u - m == m - l.
Proof.
  intros Hsqrt Hw Hlen.
  set (n := length qs) in *.
  assert (Hi : (n - 1 < length (map Fin qs))%nat) by (rewrite length_map; fold n; lia).
  pose proof (nth_error_rolling mean w _ _ Hi) as Em.
  pose proof (nth_error_rolling std w _ _ Hi) as Es.
  fold (rolling_mean w (map Fin qs)) in Em.
  fold (rolling_std w (map Fin qs)) in Es.
  assert (Lm : length (rolling_mean w (map Fin qs)) = n)
    by (unfold rolling_mean; rewrite length_rolling; apply length_map).
  assert (Ls : length (rolling_std w (map Fin qs)) = n)
    by (unfold rolling_std; rewrite length_rolling; apply length_map).
  destruct (rolling_mean_at qs w (n - 1)) as [m [Hm Hmv]]; try (fold n; lia).
  pose proof (rolling_std_at qs w (n - 1) Hw ltac:(lia) ltac:(fold n; lia))
    as Hs.
  rewrite Hm in Em. rewrite Hs in Es.
  set (s := Qred (trailing_std w (n - 1) qs)) in *.
  assert (Hs0 : 0 <= s) by (unfold s; rewrite Qred_correct; apply Hsqrt).
  assert (Hk : 0 <= inject_Z (Z.of_nat k)).
  { change 0 with (inject_Z 0). rewrite <- Zle_Qle. lia. }
  pose proof (Qmult_le_0_compat _ _ Hk Hs0) as Hks.
  exists m, (Qred (m + Qred (- Qred (inject_Z (Z.of_nat k) * s)))),
    (Qred (m + Qred (inject_Z (Z.of_nat k) * s))).
  split; [| split; [| split; [| split; [exact Hmv |]]]].
  - unfold iloc_neg. rewrite Lm. apply nth_error_nth. exact Em.
  - unfold iloc_neg, band_upper. rewrite length_zip_with, Lm by congruence.
    apply nth_error_nth.
    rewrite (nth_error_zip_with
               (fun m0 s0 => fadd m0 (fmul (of_nat k) s0)) _ _ _ _ _ Em Es).
    reflexivity.
  - unfold iloc_neg, band_lower. rewrite length_zip_with, Lm by congruence.
    apply nth_error_nth.
    rewrite (nth_error_zip_with
               (fun m0 s0 => fsub m0 (fmul (of_nat k) s0)) _ _ _ _ _ Em Es).
    reflexivity.
  - rewrite !Qred_correct. repeat split; lra.
Qed.

(** The position of a price inside the band, by the side of the middle it
    is on. *)
Lemma band_position (p l m u : Q) :
  l <= m -> m <= u -> u - m == m - l ->
  let position :=
    if fneb (Fin u) (Fin l)
    then fdiv (fsub (Fin p) (Fin l)) (fsub (Fin u) (Fin l))
    else Fin 0.5 in
  (m < p -> fltb position (Fin 0.2) = false)
  /\ (p < m -> fgtb position (Fin 0.8) = false
               /\ fgtb position (Fin 0.5) = false).
Proof.
  intros Hl Hu Hsym. cbv zeta. unfold fneb, fgtb. cbn [feqb].
  destruct (Qeq_bool u l) eqn:E; cbn [negb].
  - split; [intros _; reflexivity | intros _; split; reflexivity].
  - apply Qeq_bool_false_iff in E.
    assert (Hw : 0 < u - l) by lra.
    cbn [fsub fneg fadd fdiv].
    assert (Hne : ~ Qred (u + Qred (- l)) == 0)
      by (rewrite !Qred_correct; lra).
    rewrite (proj2 (Qeq_bool_false_iff _ 0) Hne).
    assert (Ev : Qred (Qred (p + Qred (- l)) / Qred (u + Qred (- l)))
                 == (p - l) / (u - l)).
    { rewrite !Qred_correct. reflexivity. }
    split.
    + intro Hp. apply fltb_Fin_false. rewrite Ev.
      apply Qle_shift_div_l; [exact Hw | lra].
    + intro Hp. split; apply fltb_Fin_false; rewrite Ev;
        apply Qle_shift_div_r; try exact Hw; lra.
Qed.

Lemma bollinger_trend_entries {lib : PyLib} (self : BollingerBandStrategy)
    (qs : list Q) :
  (forall q, 0 <= sqrtQ q) ->
  (2 <= window self)%nat -> (window self + 5 <= length qs)%nat ->
  (rising qs ->
   In (entry_of (BollingerBandStrategy_analyze self (map Fin qs)))
      [("卖出", Fin 0.85); ("卖出", Fin 0.7); ("持有", Fin 0.55)])
  /\ (falling qs ->
      In (entry_of (BollingerBandStrategy_analyze self (map Fin qs)))
         [("买入", Fin 0.8); ("买入", Fin 0.7); ("持有", Fin 0.55)]).
Proof.
  intros Hsqrt Hw Hlen.
  set (n := length qs) in *.
  unfold BollingerBandStrategy_analyze. rewrite length_map. fold n.
  rewrite (proj2 (Nat.ltb_ge n (window self + 5)) Hlen). cbv zeta.
  rewrite iloc_price by (intro E; unfold n in Hlen; rewrite E in Hlen;
                         simpl in Hlen; lia).
  fold n.
  destruct (iloc_bands qs (window self) (std_dev self) Hsqrt Hw ltac:(fold n; lia))
    as [m [l [u [-> [-> [-> [Hm [Hl [Hu Hsym]]]]]]]]].
  fold n in Hm.
  set (p := nth (n - 1) qs 0) in *.
  destruct (band_position p l m u Hl Hu Hsym) as [Hup Hdown].
  cbv zeta in Hup, Hdown.
  set (position := if fneb (Fin u) (Fin l) then _ else _) in *.
  set (volatility := fgtb _ (Fin 1.1)).
  unfold fgeb.
  split; intro Htrend.
  - assert (Hp : m < p).
    { rewrite Hm. apply rising_price_above_mean; trivial; lia. }
    destruct (fleb (Fin u) (Fin p)); [unfold entry_of; simpl; tauto |].
    rewrite (proj2 (fleb_Fin_false p l)) by lra.
    rewrite (Hup Hp). cbn [andb].
    destruct (fgtb position (Fin 0.8) && volatility);
      [unfold entry_of; simpl; tauto |].
    destruct (fgtb position (Fin 0.5)); unfold entry_of; simpl; tauto.
  - assert (Hp : p < m).
    { rewrite Hm. apply falling_price_below_mean; trivial; lia. }
    rewrite (proj2 (fleb_Fin_false u p)) by lra.
    destruct (fleb (Fin p) (Fin l)); [unfold entry_of; simpl; tauto |].
    destruct (Hdown Hp) as [-> ->]. cbn [andb].
    destruct (fltb position (Fin 0.2) && volatility);
      unfold entry_of; simpl; tauto.
Qed.

(** ** The engine on a steady trend *)

Lemma rsi_trend_entries {lib : PyLib} (qs : list Q) :
  (19 <= length qs)%nat ->
  (rising qs ->
   entry_of (RSIStrategy_analyze engine_rsi (map Fin qs))
   = ("卖出", Fin 0.85))
  /\ (falling qs ->
      entry_of (RSIStrategy_analyze engine_rsi (map Fin qs))
      = ("买入", Fin 0.8)).
Proof.
  intro Hlen.
  destruct qs as [| a rest]; [simpl in Hlen; lia |].
  rewrite analyze_long_enough by (rewrite length_map; exact Hlen).
  rewrite strategy_rsi_last by discriminate.
  destruct (trend_means a rest 14 ltac:(lia) Hlen) as [Hup [Hdown _]].
  cbn [period engine_rsi] in *.
  split; intro Htrend.
  - destruct (Hup Htrend) as [g [-> [Hg ->]]].
    change (fneg (Fin 0)) with (Fin 0).
    rewrite (rsi_point_zero_loss g 0) by lra.
    rewrite (proj2 (Qeq_bool_false_iff g 0)) by lra. reflexivity.
  - destruct (Hdown Htrend) as [l [-> [Hl ->]]].
    cbn [fneg].
    rewrite (rsi_point_zero_gain 0 (Qred (- l)))
      by (rewrite ?Qred_correct; lra).
    reflexivity.
Qed.

Lemma engine_outcome {lib : PyLib} (ps : Series) :
  option_map (fun r => (final_action r, avg_confidence r, votes r))
             (StrategyEngine_analyze ps)
  = outcome_of [ entry_of (MovingAverageStrategy_analyze engine_ma ps);
                 entry_of (RSIStrategy_analyze engine_rsi ps);
                 entry_of (BollingerBandStrategy_analyze engine_bb ps) ].
Proof.
  unfold StrategyEngine_analyze. fold (engine_signals ps).
  rewrite (aggregate_of_entries (engine_signals ps)). reflexivity.
Qed.

Lemma outcome_result (o : option StrategyResult) (a : string) (c : pyfloat)
    (v : dict nat) :
  option_map (fun r => (final_action r, avg_confidence r, votes r)) o
  = Some (a, c, v) ->
  exists r, o = Some r /\ final_action r = a /\ avg_confidence r = c
            /\ votes r = v.
Proof.
  destruct o as [r |]; [| discriminate]. simpl. intro H.
  injection H as H1 H2 H3. exists r. repeat split; assumption.
Qed.

Lemma engine_result_signals {lib : PyLib} (ps : Series) (r : StrategyResult) :
  StrategyEngine_analyze ps = Some r -> signals r = engine_signals ps.
Proof.
  unfold StrategyEngine_analyze, aggregate. fold (engine_signals ps).
  destruct (tally _ _ _) as [[vs tc] |]; [| discriminate].
  destruct (max_by _ _ _); [| discriminate].
  intro H. injection H as <-. reflexivity.
Qed.

Lemma uptrend_outcomes (b : string * pyfloat) :
  In b [("卖出", Fin 0.85); ("卖出", Fin 0.7); ("持有", Fin 0.55)] ->
  outcome_of [("买入", Fin 0.7); ("卖出", Fin 0.85); b]
  = Some ("卖出", Fin (17 # 20), votes_of 1 2 0)
  \/ outcome_of [("买入", Fin 0.7); ("卖出", Fin 0.85); b]
     = Some ("卖出", Fin (31 # 40), votes_of 1 2 0)
  \/ outcome_of [("买入", Fin 0.7); ("卖出", Fin 0.85); b]
     = Some ("卖出", Fin (17 # 20), votes_of 1 1 1).
Proof.
  intro H. simpl in H.
  destruct H as [<- | [<- | [<- | []]]]; vm_compute; tauto.
Qed.


(** X27.  On at least 25 prices as the data service gives them (positive, at
    most a million, with three decimals) that rise at every step the engine
    says Sell, never Buy: the moving-average strategy says Buy with 0.7,
    the RSI strategy says Sell with 0.85 (its RSI is 100), and the
    Bollinger strategy says Sell or holds, the price being above the middle
    band; in the tie of one vote each the RSI's higher confidence decides.
    The confidence is between 0.77 and 0.85, and the amount is 0. *)
Theorem engine_sells_in_a_steady_uptrend :
  forall (lib : PyLib) (qs : list Q) (capital : pyfloat),
    (forall q, 0 <= sqrtQ q) ->
    (25 <= length qs)%nat -> rising qs -> forallb quoted qs = true ->
    exists r ma rsi bb,
      StrategyEngine_analyze (map Fin qs) = Some r
      /\ signals r = [ma; rsi; bb]
      /\ entry_of ma = ("买入", Fin 0.7)
      /\ entry_of rsi = ("卖出", Fin 0.85)
      /\ In (entry_of bb)
            [("卖出", Fin 0.85); ("卖出", Fin 0.7); ("持有", Fin 0.55)]
      /\ final_action r = "卖出"
      /\ fleb (Fin 0.77) (avg_confidence r) = true
      /\ fleb (avg_confidence r) (Fin 0.85) = true
      /\ calculate_position capital (avg_confidence r) (final_action r)
         = Fin 0.
Proof.
  intros lib qs capital Hsqrt Hlen Hr Hq.
  pose proof (quoted_positive qs Hq) as Hpos.
  pose proof (engine_outcome (map Fin qs)) as Ho.
  assert (Hma : entry_of (MovingAverageStrategy_analyze engine_ma (map Fin qs))
                = ("买入", Fin 0.7)).
  { rewrite ma_rising_signal; trivial; simpl; lia. }
  pose proof (proj1 (rsi_trend_entries qs ltac:(lia)) Hr) as Hrsi.
  pose proof (proj1 (bollinger_trend_entries engine_bb qs Hsqrt
                       ltac:(simpl; lia) ltac:(simpl; lia)) Hr) as Hbb.
  rewrite Hma, Hrsi in Ho.
  pose proof (uptrend_outcomes _ Hbb) as Hcases.
  assert (Hres : exists a c v,
             option_map (fun r => (final_action r, avg_confidence r, votes r))
                        (StrategyEngine_analyze (map Fin qs)) = Some (a, c, v)
             /\ a = "卖出" /\ (c = Fin (17 # 20) \/ c = Fin (31 # 40))).
  { rewrite Ho. destruct Hcases as [-> | [-> | ->]]; do 3 eexists;
      (split; [reflexivity |]); split; auto. }
  destruct Hres as [a [c [v [Hopt [Ha Hc]]]]].
  destruct (outcome_result _ _ _ _ Hopt) as [r [Hsome [Hfa [Hac _]]]].
  exists r, (MovingAverageStrategy_analyze engine_ma (map Fin qs)),
    (RSIStrategy_analyze engine_rsi (map Fin qs)),
    (BollingerBandStrategy_analyze engine_bb (map Fin qs)).
  split; [exact Hsome |].
  split; [apply (engine_result_signals _ _ Hsome) |].
  split; [exact Hma |]. split; [exact Hrsi |]. split; [exact Hbb |].
  rewrite Hfa, Hac, Ha. split; [reflexivity |].
  destruct Hc as [-> | ->]; repeat split; vm_compute; reflexivity.
Qed.

Lemma engine_sells_in_a_steady_uptrend_witness :
  exists r,
    StrategyEngine_analyze (lib := sample_lib) (map Fin long_climb) = Some r
    /\ final_action r = "卖出".
Proof.
  destruct (engine_sells_in_a_steady_uptrend sample_lib long_climb (Fin 10000))
    as [r [ma [rsi [bb [H1 [_ [_ [_ [_ [H2 _]]]]]]]]]].
  - apply sqrt_digits_nonneg.
  - simpl. lia.
  - vm_compute. repeat split.
  - vm_compute. reflexivity.
  - exists r. split; assumption.
Defined.



(** ** The choice of the provider *)

(** X29.  The key is the one of DeepSeek whenever that variable is set to a text
    that is not empty, also for the OpenAI provider; the key of OpenAI is
    used when the other is missing, also for the DeepSeek provider.  A
    provider other than the mock one is built with a key that is not empty,
    so the test of the key in its [generate] never fails; the mock provider
    is chosen exactly when the type is neither "deepseek" nor "openai" or
    no key is set. *)
Theorem provider_choice :
  forall (deepseek_key openai_key provider_type : option string),
    let choice := LLMService_init deepseek_key openai_key provider_type in
    (forall key,
        choice = DeepSeekProvider key \/ choice = OpenAIProvider key ->
        key <> ""
        /\ (truthy_opt deepseek_key = true -> deepseek_key = Some key)
        /\ (truthy_opt deepseek_key = false -> openai_key = Some key))
    /\ (choice = MockLLMProvider <->
        (provider_type <> Some "deepseek" /\ provider_type <> Some "openai")
        \/ (truthy_opt deepseek_key = false /\ truthy_opt openai_key = false))
    /\ (truthy_opt deepseek_key = true -> provider_type = Some "openai" ->
        exists key, deepseek_key = Some key /\ choice = OpenAIProvider key).
Proof.
  intros d o t. cbv zeta. unfold LLMService_init, py_or.
  destruct (truthy_opt d) eqn:Ed.
  - destruct d as [k |]; [| discriminate]. simpl in Ed. rewrite Ed.
    rewrite !andb_true_r.
    assert (Hk : k <> "").
    { unfold truthy in Ed. apply negb_true_iff in Ed.
      apply String.eqb_neq. exact Ed. }
    split; [| split].
    + intros key H.
      destruct (String.eqb _ "deepseek"); [| destruct (String.eqb _ "openai")];
        destruct H as [H | H]; try discriminate; injection H as <-;
        (split; [exact Hk |]); split; congruence.
    + destruct t as [t |].
      * destruct (String.eqb t "deepseek") eqn:E1;
          [| destruct (String.eqb t "openai") eqn:E2].
        -- apply String.eqb_eq in E1. subst t. split; [discriminate |].
           intros [[H _] | [H _]]; congruence.
        -- apply String.eqb_eq in E2. subst t. split; [discriminate |].
           intros [[_ H] | [H _]]; congruence.
        -- apply String.eqb_neq in E1. apply String.eqb_neq in E2.
           split; [| reflexivity]. intros _. left. split; congruence.
      * simpl. split; [| reflexivity]. intros _. left. split; discriminate.
    + intros _ ->. exists k. split; reflexivity.
  - split; [| split; [| discriminate]].
    + intros key H. destruct o as [k |]; [| destruct H; discriminate].
      destruct (truthy k) eqn:Ek;
        [| rewrite !andb_false_r in H; destruct H; discriminate].
      assert (Hk : k <> "").
      { unfold truthy in Ek. apply negb_true_iff in Ek.
        apply String.eqb_neq. exact Ek. }
      rewrite !andb_true_r in H.
      destruct (String.eqb _ "deepseek"); [| destruct (String.eqb _ "openai")];
        destruct H as [H | H]; try discriminate; injection H as <-;
        (split; [exact Hk |]); split; congruence.
    + destruct o as [k |];
        [| split; [intros _; right; split; reflexivity | reflexivity]].
      simpl. destruct (truthy k) eqn:Ek.
      * rewrite !andb_true_r. destruct t as [t |].
        -- destruct (String.eqb t "deepseek") eqn:E1;
             [| destruct (String.eqb t "openai") eqn:E2].
           ++ apply String.eqb_eq in E1. subst t. split; [discriminate |].
              intros [[H _] | [_ H]]; congruence.
           ++ apply String.eqb_eq in E2. subst t. split; [discriminate |].
              intros [[_ H] | [_ H]]; congruence.
           ++ apply String.eqb_neq in E1. apply String.eqb_neq in E2.
              split; [| reflexivity]. intros _. left. split; congruence.
        -- simpl. split; [| reflexivity]. intros _. left.
           split; discriminate.
      * rewrite !andb_false_r.
        split; [intros _; right; split; reflexivity | reflexivity].
Qed.

Example provider_gets_the_other_key :
  LLMService_init (Some "deepseek-key") (Some "openai-key") (Some "openai")
  = OpenAIProvider "deepseek-key"
  /\ LLMService_init None (Some "openai-key") (Some "deepseek")
     = DeepSeekProvider "openai-key".
Proof. split; reflexivity. Qed.
